(** * The agent loop of the CLI assistant, embedded in Rocq

    A shallow embedding of the Python sources
      - [src/llm/base.py]        (messages, provider interface),
      - [src/agent/memory.py]    (conversation memory),
      - [src/tools/base.py]      (tool results, tools, registry),
      - [src/tools/dispatcher.py](tool calls, dispatcher),
      - [src/utils/exceptions.py](exception classes),
      - [src/agent/core.py]      (the agent loop),
    followed by the properties proved about them.

    Conventions.  Python objects are modelled by value with the types of
    their annotations; where the code accepts more than the annotation says
    (tool-call arguments that are a raw string, tool calls that are provider
    objects rather than dicts) the wider type is modelled.  A [dict] with a
    fixed set of string keys is a record of optional fields, [None] standing
    for an absent key.  Mutation of [self] is state passing; exceptions are
    an [Outcome].  Built-ins of the host language ([str], [json.loads]) and
    the model backend are interfaces (type classes). *)

From Stdlib Require Import String Ascii DecimalString ZArith Lia Bool List.
Import ListNotations.
Open Scope string_scope.
Open Scope list_scope.
Open Scope Z_scope.

Set Implicit Arguments.

(* ====================================================================== *)
(** ** Host-language values *)
(* ====================================================================== *)

(** The values that travel as [Any]: tool-call arguments, tool payloads,
    schema parameters. *)
#[warnings="-register-all"]
Inductive PyValue : Type :=
| PyNone
| PyBool (b : bool)
| PyInt (n : Z)
| PyStr (s : string)
| PyList (items : list PyValue)
| PyDict (items : list (string * PyValue)).

(** Built-ins the sources call but do not define. *)
Class PyRuntime : Type := {
  (** [str(x)] *)
  py_str : PyValue -> string;
  (** [json.loads(s)]; [None] when it raises [json.JSONDecodeError] *)
  json_loads : string -> option PyValue
}.

(** [str(n)] for an [int]. *)
Definition str_of_int (n : Z) : string := NilZero.string_of_int (Z.to_int n).

(** [sep.join(parts)] *)
Fixpoint join (sep : string) (parts : list string) : string :=
  match parts with
  | [] => ""
  | [p] => p
  | p :: rest => p ++ sep ++ join sep rest
  end.

(** Truthiness of a [str]. *)
Definition str_truthy (s : string) : bool :=
  match s with EmptyString => false | _ => true end.

(** Truthiness of a [str | None]. *)
Definition opt_str_truthy (o : option string) : bool :=
  match o with Some s => str_truthy s | None => false end.

(** [type(x).__name__] *)
Definition type_name (v : PyValue) : string :=
  match v with
  | PyNone => "NoneType"
  | PyBool _ => "bool"
  | PyInt _ => "int"
  | PyStr _ => "str"
  | PyList _ => "list"
  | PyDict _ => "dict"
  end.

(* ====================================================================== *)
(** ** Exceptions ([src/utils/exceptions.py]) *)
(* ====================================================================== *)

Inductive LLMErrorClass := LLMErrorBase | LLMConnectionError | LLMResponseError.

(** The exceptions the program raises and handles, all of them instances
    of [Exception]: its handlers are [except Exception], [except ToolError],
    [except LLMError] and [except json.JSONDecodeError].  What is not an
    [Exception] ([SystemExit], [KeyboardInterrupt],
    [asyncio.CancelledError]) passes every one of these handlers and ends
    the task; it is not a value of this type, and a property that depends
    on what a callee raises says so in a hypothesis. *)
Inductive Exn : Type :=
| LLMError (cls : LLMErrorClass) (msg : string)
| ToolNotFoundError (tool_name : string)
| ToolExecutionError (tool_name message : string)
| ToolValidationError (tool_name message : string)
| KeyError (key : string)
| AttributeError (msg : string)
| ValueError (msg : string)
| TypeError (msg : string)
| OtherException (msg : string).

(** [isinstance(e, ToolError)] *)
Definition is_ToolError (e : Exn) : bool :=
  match e with
  | ToolNotFoundError _ | ToolExecutionError _ _ | ToolValidationError _ _ => true
  | _ => false
  end.

(** [isinstance(e, LLMError)] *)
Definition is_LLMError (e : Exn) : bool :=
  match e with LLMError _ _ => true | _ => false end.

(** [str(e)]: the message each class passes to [Exception.__init__]. *)
Definition exn_str (e : Exn) : string :=
  match e with
  | LLMError _ msg => msg
  | ToolNotFoundError tool_name => "Tool not found: " ++ tool_name
  | ToolExecutionError tool_name message =>
      "Error executing " ++ tool_name ++ ": " ++ message
  | ToolValidationError tool_name message =>
      "Validation error for " ++ tool_name ++ ": " ++ message
  | KeyError key => "'" ++ key ++ "'"
  | AttributeError msg => msg
  | ValueError msg => msg
  | TypeError msg => msg
  | OtherException msg => msg
  end.

(** The result of a call that may raise. *)
Inductive Outcome (A : Type) : Type :=
| Returned (a : A)
| Raised (e : Exn).
Arguments Returned {A} a.
Arguments Raised {A} e.

Definition obind {A B} (o : Outcome A) (k : A -> Outcome B) : Outcome B :=
  match o with
  | Returned a => k a
  | Raised e => Raised e
  end.

(** [for x in xs: ys.append(f(x))], stopping at the first exception. *)
Fixpoint omap {A B} (f : A -> Outcome B) (xs : list A) : Outcome (list B) :=
  match xs with
  | [] => Returned []
  | x :: rest =>
      obind (f x) (fun y => obind (omap f rest) (fun ys => Returned (y :: ys)))
  end.

(* ====================================================================== *)
(** ** Tool-call requests as the provider hands them over *)
(* ====================================================================== *)

(** The mapping under the key ["function"]: keys ["name"], ["arguments"]. *)
Record FunctionDict : Type := {
  fd_name : option string;
  fd_arguments : option PyValue
}.

(** The [function] attribute of a provider object: itself an object with
    attributes [name] and [arguments], or a mapping. *)
Inductive FunctionData : Type :=
| FnObject (name : string) (arguments : PyValue)
| FnMapping (d : FunctionDict).

(** A tool call that is a [dict]: keys ["function"], ["name"],
    ["arguments"], ["id"], ["raw"], each possibly absent. *)
Record ToolCallDict : Type := {
  tcd_function : option FunctionDict;
  tcd_name : option string;
  tcd_arguments : option PyValue;
  tcd_id : option string;
  tcd_raw : option string
}.

(** One element of [tool_calls]: a provider object with a [function]
    attribute (it answers [in] and [.get] like a mapping of its
    attributes), a plain [dict], or any other object, of which only its
    [str()] is known. *)
Inductive ToolCallData : Type :=
| TcObject (function : FunctionData)
| TcDict (d : ToolCallDict)
| TcOther (repr : string).

(* ====================================================================== *)
(** ** Messages and the provider interface ([src/llm/base.py]) *)
(* ====================================================================== *)

Inductive MessageRole := SYSTEM | USER | ASSISTANT | TOOL.

(** [role.value] *)
Definition role_value (r : MessageRole) : string :=
  match r with
  | SYSTEM => "system"
  | USER => "user"
  | ASSISTANT => "assistant"
  | TOOL => "tool"
  end.

(** [MessageRole(value)]; an unknown value raises [ValueError]. *)
Definition MessageRole_of_value (v : string) : Outcome MessageRole :=
  if String.eqb v "system" then Returned SYSTEM
  else if String.eqb v "user" then Returned USER
  else if String.eqb v "assistant" then Returned ASSISTANT
  else if String.eqb v "tool" then Returned TOOL
  else Raised (ValueError ("'" ++ v ++ "' is not a valid MessageRole")).

Record Message : Type := {
  role : MessageRole;
  content : string;
  tool_calls : option (list ToolCallData);
  tool_call_id : option string
}.

Definition Message_system (c : string) : Message :=
  {| role := SYSTEM; content := c; tool_calls := None; tool_call_id := None |}.

Definition Message_user (c : string) : Message :=
  {| role := USER; content := c; tool_calls := None; tool_call_id := None |}.

Definition Message_assistant (c : string) (tcs : option (list ToolCallData))
  : Message :=
  {| role := ASSISTANT; content := c; tool_calls := tcs; tool_call_id := None |}.

Definition Message_tool_result (c : string) (id : string) : Message :=
  {| role := TOOL; content := c; tool_calls := None; tool_call_id := Some id |}.

(** The [dict] that [Message.to_dict] builds for an API call: ["role"] and
    ["content"] always, ["tool_calls"] and ["tool_call_id"] only when the
    attribute is truthy. *)
Record MessagePayload : Type := {
  p_role : string;
  p_content : string;
  p_tool_calls : option (list ToolCallData);
  p_tool_call_id : option string
}.

Definition Message_to_dict (self : Message) : MessagePayload :=
  {| p_role := role_value (role self);
     p_content := content self;
     p_tool_calls :=
       match tool_calls self with
       | Some (tc :: rest) => Some (tc :: rest)
       | _ => None
       end;
     p_tool_call_id :=
       if opt_str_truthy (tool_call_id self) then tool_call_id self else None |}.

Module LLMResponse.
Record t : Type := {
  content : string;
  tool_calls : list ToolCallData;
  finish_reason : option string
}.

(** [bool(self.tool_calls)] *)
Definition has_tool_calls (r : t) : bool :=
  match tool_calls r with [] => false | _ => true end.
End LLMResponse.

(** The abstract class [LLMProvider].  A provider is a stateful object: a
    call returns the provider's next state with its answer.  [chat] either
    returns a response or raises an [LLMError] with the given class and
    message; [chat_stream] yields chunks and then stops, normally or with
    an [LLMError]. *)
Class LLMProvider (P : Type) : Type := {
  chat : P -> list Message -> option (list PyValue) ->
         P * (LLMErrorClass * string + LLMResponse.t);
  chat_stream : P -> list Message -> option (list PyValue) ->
         P * (list string * option (LLMErrorClass * string))
}.

(* ====================================================================== *)
(** ** Conversation memory ([src/agent/memory.py]) *)
(* ====================================================================== *)

Record ConversationMemory : Type := {
  messages : list Message;
  system_prompt : option string;
  max_messages : Z
}.

(** [ConversationMemory()] with the dataclass defaults. *)
Definition ConversationMemory_new : ConversationMemory :=
  {| messages := []; system_prompt := None; max_messages := 100 |}.

Definition set_system_prompt (m : ConversationMemory) (prompt : string)
  : ConversationMemory :=
  {| messages := messages m;
     system_prompt := Some prompt;
     max_messages := max_messages m |}.

(** [_trim_if_needed]: the slice [self.messages[excess:]] with a positive
    [excess] drops that many leading elements (all of them when [excess]
    is past the end). *)
Definition _trim_if_needed (m : ConversationMemory) : ConversationMemory :=
  let len := Z.of_nat (length (messages m)) in
  if len >? max_messages m then
    let excess := len - max_messages m in
    {| messages := skipn (Z.to_nat excess) (messages m);
       system_prompt := system_prompt m;
       max_messages := max_messages m |}
  else m.

(** [self.messages.append(msg)] *)
Definition messages_append (m : ConversationMemory) (msg : Message)
  : ConversationMemory :=
  {| messages := messages m ++ [msg];
     system_prompt := system_prompt m;
     max_messages := max_messages m |}.

Definition add_user_message (m : ConversationMemory) (c : string)
  : ConversationMemory :=
  _trim_if_needed (messages_append m (Message_user c)).

Definition add_assistant_message (m : ConversationMemory) (c : string)
    (tcs : option (list ToolCallData)) : ConversationMemory :=
  _trim_if_needed (messages_append m (Message_assistant c tcs)).

Definition add_tool_result (m : ConversationMemory) (c : string) (id : string)
  : ConversationMemory :=
  _trim_if_needed (messages_append m (Message_tool_result c id)).

Definition get_messages (m : ConversationMemory) : list Message :=
  match system_prompt m with
  | Some prompt => if str_truthy prompt then [Message_system prompt] else []
  | None => []
  end
  ++ messages m.

Definition get_last_message (m : ConversationMemory) : option Message :=
  last (map Some (messages m)) None.

Definition clear (m : ConversationMemory) : ConversationMemory :=
  {| messages := [];
     system_prompt := system_prompt m;
     max_messages := max_messages m |}.

(** [__len__] *)
Definition memory_len (m : ConversationMemory) : nat := length (messages m).

(** The serialized form: the [dict] that [to_dict] builds and [from_dict]
    reads.  It has the keys ["system_prompt"] and ["messages"] and no
    other; each message is a [dict] with the keys ["role"], ["content"],
    ["tool_calls"], ["tool_call_id"]. *)
Record MessageDict : Type := {
  md_role : option string;
  md_content : option string;
  md_tool_calls : option (list ToolCallData);
  md_tool_call_id : option string
}.

Record MemoryDict : Type := {
  d_system_prompt : option string;
  d_messages : option (list MessageDict)
}.

(** One step of the loop of [_serialize_tool_calls]. *)
Definition serialize_tool_call (tc : ToolCallData) : ToolCallData :=
  match tc with
  | TcObject f =>
      TcDict
        {| tcd_function :=
             Some {| fd_name :=
                       Some (match f with
                             | FnObject n _ => n
                             | FnMapping d =>
                                 match fd_name d with Some n => n | None => "" end
                             end);
                     fd_arguments :=
                       Some (match f with
                             | FnObject _ a => a
                             | FnMapping d =>
                                 match fd_arguments d with
                                 | Some a => a
                                 | None => PyDict []
                                 end
                             end) |};
           tcd_name := None;
           tcd_arguments := None;
           tcd_id := None;
           tcd_raw := None |}
  | TcDict d => TcDict d
  | TcOther repr =>
      TcDict
        {| tcd_function := None;
           tcd_name := None;
           tcd_arguments := None;
           tcd_id := None;
           tcd_raw := Some repr |}
  end.

Definition _serialize_tool_calls (tcs : option (list ToolCallData))
  : option (list ToolCallData) :=
  match tcs with
  | None => None
  | Some [] => None
  | Some l => Some (map serialize_tool_call l)
  end.

Definition to_dict (m : ConversationMemory) : MemoryDict :=
  {| d_system_prompt := system_prompt m;
     d_messages :=
       Some (map (fun msg =>
                    {| md_role := Some (role_value (role msg));
                       md_content := Some (content msg);
                       md_tool_calls := _serialize_tool_calls (tool_calls msg);
                       md_tool_call_id := tool_call_id msg |})
                 (messages m)) |}.

(** [msg_data[key]] *)
Definition subscript {A} (key : string) (field : option A) : Outcome A :=
  match field with
  | Some v => Returned v
  | None => Raised (KeyError key)
  end.

(** The body of the loop of [from_dict]: the [Message] built from one
    entry. *)
Definition message_of_dict (msg_data : MessageDict) : Outcome Message :=
  obind (subscript "role" (md_role msg_data)) (fun v =>
  obind (MessageRole_of_value v) (fun r =>
  obind (subscript "content" (md_content msg_data)) (fun c =>
  Returned {| role := r;
              content := c;
              tool_calls := md_tool_calls msg_data;
              tool_call_id := md_tool_call_id msg_data |}))).

Definition from_dict (data : MemoryDict) : Outcome ConversationMemory :=
  let memory := ConversationMemory_new in
  obind (omap message_of_dict
              (match d_messages data with Some l => l | None => [] end))
        (fun msgs =>
           Returned {| messages := messages memory ++ msgs;
                       system_prompt := d_system_prompt data;
                       max_messages := max_messages memory |}).

(* ====================================================================== *)
(** ** Tools and the registry ([src/tools/base.py]) *)
(* ====================================================================== *)

Module ToolResult.
Record t : Type := {
  success : bool;
  data : PyValue;
  error : option string
}.

Section ToMessage.
Context {RT : PyRuntime}.

(** An f-string renders a [str | None] field: [None] prints as
    ["None"]. *)
Definition format_opt_str (o : option string) : string :=
  match o with Some s => s | None => "None" end.

Definition to_message (self : t) : string :=
  if success self then
    match data self with
    | PyNone => "Operation completed successfully."
    | d => py_str d
    end
  else "Error: " ++ format_opt_str (error self).
End ToMessage.
End ToolResult.

Module ToolSchema.
Record t : Type := {
  name : string;
  description : string;
  parameters : PyValue
}.

Definition to_ollama_format (self : t) : PyValue :=
  PyDict
    [ ("type", PyStr "function");
      ("function",
       PyDict [ ("name", PyStr (name self));
                ("description", PyStr (description self));
                ("parameters", parameters self) ]) ].
End ToolSchema.

(** The abstract class [Tool].  [execute] receives the keyword arguments
    and returns a result or raises; a tool is stateless, so it is a
    function of its arguments. *)
Module Tool.
Record t : Type := {
  name : string;
  description : string;
  get_schema : ToolSchema.t;
  execute : list (string * PyValue) -> Outcome ToolResult.t
}.
End Tool.

(** A [dict] with string keys, in insertion order. *)
Section Dict.
Variable V : Type.

(** [d.get(k)] *)
Fixpoint dict_get (d : list (string * V)) (k : string) : option V :=
  match d with
  | [] => None
  | (k', v) :: rest => if String.eqb k k' then Some v else dict_get rest k
  end.

(** [d[k] = v]: an existing key keeps its position. *)
Fixpoint dict_set (d : list (string * V)) (k : string) (v : V)
  : list (string * V) :=
  match d with
  | [] => [(k, v)]
  | (k', v') :: rest =>
      if String.eqb k k' then (k', v) :: rest
      else (k', v') :: dict_set rest k v
  end.

(** [list(d.keys())] *)
Definition dict_keys (d : list (string * V)) : list string := map fst d.

(** [d.values()] *)
Definition dict_values (d : list (string * V)) : list V := map snd d.
End Dict.

Module ToolRegistry.
Record t : Type := { _tools : list (string * Tool.t) }.

Definition empty : t := {| _tools := [] |}.

Definition register (self : t) (tool : Tool.t) : t :=
  {| _tools := dict_set (_tools self) (Tool.name tool) tool |}.

Definition get (self : t) (name : string) : option Tool.t :=
  dict_get (_tools self) name.

Definition list_tools (self : t) : list string := dict_keys (_tools self).

Definition get_all_schemas (self : t) : list PyValue :=
  map (fun tool => ToolSchema.to_ollama_format (Tool.get_schema tool))
      (dict_values (_tools self)).

(** [__contains__] *)
Definition contains (self : t) (name : string) : bool :=
  match dict_get (_tools self) name with Some _ => true | None => false end.

(** [__len__] *)
Definition len (self : t) : nat := length (_tools self).
End ToolRegistry.

(* ====================================================================== *)
(** ** Tool calls and the dispatcher ([src/tools/dispatcher.py]) *)
(* ====================================================================== *)

Module ToolCall.
Record t : Type := {
  name : string;
  arguments : PyValue;
  id : option string
}.

(** [function.get("name", "")] *)
Definition function_name (function : FunctionData) : string :=
  match function with
  | FnObject n _ => n
  | FnMapping d => match fd_name d with Some n => n | None => "" end
  end.

(** [function.get("arguments", {})] *)
Definition function_arguments (function : FunctionData) : PyValue :=
  match function with
  | FnObject _ a => a
  | FnMapping d => match fd_arguments d with Some a => a | None => PyDict [] end
  end.

(** [from_ollama_response]: [tool_call.get("function", {})], then the
    name and arguments under it, and [tool_call.get("id")].  A provider
    object carries no [id]; an object that is not a mapping has no
    [.get]. *)
Definition from_ollama_response (tool_call : ToolCallData) : Outcome t :=
  match tool_call with
  | TcObject function =>
      Returned {| name := function_name function;
                  arguments := function_arguments function;
                  id := None |}
  | TcDict d =>
      let function :=
        match tcd_function d with
        | Some f => FnMapping f
        | None => FnMapping {| fd_name := None; fd_arguments := None |}
        end in
      Returned {| name := function_name function;
                  arguments := function_arguments function;
                  id := tcd_id d |}
  | TcOther _ => Raised (AttributeError "object has no attribute 'get'")
  end.

(** [from_dict]: the nested format when ["function" in data], the direct
    format otherwise.  On an object that is no container the membership
    test itself raises. *)
Definition from_dict (data : ToolCallData) : Outcome t :=
  match data with
  | TcObject _ => from_ollama_response data
  | TcDict d =>
      match tcd_function d with
      | Some _ => from_ollama_response data
      | None =>
          Returned
            {| name := match tcd_name d with Some n => n | None => "" end;
               arguments :=
                 match tcd_arguments d with Some a => a | None => PyDict [] end;
               id := tcd_id d |}
      end
  | TcOther _ => Raised (TypeError "argument is not iterable")
  end.
End ToolCall.

(** The dispatcher holds the (global) registry; the tools registered at
    import time are whatever that registry contains. *)
Module ToolDispatcher.
Record t : Type := { registry : ToolRegistry.t }.

Definition get_available_tools (self : t) : list string :=
  ToolRegistry.list_tools (registry self).

Definition get_tool_schemas (self : t) : list PyValue :=
  ToolRegistry.get_all_schemas (registry self).

Section Execute.
Context {RT : PyRuntime}.

(** [if isinstance(arguments, str): try json.loads ... except: pass] *)
Definition resolve_arguments (arguments : PyValue) : PyValue :=
  match arguments with
  | PyStr s =>
      match json_loads s with
      | Some parsed => parsed
      | None => arguments
      end
  | _ => arguments
  end.

(** [tool.execute] with [arguments] unpacked as keyword arguments:
    unpacking needs a mapping; anything
    else raises [TypeError] before the tool is entered.  (The
    interpreter prefixes the callee's qualified name to the message.) *)
Definition call_execute (tool : Tool.t) (arguments : PyValue)
  : Outcome ToolResult.t :=
  match arguments with
  | PyDict kwargs => Tool.execute tool kwargs
  | other =>
      Raised (TypeError ("execute() argument after ** must be a mapping, not "
                         ++ type_name other))
  end.

Definition execute (self : t) (tool_call : ToolCall.t)
  : Outcome ToolResult.t :=
  let tool_name := ToolCall.name tool_call in
  let arguments := ToolCall.arguments tool_call in
  match ToolRegistry.get (registry self) tool_name with
  | None =>
      let available := join ", " (get_available_tools self) in
      Raised (ToolNotFoundError
                ("Tool '" ++ tool_name ++ "' not found. Available tools: "
                 ++ available))
  | Some tool =>
      (* try: ... except Exception as e: raise ToolExecutionError *)
      match call_execute tool (resolve_arguments arguments) with
      | Returned result => Returned result
      | Raised e => Raised (ToolExecutionError tool_name (exn_str e))
      end
  end.

(** [execute_multiple]: the results in the order of the calls; the two
    dispatcher errors become failed results, any other exception would
    leave the loop. *)
Fixpoint execute_multiple (self : t) (tool_calls : list ToolCall.t)
  : Outcome (list ToolResult.t) :=
  match tool_calls with
  | [] => Returned []
  | tool_call :: rest =>
      match execute self tool_call with
      | Returned result =>
          obind (execute_multiple self rest)
                (fun results => Returned (result :: results))
      | Raised e =>
          match e with
          | ToolNotFoundError _ | ToolExecutionError _ _ =>
              obind (execute_multiple self rest)
                    (fun results =>
                       Returned ({| ToolResult.success := false;
                                    ToolResult.data := PyNone;
                                    ToolResult.error := Some (exn_str e) |}
                                 :: results))
          | _ => Raised e
          end
      end
  end.
End Execute.
End ToolDispatcher.

(* ====================================================================== *)
(** ** The agent ([src/agent/core.py], [src/agent/prompt.py]) *)
(* ====================================================================== *)

(** [SYSTEM_PROMPT] of [src/agent/prompt.py]. *)
Definition SYSTEM_PROMPT : string :=
  "You are a helpful CLI assistant with access to various tools. You can help users with:

1. **Calculator**: Perform mathematical calculations (basic arithmetic, trigonometry, logarithms)
2. **File Operations**: List directories, read files, get file info, create directories
3. **Weather**: Get current weather information for any city
4. **Web Search**: Search the web for information
5. **System Info**: Get system information (CPU, memory, disk, date/time)

## How to Use Tools

When the user asks you to do something that requires a tool, use the appropriate tool. You can chain multiple tool calls if needed.

## Guidelines

- Be concise and helpful
- When using file operations, always show the results clearly
- For calculations, show both the expression and result
- If a tool fails, explain the error and suggest alternatives
- If you're unsure which tool to use, ask for clarification
- You can use multiple tools in sequence to answer complex questions

## Response Format

- Use markdown formatting for clarity
- Use code blocks for file contents, code, or technical output
- Use bullet points for lists
- Keep responses focused and relevant

Remember: You're running as a CLI tool, so keep responses appropriately formatted for terminal display.".

(** [config.max_tool_iterations] of [src/utils/config.py]. *)
Definition config_max_tool_iterations : Z := 10.

Module AgentResponse.
Record t : Type := {
  content : string;
  tool_calls_made : list string;
  tool_results : list ToolResult.t
}.
End AgentResponse.

(** What a turn does to its collaborators, in order: the callbacks it
    fires, the requests it sends to the provider with their replies, the
    calls it hands to the dispatcher with their outcomes, the messages it
    appends to memory, the chunks the streaming variant yields. *)
Inductive Event : Type :=
| EvThinking
| EvToolStart (name : string)
| EvToolEnd (name : string) (result : ToolResult.t)
| EvChat (msgs : list Message) (tools : option (list PyValue))
         (reply : LLMErrorClass * string + LLMResponse.t)
| EvChatStream (msgs : list Message) (tools : option (list PyValue))
               (chunks : list string) (err : option (LLMErrorClass * string))
| EvExecute (tool_call : ToolCall.t) (outcome : Outcome ToolResult.t)
| EvAppend (msg : Message)
| EvYield (chunk : string).

Module Agent.
Section WithProvider.
Context {RT : PyRuntime} {P : Type} {LLM : LLMProvider P}.

(** The attributes of an [Agent].  A callback attribute records
    whether a callback is installed; firing it is an [Event]. *)
Record t : Type := {
  llm : P;
  dispatcher : ToolDispatcher.t;
  memory : ConversationMemory;
  max_iterations : Z;
  _on_tool_start : bool;
  _on_tool_end : bool;
  _on_thinking : bool
}.

Definition with_memory (self : t) (m : ConversationMemory) : t :=
  {| llm := llm self; dispatcher := dispatcher self; memory := m;
     max_iterations := max_iterations self;
     _on_tool_start := _on_tool_start self;
     _on_tool_end := _on_tool_end self;
     _on_thinking := _on_thinking self |}.

Definition with_llm (self : t) (p : P) : t :=
  {| llm := p; dispatcher := dispatcher self; memory := memory self;
     max_iterations := max_iterations self;
     _on_tool_start := _on_tool_start self;
     _on_tool_end := _on_tool_end self;
     _on_thinking := _on_thinking self |}.

(** [__init__]; [tool_registry] is the global registry a default
    dispatcher picks up.  [x or default] takes the default when [x] is
    [None] or falsy: a memory without messages (it defines [__len__]),
    the integer 0. *)
Definition new (tool_registry : ToolRegistry.t) (llm0 : P)
    (dispatcher0 : option ToolDispatcher.t)
    (memory0 : option ConversationMemory)
    (max_iterations0 : option Z) : t :=
  {| llm := llm0;
     dispatcher :=
       match dispatcher0 with
       | Some d => d
       | None => {| ToolDispatcher.registry := tool_registry |}
       end;
     memory :=
       set_system_prompt
         (match memory0 with
          | Some m =>
              match messages m with
              | [] => ConversationMemory_new
              | _ => m
              end
          | None => ConversationMemory_new
          end)
         SYSTEM_PROMPT;
     max_iterations :=
       match max_iterations0 with
       | Some n => if n =? 0 then config_max_tool_iterations else n
       | None => config_max_tool_iterations
       end;
     _on_tool_start := false;
     _on_tool_end := false;
     _on_thinking := false |}.

Definition set_callbacks (self : t) (on_tool_start on_tool_end on_thinking : bool)
  : t :=
  {| llm := llm self; dispatcher := dispatcher self; memory := memory self;
     max_iterations := max_iterations self;
     _on_tool_start := on_tool_start;
     _on_tool_end := on_tool_end;
     _on_thinking := on_thinking |}.

Definition clear_memory (self : t) : t := with_memory self (clear (memory self)).

Definition get_memory (self : t) : ConversationMemory := memory self.

(** [set_memory]: the attribute and the argument are one object, so
    the prompt set through the attribute is set in the argument. *)
Definition set_memory (self : t) (m : ConversationMemory) : t :=
  let self := with_memory self m in
  if negb (opt_str_truthy (system_prompt (memory self)))
  then with_memory self (set_system_prompt (memory self) SYSTEM_PROMPT)
  else self.

(** *** A turn as a computation over the agent and its event log *)

Record State : Type := { self : t; log : list Event }.

Definition M (A : Type) : Type := State -> Outcome A * State.

Definition ret {A} (a : A) : M A := fun s => (Returned a, s).

Definition bind {A B} (c : M A) (k : A -> M B) : M B :=
  fun s =>
    match c s with
    | (Returned a, s') => k a s'
    | (Raised e, s') => (Raised e, s')
    end.

Definition lift {A} (o : Outcome A) : M A := fun s => (o, s).

(** [try: body except <caught> as e: handler(e)] *)
Definition try_except {A} (body : M A) (caught : Exn -> bool)
    (handler : Exn -> M A) : M A :=
  fun s =>
    match body s with
    | (Returned a, s') => (Returned a, s')
    | (Raised e, s') => if caught e then handler e s' else (Raised e, s')
    end.

Definition emit (ev : Event) : M unit :=
  fun s => (Returned tt, {| self := self s; log := log s ++ [ev] |}).

(** [if callback: callback(...)] *)
Definition notify (installed : t -> bool) (ev : Event) : M unit :=
  fun s => if installed (self s) then emit ev s else (Returned tt, s).

Definition update_memory (f : ConversationMemory -> ConversationMemory)
  : M unit :=
  fun s =>
    (Returned tt,
     {| self := with_memory (self s) (f (memory (self s))); log := log s |}).

Local Notation "x <- c1 ;; c2" := (bind c1 (fun x => c2))
  (at level 61, c1 at next level, right associativity).
Local Notation "c1 ;; c2" := (bind c1 (fun _ => c2))
  (at level 61, right associativity).

(** [self.memory.add_user_message(content)] *)
Definition memory_add_user_message (c : string) : M unit :=
  update_memory (fun m => add_user_message m c) ;;
  emit (EvAppend (Message_user c)).

(** [self.memory.add_assistant_message(content, tool_calls)] *)
Definition memory_add_assistant_message (c : string)
    (tcs : option (list ToolCallData)) : M unit :=
  update_memory (fun m => add_assistant_message m c tcs) ;;
  emit (EvAppend (Message_assistant c tcs)).

(** [self.memory.add_tool_result(content, tool_call_id)] *)
Definition memory_add_tool_result (c : string) (id : string) : M unit :=
  update_memory (fun m => add_tool_result m c id) ;;
  emit (EvAppend (Message_tool_result c id)).

(** [await self.llm.chat(messages=self.memory.get_messages(),
    tools=...)] *)
Definition llm_chat (tools : option (list PyValue)) : M LLMResponse.t :=
  fun s =>
    let msgs := get_messages (memory (self s)) in
    let r := chat (llm (self s)) msgs tools in
    let s' := {| self := with_llm (self s) (fst r);
                 log := log s ++ [EvChat msgs tools (snd r)] |} in
    match snd r with
    | inl (cls, msg) => (Raised (LLMError cls msg), s')
    | inr response => (Returned response, s')
    end.

(** [await self.dispatcher.execute(tool_call)] *)
Definition dispatcher_execute (tool_call : ToolCall.t) : M ToolResult.t :=
  fun s =>
    let o := ToolDispatcher.execute (dispatcher (self s)) tool_call in
    (o, {| self := self s; log := log s ++ [EvExecute tool_call o] |}).

(** [self.dispatcher.get_tool_schemas()] *)
Definition get_tool_schemas : M (list PyValue) :=
  fun s => (Returned (ToolDispatcher.get_tool_schemas (dispatcher (self s))), s).

(** [tool_call.id or f"call_{iteration}_{tool_call.name}"] *)
Definition tool_call_id_of (iteration : Z) (tool_call : ToolCall.t) : string :=
  if opt_str_truthy (ToolCall.id tool_call)
  then match ToolCall.id tool_call with Some i => i | None => "" end
  else "call_" ++ str_of_int iteration ++ "_" ++ ToolCall.name tool_call.

(** [try: result = await self.dispatcher.execute(tool_call)
    except ToolError as e: result = ToolResult(success=False, error=str(e))] *)
Definition execute_or_failure (tool_call : ToolCall.t) : M ToolResult.t :=
  try_except (dispatcher_execute tool_call) is_ToolError
    (fun e => ret {| ToolResult.success := false;
                     ToolResult.data := PyNone;
                     ToolResult.error := Some (exn_str e) |}).

(** The [for tool_call_data in response.tool_calls] loop of [run]; the
    two lists are the locals [tool_calls_made] and [tool_results]. *)
Fixpoint process_tool_calls (iteration : Z) (tool_calls : list ToolCallData)
    (tool_calls_made : list string) (tool_results : list ToolResult.t)
  : M (list string * list ToolResult.t) :=
  match tool_calls with
  | [] => ret (tool_calls_made, tool_results)
  | tool_call_data :: rest =>
      tool_call <- lift (ToolCall.from_dict tool_call_data) ;;
      let tool_calls_made := tool_calls_made ++ [ToolCall.name tool_call] in
      notify _on_tool_start (EvToolStart (ToolCall.name tool_call)) ;;
      result <- execute_or_failure tool_call ;;
      let tool_results := tool_results ++ [result] in
      notify _on_tool_end (EvToolEnd (ToolCall.name tool_call) result) ;;
      memory_add_tool_result (ToolResult.to_message result)
                             (tool_call_id_of iteration tool_call) ;;
      process_tool_calls iteration rest tool_calls_made tool_results
  end.

(** [response.content or default] *)
Definition content_or (c default : string) : string :=
  if str_truthy c then c else default.

Definition exhaustion_message : string :=
  "I apologize, but I've reached the maximum number of tool calls. Please try a simpler request.".

Definition fallback_message : string := "I don't have a response.".

(** The [while iteration < self.max_iterations] loop of [run].
    [remaining] is the number of iterations the condition still
    admits, [max_iterations - iteration] (none when that is negative):
    the body adds one to [iteration] and nothing else changes either
    side of the comparison. *)
Fixpoint run_loop (remaining : nat) (iteration : Z)
    (tool_calls_made : list string) (tool_results : list ToolResult.t)
  : M AgentResponse.t :=
  match remaining with
  | O =>
      ret {| AgentResponse.content := exhaustion_message;
             AgentResponse.tool_calls_made := tool_calls_made;
             AgentResponse.tool_results := tool_results |}
  | S remaining' =>
      let iteration := iteration + 1 in
      notify _on_thinking EvThinking ;;
      reply <- try_except
                 (tools <- get_tool_schemas ;;
                  response <- llm_chat (Some tools) ;;
                  ret (inr response))
                 is_LLMError
                 (fun e => ret (inl e)) ;;
      match reply with
      | inl e =>
          ret {| AgentResponse.content :=
                   "Sorry, I encountered an error: " ++ exn_str e;
                 AgentResponse.tool_calls_made := tool_calls_made;
                 AgentResponse.tool_results := tool_results |}
      | inr response =>
          if LLMResponse.has_tool_calls response then
            memory_add_assistant_message
              (content_or (LLMResponse.content response) "")
              (Some (LLMResponse.tool_calls response)) ;;
            acc <- process_tool_calls iteration
                     (LLMResponse.tool_calls response)
                     tool_calls_made tool_results ;;
            run_loop remaining' iteration (fst acc) (snd acc)
          else
            let final_content :=
              content_or (LLMResponse.content response) fallback_message in
            memory_add_assistant_message final_content None ;;
            ret {| AgentResponse.content := final_content;
                   AgentResponse.tool_calls_made := tool_calls_made;
                   AgentResponse.tool_results := tool_results |}
      end
  end.

(** [Agent.run] *)
Definition run_m (user_message : string) : M AgentResponse.t :=
  memory_add_user_message user_message ;;
  fun s => run_loop (Z.to_nat (max_iterations (self s))) 0 [] [] s.

Definition run (agent : t) (user_message : string)
  : Outcome AgentResponse.t * State :=
  run_m user_message {| self := agent; log := [] |}.

(** The [for] loop of [run_stream]: as in [run], without the two
    lists. *)
Fixpoint stream_tool_calls (iteration : Z) (tool_calls : list ToolCallData)
  : M unit :=
  match tool_calls with
  | [] => ret tt
  | tool_call_data :: rest =>
      tool_call <- lift (ToolCall.from_dict tool_call_data) ;;
      notify _on_tool_start (EvToolStart (ToolCall.name tool_call)) ;;
      result <- execute_or_failure tool_call ;;
      notify _on_tool_end (EvToolEnd (ToolCall.name tool_call) result) ;;
      memory_add_tool_result (ToolResult.to_message result)
                             (tool_call_id_of iteration tool_call) ;;
      stream_tool_calls iteration rest
  end.

(** [async for chunk in self.llm.chat_stream(messages=..., tools=None)]
    with its body: every chunk is added to [full_response] and
    yielded; the stream may end with an [LLMError]. *)
Definition llm_chat_stream : M string :=
  fun s =>
    let msgs := get_messages (memory (self s)) in
    let r := chat_stream (llm (self s)) msgs None in
    let chunks := fst (snd r) in
    let s' := {| self := with_llm (self s) (fst r);
                 log := log s ++ [EvChatStream msgs None chunks (snd (snd r))]
                              ++ map EvYield chunks |} in
    match snd (snd r) with
    | Some (cls, msg) => (Raised (LLMError cls msg), s')
    | None => (Returned (String.concat "" chunks), s')
    end.

Definition stream_exhaustion_message : string :=
  "I apologize, but I've reached the maximum number of tool calls.".

(** The [while] loop of [run_stream]. *)
Fixpoint stream_loop (remaining : nat) (iteration : Z) : M unit :=
  match remaining with
  | O => emit (EvYield stream_exhaustion_message)
  | S remaining' =>
      let iteration := iteration + 1 in
      notify _on_thinking EvThinking ;;
      tools <- get_tool_schemas ;;
      response <- llm_chat (Some tools) ;;
      if LLMResponse.has_tool_calls response then
        memory_add_assistant_message
          (content_or (LLMResponse.content response) "")
          (Some (LLMResponse.tool_calls response)) ;;
        stream_tool_calls iteration (LLMResponse.tool_calls response) ;;
        stream_loop remaining' iteration
      else
        full_response <- llm_chat_stream ;;
        memory_add_assistant_message
          (content_or full_response fallback_message) None
  end.

(** [Agent.run_stream]: the chunks it yields are the [EvYield] events
    of the log, an exception it lets through is the outcome. *)
Definition run_stream_m (user_message : string) : M unit :=
  memory_add_user_message user_message ;;
  fun s => stream_loop (Z.to_nat (max_iterations (self s))) 0 s.

Definition run_stream (agent : t) (user_message : string)
  : Outcome unit * State :=
  run_stream_m user_message {| self := agent; log := [] |}.

End WithProvider.
Arguments t P : clear implicits.
Arguments State P : clear implicits.
End Agent.

(* ====================================================================== *)
(** ** Vocabulary of the properties *)
(* ====================================================================== *)

(** The three append operations of the memory. *)
Inductive AppendOp : Type :=
| AddUser (c : string)
| AddAssistant (c : string) (tcs : option (list ToolCallData))
| AddToolResult (c : string) (id : string).

Definition apply_op (m : ConversationMemory) (op : AppendOp) : ConversationMemory :=
  match op with
  | AddUser c => add_user_message m c
  | AddAssistant c tcs => add_assistant_message m c tcs
  | AddToolResult c id => add_tool_result m c id
  end.

(** The message an operation appends. *)
Definition op_message (op : AppendOp) : Message :=
  match op with
  | AddUser c => Message_user c
  | AddAssistant c tcs => Message_assistant c tcs
  | AddToolResult c id => Message_tool_result c id
  end.

Definition apply_ops (m : ConversationMemory) (ops : list AppendOp)
  : ConversationMemory :=
  fold_left apply_op ops m.

(** A tool call the agent can read: a [dict] or a provider object. *)
Definition known_format (tc : ToolCallData) : Prop :=
  match tc with TcOther _ => False | _ => True end.

Definition plain_dict (tc : ToolCallData) : Prop :=
  match tc with TcDict _ => True | _ => False end.

(** The requests a message carries; [None] and the empty list both carry
    none. *)
Definition requests (msg : Message) : list ToolCallData :=
  match tool_calls msg with Some l => l | None => [] end.

(** Two tool calls are equivalent when the agent reads the same name,
    arguments and id from them. *)
Definition tool_call_equiv (a b : ToolCallData) : Prop :=
  ToolCall.from_dict a = ToolCall.from_dict b.

(** Two messages are equivalent when they agree on role, content and
    correlation id and carry equivalent requests in the same order. *)
Definition message_equiv (a b : Message) : Prop :=
  role a = role b /\
  content a = content b /\
  tool_call_id a = tool_call_id b /\
  Forall2 tool_call_equiv (requests a) (requests b).

(** An entry of a serialized memory that [from_dict] can read: its role
    is the value of a [MessageRole] and it has a content. *)
Definition valid_message_dict (md : MessageDict) : Prop :=
  (exists r, md_role md = Some (role_value r)) /\ md_content md <> None.

(** The entry [md] and the message [msg] hold the same four fields. *)
Definition same_fields (md : MessageDict) (msg : Message) : Prop :=
  md_role md = Some (role_value (role msg)) /\
  md_content md = Some (content msg) /\
  md_tool_calls md = tool_calls msg /\
  md_tool_call_id md = tool_call_id msg.

(** *** Reading the event log *)

(** The messages appended to memory, in order. *)
Fixpoint appended (log : list Event) : list Message :=
  match log with
  | [] => []
  | EvAppend msg :: rest => msg :: appended rest
  | _ :: rest => appended rest
  end.

(** The number of model invocations. *)
Fixpoint model_calls (log : list Event) : nat :=
  match log with
  | [] => 0%nat
  | EvChat _ _ _ :: rest => S (model_calls rest)
  | _ :: rest => model_calls rest
  end.

(** The number of tool-dispatch rounds: model replies that request
    tools. *)
Fixpoint dispatch_rounds (log : list Event) : nat :=
  match log with
  | [] => 0%nat
  | EvChat _ _ (inr response) :: rest =>
      if LLMResponse.has_tool_calls response
      then S (dispatch_rounds rest)
      else dispatch_rounds rest
  | _ :: rest => dispatch_rounds rest
  end.

(** The calls handed to the dispatcher, with their outcomes. *)
Fixpoint executed (log : list Event) : list (ToolCall.t * Outcome ToolResult.t) :=
  match log with
  | [] => []
  | EvExecute tool_call outcome :: rest => (tool_call, outcome) :: executed rest
  | _ :: rest => executed rest
  end.

(** The chunks yielded by the streaming variant. *)
Fixpoint yielded (log : list Event) : list string :=
  match log with
  | [] => []
  | EvYield chunk :: rest => chunk :: yielded rest
  | _ :: rest => yielded rest
  end.

(** A model call that failed. *)
Definition failed_chat (ev : Event) : Prop :=
  match ev with EvChat _ _ (inl _) => True | _ => False end.

(** The failed result the loop records for a [ToolError]. *)
Definition failure_result (e : Exn) : ToolResult.t :=
  {| ToolResult.success := false;
     ToolResult.data := PyNone;
     ToolResult.error := Some (exn_str e) |}.

(** The result the loop records for a dispatched call. *)
Definition recorded_result (outcome : Outcome ToolResult.t) : ToolResult.t :=
  match outcome with
  | Returned result => result
  | Raised e => failure_result e
  end.

(** The events of a callback that may not be installed. *)
Definition hook (installed : bool) (ev : Event) : list Event :=
  if installed then [ev] else [].

(** *** Correlation of tool results with requests *)

(** A request answers to the correlation id [t] when [t] is the id the
    loop gives its result: the id the request supplies or, when it
    supplies none, the one synthesized in some iteration. *)
Definition answers (d : ToolCallData) (t : option string) : Prop :=
  exists tool_call iteration,
    ToolCall.from_dict d = Returned tool_call /\
    t = Some (Agent.tool_call_id_of iteration tool_call).

(** The request at position [k] of the assistant message at position [j]
    of [pre] answers to [t]. *)
Definition request_at (pre : list Message) (j k : nat) (t : option string) : Prop :=
  exists a tcs d,
    nth_error pre j = Some a /\
    role a = ASSISTANT /\
    tool_calls a = Some tcs /\
    nth_error tcs k = Some d /\
    answers d t.

(** Every tool message has, strictly before it, at least one request
    that answers to its correlation id. *)
Definition correlated (h : list Message) : Prop :=
  forall pre msg post,
    h = pre ++ msg :: post ->
    role msg = TOOL ->
    exists j k, request_at pre j k (tool_call_id msg).

(** Every tool message has, strictly before it, exactly one such
    request. *)
Definition correlated_exactly_once (h : list Message) : Prop :=
  forall pre msg post,
    h = pre ++ msg :: post ->
    role msg = TOOL ->
    exists j k,
      request_at pre j k (tool_call_id msg) /\
      forall j' k', request_at pre j' k' (tool_call_id msg) -> j' = j /\ k' = k.

(** The request [d] is carried by an assistant message of [h]. *)
Definition carried (d : ToolCallData) (h : list Message) : Prop :=
  exists j a tcs k,
    nth_error h j = Some a /\
    role a = ASSISTANT /\
    tool_calls a = Some tcs /\
    nth_error tcs k = Some d.

(** The stored sequence [now] is what is left of the history [h] after
    trimming under [bound]: a suffix of it, and the whole of it while the
    stored sequence is shorter than the bound. *)
Definition trimmed_from (h now : list Message) (bound : Z) : Prop :=
  (exists evicted, h = evicted ++ now) /\
  (Z.of_nat (length now) < bound -> now = h).

(** *** The states a turn goes through *)

Section Steps.
Context {RT : PyRuntime} {P : Type} {LLM : LLMProvider P}.

(** The state once [evs] are logged. *)
Definition logged (s : Agent.State P) (evs : list Event) : Agent.State P :=
  {| Agent.self := Agent.self s; Agent.log := Agent.log s ++ evs |}.

(** The state once [msg] is appended to memory (and trimmed). *)
Definition stored (s : Agent.State P) (msg : Message) : Agent.State P :=
  {| Agent.self :=
       Agent.with_memory (Agent.self s)
         (_trim_if_needed (messages_append (Agent.memory (Agent.self s)) msg));
     Agent.log := Agent.log s ++ [EvAppend msg] |}.

(** The tool schemas the agent sends along. *)
Definition schemas (s : Agent.State P) : option (list PyValue) :=
  Some (ToolDispatcher.get_tool_schemas (Agent.dispatcher (Agent.self s))).

(** The provider's answer to the request sent from state [s]. *)
Definition reply_at (s : Agent.State P)
  : P * (LLMErrorClass * string + LLMResponse.t) :=
  chat (Agent.llm (Agent.self s))
       (get_messages (Agent.memory (Agent.self s)))
       (schemas s).

(** The state once the model has been asked: the [thinking] callback,
    then the request and its reply. *)
Definition asked (s : Agent.State P) : Agent.State P :=
  {| Agent.self := Agent.with_llm (Agent.self s) (fst (reply_at s));
     Agent.log :=
       Agent.log s
       ++ hook (Agent._on_thinking (Agent.self s)) EvThinking
       ++ [EvChat (get_messages (Agent.memory (Agent.self s)))
                  (schemas s) (snd (reply_at s))] |}.

(** The outcome of dispatching [tool_call] from state [s]. *)
Definition outcome_at (s : Agent.State P) (tool_call : ToolCall.t)
  : Outcome ToolResult.t :=
  ToolDispatcher.execute (Agent.dispatcher (Agent.self s)) tool_call.

(** The tool-result message the loop appends for [tool_call]. *)
Definition result_message (s : Agent.State P) (iteration : Z)
    (tool_call : ToolCall.t) : Message :=
  Message_tool_result
    (ToolResult.to_message (recorded_result (outcome_at s tool_call)))
    (Agent.tool_call_id_of iteration tool_call).

(** The events of processing one tool call: callback, dispatch,
    callback. *)
Definition call_events (s : Agent.State P) (tool_call : ToolCall.t)
  : list Event :=
  hook (Agent._on_tool_start (Agent.self s))
       (EvToolStart (ToolCall.name tool_call))
  ++ [EvExecute tool_call (outcome_at s tool_call)]
  ++ hook (Agent._on_tool_end (Agent.self s))
          (EvToolEnd (ToolCall.name tool_call)
                     (recorded_result (outcome_at s tool_call))).

(** The state once one tool call is processed: those events, then the
    tool-result message. *)
Definition dispatched (s : Agent.State P) (iteration : Z)
    (tool_call : ToolCall.t) : Agent.State P :=
  stored (logged s (call_events s tool_call))
         (result_message s iteration tool_call).

(** The names and the results the loop records for dispatched calls. *)
Definition recorded_names (calls : list (ToolCall.t * Outcome ToolResult.t))
  : list string :=
  map (fun call => ToolCall.name (fst call)) calls.

Definition recorded_results (calls : list (ToolCall.t * Outcome ToolResult.t))
  : list ToolResult.t :=
  map (fun call => recorded_result (snd call)) calls.

(** The assistant message that opens a round. *)
Definition round_message (response : LLMResponse.t) : Message :=
  Message_assistant (Agent.content_or (LLMResponse.content response) "")
                    (Some (LLMResponse.tool_calls response)).
(** [s'] comes after [s] in a turn: the log has grown at its end, and
    the dispatcher, the iteration bound, the callbacks, the system
    prompt and the message bound are the same. *)
Definition follows (s s' : Agent.State P) : Prop :=
  (exists tail, Agent.log s' = Agent.log s ++ tail) /\
  Agent.dispatcher (Agent.self s') = Agent.dispatcher (Agent.self s) /\
  Agent.max_iterations (Agent.self s') = Agent.max_iterations (Agent.self s) /\
  Agent._on_tool_start (Agent.self s') = Agent._on_tool_start (Agent.self s) /\
  Agent._on_tool_end (Agent.self s') = Agent._on_tool_end (Agent.self s) /\
  Agent._on_thinking (Agent.self s') = Agent._on_thinking (Agent.self s) /\
  system_prompt (Agent.memory (Agent.self s')) =
    system_prompt (Agent.memory (Agent.self s)) /\
  max_messages (Agent.memory (Agent.self s')) =
    max_messages (Agent.memory (Agent.self s)).
(** A provider that answers every request, and every time with at least
    one tool call, each in a format the agent reads. *)
Definition always_requests_tools : Prop :=
  forall (p : P) msgs tools,
  exists response,
    snd (chat p msgs tools) = inr response /\
    LLMResponse.tool_calls response <> [] /\
    Forall known_format (LLMResponse.tool_calls response).

(** An appended message that belongs to a tool round: the assistant
    message that carries the requests, or a tool result. *)
Definition round_member (msg : Message) : Prop :=
  role msg = TOOL \/
  (role msg = ASSISTANT /\
   exists tcs, tool_calls msg = Some tcs /\ tcs <> []).
(** The history of a turn that began with [before] stored: those
    messages and everything appended since. *)
Definition history (before : list Message) (s : Agent.State P) : list Message :=
  before ++ appended (Agent.log s).

(** The memory holds what trimming left of the history. *)
Definition remembered (before : list Message) (s : Agent.State P) : Prop :=
  trimmed_from (history before s)
               (messages (Agent.memory (Agent.self s)))
               (max_messages (Agent.memory (Agent.self s))).

(** The invariant of a turn: the history is correlated and the memory
    holds what trimming left of it. *)
Definition turn_invariant (before : list Message) (s : Agent.State P) : Prop :=
  correlated (history before s) /\ remembered before s.

(** The shape of a message a turn appends: a user or an assistant message
    without correlation id, or a tool message without tool calls and with
    a correlation id that is not empty. *)
Definition turn_message (msg : Message) : Prop :=
  (role msg = USER /\ tool_calls msg = None /\ tool_call_id msg = None) \/
  (role msg = ASSISTANT /\ tool_call_id msg = None) \/
  (role msg = TOOL /\ tool_calls msg = None /\
   exists id, tool_call_id msg = Some id /\ id <> "").
End Steps.

(* ====================================================================== *)
(** ** Test doubles for the examples *)
(* ====================================================================== *)

Module Fixtures.

(** A runtime that agrees with the interpreter on the values the
    examples use: [str] of a string, an integer, [None]; [json.loads] of
    the literals listed, and a decode error on text that is not JSON. *)
#[export] Instance runtime : PyRuntime := {|
  py_str := fun v =>
    match v with
    | PyStr s => s
    | PyInt n => str_of_int n
    | PyNone => "None"
    | PyBool true => "True"
    | PyBool false => "False"
    | PyList [] => "[]"
    | PyDict [] => "{}"
    | _ => "<value>"
    end;
  json_loads := fun s =>
    if String.eqb s "null" then Some PyNone
    else if String.eqb s "true" then Some (PyBool true)
    else if String.eqb s "false" then Some (PyBool false)
    else if String.eqb s "{}" then Some (PyDict [])
    else if String.eqb s "[]" then Some (PyList [])
    else None
|}.

(** A tool that returns its [text] argument. *)
Definition echo : Tool.t :=
  {| Tool.name := "echo";
     Tool.description := "Return the text";
     Tool.get_schema :=
       {| ToolSchema.name := "echo";
          ToolSchema.description := "Return the text";
          ToolSchema.parameters := PyDict [("type", PyStr "object")] |};
     Tool.execute := fun kwargs =>
       match kwargs with
       | [("text", v)] =>
           Returned {| ToolResult.success := true;
                       ToolResult.data := v;
                       ToolResult.error := None |}
       | _ => Raised (TypeError "execute() got an unexpected keyword argument")
       end |}.

(** A tool that succeeds on whatever keyword arguments it is given. *)
Definition note : Tool.t :=
  {| Tool.name := "note";
     Tool.description := "Keep a note";
     Tool.get_schema :=
       {| ToolSchema.name := "note";
          ToolSchema.description := "Keep a note";
          ToolSchema.parameters := PyDict [("type", PyStr "object")] |};
     Tool.execute := fun _ =>
       Returned {| ToolResult.success := true;
                   ToolResult.data := PyStr "noted";
                   ToolResult.error := None |} |}.

Definition registry : ToolRegistry.t :=
  ToolRegistry.register (ToolRegistry.register ToolRegistry.empty echo) note.

Definition dispatcher : ToolDispatcher.t :=
  {| ToolDispatcher.registry := registry |}.

(** A request for tool [name] with argument [text], without id. *)
Definition request (name text : string) : ToolCallData :=
  TcDict {| tcd_function :=
              Some {| fd_name := Some name;
                      fd_arguments := Some (PyDict [("text", PyStr text)]) |};
            tcd_name := None; tcd_arguments := None;
            tcd_id := None; tcd_raw := None |}.

Definition wants (tcs : list ToolCallData) : LLMResponse.t :=
  {| LLMResponse.content := "";
     LLMResponse.tool_calls := tcs;
     LLMResponse.finish_reason := None |}.

Definition says (text : string) : LLMResponse.t :=
  {| LLMResponse.content := text;
     LLMResponse.tool_calls := [];
     LLMResponse.finish_reason := Some "stop" |}.

(** A provider that plays back a script of replies and fails to connect
    once the script is over; streaming delivers one chunk. *)
Definition Script : Type := list (LLMErrorClass * string + LLMResponse.t).

#[export] Instance scripted : LLMProvider Script := {|
  chat := fun p _ _ =>
    match p with
    | reply :: rest => (rest, reply)
    | [] => ([], inl (LLMConnectionError, "Failed to connect to Ollama: down"))
    end;
  chat_stream := fun p _ _ => (p, (["ok"], None))
|}.

(** A provider that requests the [echo] tool on every call. *)
Inductive Insistent : Type := insistent.

#[export] Instance always_tool : LLMProvider Insistent := {|
  chat := fun p _ _ => (p, inr (wants [request "echo" "again"]));
  chat_stream := fun p _ _ => (p, ([], None))
|}.

(** A provider that answers without tools, and whose stream breaks after
    two chunks. *)
Inductive Breaking : Type := breaking.

#[export] Instance breaks_mid_stream : LLMProvider Breaking := {|
  chat := fun p _ _ => (p, inr (says "unused"));
  chat_stream := fun p _ _ =>
    (p, (["par"; "tial"], Some (LLMConnectionError, "Stream error: reset")))
|}.

Definition agent {P : Type} (provider : P) (bound : Z) (limit : Z) : Agent.t P :=
  {| Agent.llm := provider;
     Agent.dispatcher := dispatcher;
     Agent.memory := {| messages := [];
                        system_prompt := Some "s";
                        max_messages := bound |};
     Agent.max_iterations := limit;
     Agent._on_tool_start := false;
     Agent._on_tool_end := false;
     Agent._on_thinking := false |}.

End Fixtures.

(* ====================================================================== *)
(** * Properties *)
(* ====================================================================== *)

Unset Implicit Arguments.

(** ** Conversation memory: trimming *)

Section MemoryFacts.

Lemma trim_system_prompt m :
  system_prompt (_trim_if_needed m) = system_prompt m.
Proof. unfold _trim_if_needed. destruct (_ >? _); reflexivity. Qed.

Lemma trim_max_messages m :
  max_messages (_trim_if_needed m) = max_messages m.
Proof. unfold _trim_if_needed. destruct (_ >? _); reflexivity. Qed.

(** With a bound that is not negative, trimming keeps the last
    [max_messages] elements: it drops [length - max_messages] leading
    ones, none when the difference is not positive. *)
Lemma trim_messages m :
  0 <= max_messages m ->
  messages (_trim_if_needed m) =
  skipn (length (messages m) - Z.to_nat (max_messages m)) (messages m).
Proof.
  intros Hn. unfold _trim_if_needed.
  destruct (Z.gtb_spec (Z.of_nat (length (messages m))) (max_messages m)) as [Hgt|Hle];
    cbn [messages].
  - f_equal. lia.
  - replace (length (messages m) - Z.to_nat (max_messages m))%nat with 0%nat by lia.
    reflexivity.
Qed.

Lemma apply_op_eq m op :
  apply_op m op = _trim_if_needed (messages_append m (op_message op)).
Proof. destruct op; reflexivity. Qed.

Lemma apply_op_system_prompt m op :
  system_prompt (apply_op m op) = system_prompt m.
Proof. rewrite apply_op_eq, trim_system_prompt. reflexivity. Qed.

Lemma apply_op_max_messages m op :
  max_messages (apply_op m op) = max_messages m.
Proof. rewrite apply_op_eq, trim_max_messages. reflexivity. Qed.

Lemma apply_op_messages m op :
  0 <= max_messages m ->
  messages (apply_op m op) =
  skipn (length (messages m ++ [op_message op]) - Z.to_nat (max_messages m))
        (messages m ++ [op_message op]).
Proof.
  intros Hn. rewrite apply_op_eq, trim_messages by exact Hn. reflexivity.
Qed.

Lemma apply_ops_system_prompt ops : forall m,
  system_prompt (apply_ops m ops) = system_prompt m.
Proof.
  induction ops as [|op ops IH]; intros m; cbn; [reflexivity|].
  unfold apply_ops in IH. rewrite IH. apply apply_op_system_prompt.
Qed.

Lemma apply_ops_max_messages ops : forall m,
  max_messages (apply_ops m ops) = max_messages m.
Proof.
  induction ops as [|op ops IH]; intros m; cbn; [reflexivity|].
  unfold apply_ops in IH. rewrite IH. apply apply_op_max_messages.
Qed.

(** Keeping the last [n] of what was already cut to its last [n] and
    then extended is keeping the last [n] of the whole. *)
Lemma keep_last_app (A : Type) (n : nat) (l r : list A) :
  skipn (length (skipn (length l - n) l ++ r) - n) (skipn (length l - n) l ++ r) =
  skipn (length (l ++ r) - n) (l ++ r).
Proof.
  destruct (Nat.le_gt_cases (length l) n) as [Hle|Hgt].
  - replace (length l - n)%nat with 0%nat by lia. reflexivity.
  - assert (E : skipn (length l - n) l ++ r = skipn (length l - n) (l ++ r)).
    { rewrite skipn_app.
      replace (length l - n - length l)%nat with 0%nat by lia. reflexivity. }
    rewrite E, length_skipn, skipn_skipn, length_app. f_equal. lia.
Qed.

(** Appending one by one and trimming each time leaves what trimming
    once at the end would leave. *)
Lemma apply_ops_messages ops : forall m,
  0 <= max_messages m ->
  messages (apply_ops m ops) =
  match ops with
  | [] => messages m
  | _ => skipn (length (messages m ++ map op_message ops) - Z.to_nat (max_messages m))
               (messages m ++ map op_message ops)
  end.
Proof.
  induction ops as [|op ops IH]; intros m Hn; [reflexivity|].
  change (apply_ops m (op :: ops)) with (apply_ops (apply_op m op) ops).
  rewrite IH by (rewrite apply_op_max_messages; exact Hn).
  rewrite apply_op_max_messages.
  destruct ops as [|op' ops].
  - apply apply_op_messages. exact Hn.
  - rewrite apply_op_messages by exact Hn.
    rewrite keep_last_app. rewrite <- app_assoc. reflexivity.
Qed.

Lemma trim_within m :
  Z.of_nat (length (messages m)) <= max_messages m -> _trim_if_needed m = m.
Proof.
  intros H. unfold _trim_if_needed.
  destruct (Z.gtb_spec (Z.of_nat (length (messages m))) (max_messages m)); [lia|].
  reflexivity.
Qed.
End MemoryFacts.

(** C6.  In a memory with bound [max_messages = N], [N] not negative, any
    non-empty sequence of append operations that takes the stored sequence
    past [N] leaves exactly the [N] most recent messages, in order: the
    stored sequence is the suffix of length [N] of everything stored and
    appended.  The system prompt and the bound are untouched, and the
    prompt is read back in front of the [N] stored messages, outside the
    count. *)
Theorem trim_keeps_most_recent (m : ConversationMemory) (ops : list AppendOp) :
  0 <= max_messages m ->
  Z.of_nat (length (messages m) + length ops) > max_messages m ->
  ops <> [] ->
  (exists dropped,
      messages m ++ map op_message ops = dropped ++ messages (apply_ops m ops)) /\
  Z.of_nat (length (messages (apply_ops m ops))) = max_messages m /\
  system_prompt (apply_ops m ops) = system_prompt m /\
  max_messages (apply_ops m ops) = max_messages m /\
  (forall p, system_prompt m = Some p -> p <> "" ->
     get_messages (apply_ops m ops) = Message_system p :: messages (apply_ops m ops) /\
     Z.of_nat (length (get_messages (apply_ops m ops))) = max_messages m + 1).
Proof.
  intros Hn Hpast Hne.
  pose proof (apply_ops_messages ops m Hn) as Hm.
  destruct ops as [|op ops]; [contradiction Hne; reflexivity|].
  set (all := messages m ++ map op_message (op :: ops)) in *.
  assert (Hall : length all = (length (messages m) + length (op :: ops))%nat).
  { unfold all. rewrite length_app, length_map. reflexivity. }
  assert (Hlen : Z.of_nat (length (messages (apply_ops m (op :: ops)))) = max_messages m).
  { rewrite Hm, length_skipn. lia. }
  split; [|split; [|split; [|split]]].
  - exists (firstn (length all - Z.to_nat (max_messages m)) all).
    rewrite Hm. symmetry. apply firstn_skipn.
  - exact Hlen.
  - apply apply_ops_system_prompt.
  - apply apply_ops_max_messages.
  - intros p Hp Hnonempty.
    assert (Hget : get_messages (apply_ops m (op :: ops)) =
                   Message_system p :: messages (apply_ops m (op :: ops))).
    { unfold get_messages. rewrite apply_ops_system_prompt, Hp.
      destruct p; [contradiction Hnonempty; reflexivity | reflexivity]. }
    split; [exact Hget|]. rewrite Hget. cbn [length]. lia.
Qed.


(** ** Conversation memory: serialization *)

Section SerializationFacts.

Lemma role_value_roundtrip r : MessageRole_of_value (role_value r) = Returned r.
Proof. destruct r; reflexivity. Qed.

(** What a message comes back as. *)
Lemma message_of_dict_to_dict msg :
  message_of_dict
    {| md_role := Some (role_value (role msg));
       md_content := Some (content msg);
       md_tool_calls := _serialize_tool_calls (tool_calls msg);
       md_tool_call_id := tool_call_id msg |} =
  Returned {| role := role msg;
              content := content msg;
              tool_calls := _serialize_tool_calls (tool_calls msg);
              tool_call_id := tool_call_id msg |}.
Proof.
  unfold message_of_dict. cbn. rewrite role_value_roundtrip. reflexivity.
Qed.

Lemma from_dict_max_messages data m :
  from_dict data = Returned m -> max_messages m = 100.
Proof.
  unfold from_dict. destruct (omap _ _) as [msgs|e]; cbn; intros H.
  - inversion H. reflexivity.
  - discriminate H.
Qed.

Lemma from_dict_to_dict m :
  from_dict (to_dict m) =
  Returned
    {| messages :=
         map (fun msg => {| role := role msg;
                            content := content msg;
                            tool_calls := _serialize_tool_calls (tool_calls msg);
                            tool_call_id := tool_call_id msg |})
             (messages m);
       system_prompt := system_prompt m;
       max_messages := 100 |}.
Proof.
  unfold from_dict, to_dict. cbn [d_messages d_system_prompt].
  assert (H : forall l,
    omap message_of_dict
      (map (fun msg => {| md_role := Some (role_value (role msg));
                          md_content := Some (content msg);
                          md_tool_calls := _serialize_tool_calls (tool_calls msg);
                          md_tool_call_id := tool_call_id msg |}) l) =
    Returned
      (map (fun msg => {| role := role msg;
                          content := content msg;
                          tool_calls := _serialize_tool_calls (tool_calls msg);
                          tool_call_id := tool_call_id msg |}) l)).
  { induction l as [|msg l IH]; [reflexivity|].
    cbn [map omap]. rewrite message_of_dict_to_dict. cbn [obind].
    rewrite IH. reflexivity. }
  rewrite H. reflexivity.
Qed.

Lemma serialize_tool_call_equiv tc :
  known_format tc -> tool_call_equiv tc (serialize_tool_call tc).
Proof.
  unfold tool_call_equiv. destruct tc as [f|d|r]; cbn; intros H.
  - destruct f; reflexivity.
  - reflexivity.
  - contradiction.
Qed.

Lemma serialize_tool_call_plain tc :
  plain_dict tc -> serialize_tool_call tc = tc.
Proof. destruct tc; cbn; intros H; [contradiction|reflexivity|contradiction]. Qed.

Lemma serialize_requests_equiv tcs :
  Forall known_format (match tcs with Some l => l | None => [] end) ->
  Forall2 tool_call_equiv
    (match tcs with Some l => l | None => [] end)
    (match _serialize_tool_calls tcs with Some l => l | None => [] end).
Proof.
  destruct tcs as [[|tc l]|]; cbn [_serialize_tool_calls]; intros H;
    try constructor.
  - apply serialize_tool_call_equiv. inversion H; assumption.
  - inversion H as [|? ? _ Hl]; subst. clear H.
    induction l as [|tc' l IH]; cbn; constructor.
    + apply serialize_tool_call_equiv. inversion Hl; assumption.
    + apply IH. inversion Hl; assumption.
Qed.

Lemma map_serialize_plain l :
  Forall plain_dict l -> map serialize_tool_call l = l.
Proof.
  induction 1 as [|x l' Hx Hl IH]; [reflexivity|].
  cbn [map]. rewrite serialize_tool_call_plain by exact Hx.
  rewrite IH. reflexivity.
Qed.

Lemma serialize_tool_calls_plain tcs :
  tcs <> Some [] ->
  Forall plain_dict (match tcs with Some l => l | None => [] end) ->
  _serialize_tool_calls tcs = tcs.
Proof.
  destruct tcs as [[|tc l]|]; cbn [_serialize_tool_calls]; intros Hne H;
    [contradiction Hne; reflexivity | | reflexivity].
  rewrite map_serialize_plain by exact H. reflexivity.
Qed.

End SerializationFacts.

(** C7.  Serializing a memory with [to_dict] and reading it back with
    [from_dict] succeeds and gives back the system prompt and, in order, a
    message equivalent to each stored message: same role, content and
    correlation id, and requests from which the same name, arguments and
    id are read (for a memory whose tool calls are dicts or provider
    objects).  When the tool calls are plain dicts and no message carries
    an empty list of them, the messages come back equal. *)
Theorem to_dict_from_dict_roundtrip (m : ConversationMemory) :
  Forall (fun msg => Forall known_format (requests msg)) (messages m) ->
  exists m',
    from_dict (to_dict m) = Returned m' /\
    system_prompt m' = system_prompt m /\
    Forall2 message_equiv (messages m) (messages m') /\
    (Forall (fun msg => tool_calls msg <> Some [] /\
                        Forall plain_dict (requests msg)) (messages m) ->
     messages m' = messages m).
Proof.
  intros Hknown. eexists. split; [apply from_dict_to_dict|].
  cbn [system_prompt messages]. split; [reflexivity|]. split.
  - induction Hknown as [|msg l Hmsg Hl IH]; cbn [map]; constructor; [|exact IH].
    unfold message_equiv, requests. cbn [role content tool_call_id tool_calls].
    repeat split. apply serialize_requests_equiv. exact Hmsg.
  - clear Hknown. intros Hplain.
    induction Hplain as [|msg l [Hne Hmsg] Hl IH]; cbn [map]; [reflexivity|].
    rewrite IH. f_equal. rewrite serialize_tool_calls_plain by assumption.
    destruct msg; reflexivity.
Qed.


(** C9.  Whatever [from_dict] builds has the default bound of 100
    messages; in particular reading back [to_dict m] gives a memory with
    bound 100 whatever the bound of [m], and [to_dict] does not depend on
    the bound: two memories that differ only in it serialize alike. *)
Theorem from_dict_default_bound :
  (forall data m', from_dict data = Returned m' -> max_messages m' = 100) /\
  (forall m, exists m',
      from_dict (to_dict m) = Returned m' /\ max_messages m' = 100) /\
  (forall msgs prompt n1 n2,
      to_dict {| messages := msgs; system_prompt := prompt; max_messages := n1 |} =
      to_dict {| messages := msgs; system_prompt := prompt; max_messages := n2 |}).
Proof.
  split; [|split].
  - intros data m' H. exact (from_dict_max_messages data m' H).
  - intros m. eexists. split; [apply from_dict_to_dict | reflexivity].
  - reflexivity.
Qed.

(** ** Reading the event log *)

Section LogFacts.

Lemma appended_app l1 l2 : appended (l1 ++ l2) = appended l1 ++ appended l2.
Proof.
  induction l1 as [|ev l1 IH]; [reflexivity|].
  destruct ev; cbn; rewrite IH; reflexivity.
Qed.

Lemma model_calls_app l1 l2 :
  model_calls (l1 ++ l2) = (model_calls l1 + model_calls l2)%nat.
Proof.
  induction l1 as [|ev l1 IH]; [reflexivity|].
  destruct ev; cbn; rewrite IH; reflexivity.
Qed.

Lemma dispatch_rounds_app l1 l2 :
  dispatch_rounds (l1 ++ l2) = (dispatch_rounds l1 + dispatch_rounds l2)%nat.
Proof.
  induction l1 as [|ev l1 IH]; [reflexivity|].
  destruct ev as [ | | | ? ? [?|r] | | | | ]; cbn; rewrite ?IH; try reflexivity.
  destruct (LLMResponse.has_tool_calls r); reflexivity.
Qed.

Lemma executed_app l1 l2 : executed (l1 ++ l2) = executed l1 ++ executed l2.
Proof.
  induction l1 as [|ev l1 IH]; [reflexivity|].
  destruct ev; cbn; rewrite IH; reflexivity.
Qed.

(** A callback is none of the events the readers look for. *)
Lemma hook_silent b ev :
  match ev with
  | EvThinking | EvToolStart _ | EvToolEnd _ _ => True
  | _ => False
  end ->
  appended (hook b ev) = [] /\ model_calls (hook b ev) = 0%nat /\
  dispatch_rounds (hook b ev) = 0%nat /\ executed (hook b ev) = [] /\
  Forall (fun e => ~ failed_chat e) (hook b ev).
Proof.
  destruct b; cbn; [|intros _; repeat split; constructor].
  destruct ev; intros H; try contradiction; repeat split;
    repeat constructor; intros [].
Qed.

End LogFacts.

(** ** The agent *)

Section AgentFacts.
Context {RT : PyRuntime} {P : Type} {LLM : LLMProvider P}.

Implicit Types (s : Agent.State P) (tc : ToolCall.t).

(** The dispatcher raises nothing but its two tool errors. *)
Lemma execute_raises_ToolError d tc e :
  ToolDispatcher.execute d tc = Raised e -> is_ToolError e = true.
Proof.
  unfold ToolDispatcher.execute.
  destruct (ToolRegistry.get _ _) as [tool|].
  - destruct (ToolDispatcher.call_execute _ _); intros H; inversion H; reflexivity.
  - intros H; inversion H; reflexivity.
Qed.

Lemma notify_eq f ev s :
  Agent.notify f ev s = (Returned tt, logged s (hook (f (Agent.self s)) ev)).
Proof.
  unfold Agent.notify, Agent.emit, logged, hook.
  destruct (f (Agent.self s)); [reflexivity|].
  rewrite app_nil_r. destruct s; reflexivity.
Qed.

Lemma execute_or_failure_eq tc s :
  Agent.execute_or_failure tc s =
  (Returned (recorded_result (outcome_at s tc)),
   logged s [EvExecute tc (outcome_at s tc)]).
Proof.
  unfold Agent.execute_or_failure, Agent.try_except, Agent.dispatcher_execute,
    outcome_at, logged.
  destruct (ToolDispatcher.execute _ tc) as [r|e] eqn:E; [reflexivity|].
  rewrite (execute_raises_ToolError _ _ _ E). reflexivity.
Qed.

Lemma memory_add_tool_result_eq c id s :
  Agent.memory_add_tool_result c id s =
  (Returned tt, stored s (Message_tool_result c id)).
Proof. reflexivity. Qed.

Lemma memory_add_assistant_message_eq c tcs s :
  Agent.memory_add_assistant_message c tcs s =
  (Returned tt, stored s (Message_assistant c tcs)).
Proof. reflexivity. Qed.

Lemma memory_add_user_message_eq c s :
  Agent.memory_add_user_message c s =
  (Returned tt, stored s (Message_user c)).
Proof. reflexivity. Qed.

Lemma logged_logged s evs evs' :
  logged (logged s evs) evs' = logged s (evs ++ evs').
Proof. unfold logged. cbn. rewrite app_assoc. reflexivity. Qed.

(** One pass through the body of the [for] loop. *)
Lemma process_tool_calls_cons i d rest made results s tc :
  ToolCall.from_dict d = Returned tc ->
  Agent.process_tool_calls i (d :: rest) made results s =
  Agent.process_tool_calls i rest
    (made ++ [ToolCall.name tc])
    (results ++ [recorded_result (outcome_at s tc)])
    (dispatched s i tc).
Proof.
  intros Hd. cbn [Agent.process_tool_calls].
  unfold Agent.bind at 1. unfold Agent.lift. rewrite Hd.
  unfold Agent.bind at 1. rewrite notify_eq.
  unfold Agent.bind at 1. rewrite execute_or_failure_eq.
  unfold Agent.bind at 1. rewrite notify_eq.
  unfold Agent.bind at 1. rewrite memory_add_tool_result_eq.
  rewrite !logged_logged. reflexivity.
Qed.

Lemma process_tool_calls_raise i d rest made results s e :
  ToolCall.from_dict d = Raised e ->
  Agent.process_tool_calls i (d :: rest) made results s = (Raised e, s).
Proof.
  intros Hd. cbn [Agent.process_tool_calls].
  unfold Agent.bind at 1. unfold Agent.lift. rewrite Hd. reflexivity.
Qed.

Lemma asked_after_thinking s :
  {| Agent.self := Agent.with_llm (Agent.self s) (fst (reply_at s));
     Agent.log :=
       Agent.log (logged s (hook (Agent._on_thinking (Agent.self s)) EvThinking))
       ++ [EvChat (get_messages (Agent.memory (Agent.self s)))
                  (schemas s) (snd (reply_at s))] |} = asked s.
Proof. unfold asked, logged. cbn. rewrite <- app_assoc. reflexivity. Qed.

(** The guarded model call at the head of the [while] body. *)
Lemma guarded_chat_eq s :
  Agent.try_except
    (Agent.bind Agent.get_tool_schemas (fun tools =>
     Agent.bind (Agent.llm_chat (Some tools)) (fun response =>
     Agent.ret (inr response))))
    is_LLMError
    (fun e => Agent.ret (inl e))
    (logged s (hook (Agent._on_thinking (Agent.self s)) EvThinking)) =
  (Returned (match snd (reply_at s) with
             | inl (cls, msg) => inl (LLMError cls msg)
             | inr response => inr response
             end),
   asked s).
Proof.
  unfold Agent.try_except, Agent.bind, Agent.get_tool_schemas, Agent.llm_chat,
    Agent.ret.
  cbn [Agent.self logged].
  change (chat (Agent.llm (Agent.self s)) (get_messages (Agent.memory (Agent.self s)))
               (Some (ToolDispatcher.get_tool_schemas (Agent.dispatcher (Agent.self s)))))
    with (reply_at s).
  change (Some (ToolDispatcher.get_tool_schemas (Agent.dispatcher (Agent.self s))))
    with (schemas s).
  rewrite asked_after_thinking.
  destruct (snd (reply_at s)) as [[cls msg]|response]; reflexivity.
Qed.

Lemma run_loop_exhausted i made results s :
  Agent.run_loop 0 i made results s =
  (Returned {| AgentResponse.content := Agent.exhaustion_message;
               AgentResponse.tool_calls_made := made;
               AgentResponse.tool_results := results |}, s).
Proof. reflexivity. Qed.

Lemma run_loop_failed r i made results s cls msg :
  snd (reply_at s) = inl (cls, msg) ->
  Agent.run_loop (S r) i made results s =
  (Returned {| AgentResponse.content := "Sorry, I encountered an error: " ++ msg;
               AgentResponse.tool_calls_made := made;
               AgentResponse.tool_results := results |},
   asked s).
Proof.
  intros Hr. cbn [Agent.run_loop].
  unfold Agent.bind at 1. rewrite notify_eq.
  unfold Agent.bind at 1. rewrite guarded_chat_eq, Hr. reflexivity.
Qed.

Lemma run_loop_final r i made results s response :
  snd (reply_at s) = inr response ->
  LLMResponse.has_tool_calls response = false ->
  Agent.run_loop (S r) i made results s =
  (Returned {| AgentResponse.content :=
                 Agent.content_or (LLMResponse.content response)
                                  Agent.fallback_message;
               AgentResponse.tool_calls_made := made;
               AgentResponse.tool_results := results |},
   stored (asked s)
     (Message_assistant
        (Agent.content_or (LLMResponse.content response) Agent.fallback_message)
        None)).
Proof.
  intros Hr Hno. cbn [Agent.run_loop].
  unfold Agent.bind at 1. rewrite notify_eq.
  unfold Agent.bind at 1. rewrite guarded_chat_eq, Hr, Hno. reflexivity.
Qed.

Lemma run_loop_round r i made results s response :
  snd (reply_at s) = inr response ->
  LLMResponse.has_tool_calls response = true ->
  Agent.run_loop (S r) i made results s =
  Agent.bind
    (Agent.process_tool_calls (i + 1) (LLMResponse.tool_calls response) made results)
    (fun acc => Agent.run_loop r (i + 1) (fst acc) (snd acc))
    (stored (asked s) (round_message response)).
Proof.
  intros Hr Hyes. cbn [Agent.run_loop].
  unfold Agent.bind at 1. rewrite notify_eq.
  unfold Agent.bind at 1. rewrite guarded_chat_eq, Hr, Hyes.
  unfold Agent.bind at 1. rewrite memory_add_assistant_message_eq. reflexivity.
Qed.

Lemma run_eq agent user_message :
  Agent.run agent user_message =
  Agent.run_loop (Z.to_nat (Agent.max_iterations agent)) 0 [] []
    (stored {| Agent.self := agent; Agent.log := [] |} (Message_user user_message)).
Proof. reflexivity. Qed.

(** C10.  After [set_memory m] the agent's memory is [m], with the same
    messages and bound, and with the default [SYSTEM_PROMPT] in place of
    a system prompt that is [None] or empty; a non-empty system prompt
    stays as it is.  Nothing else of the agent changes. *)
Theorem set_memory_system_prompt (agent : Agent.t P) (m : ConversationMemory) :
  Agent.memory (Agent.set_memory agent m) =
    {| messages := messages m;
       system_prompt :=
         match system_prompt m with
         | None => Some SYSTEM_PROMPT
         | Some EmptyString => Some SYSTEM_PROMPT
         | Some p => Some p
         end;
       max_messages := max_messages m |} /\
  Agent.llm (Agent.set_memory agent m) = Agent.llm agent /\
  Agent.dispatcher (Agent.set_memory agent m) = Agent.dispatcher agent /\
  Agent.max_iterations (Agent.set_memory agent m) = Agent.max_iterations agent.
Proof.
  unfold Agent.set_memory. destruct m as [msgs [[|c p]|] n]; cbn; repeat split.
Qed.

(** C3.  When the first model response of a turn declares no tool
    calls, [run] returns its content unchanged if that is not empty and
    the fallback sentence otherwise, with no tool calls made and no tool
    results; memory receives exactly two appends, the user message and
    then the assistant message with the returned content, and when the
    bound leaves room for both they are the two new last messages. *)
Theorem final_answer_without_tools
    (agent : Agent.t P) (user_message : string) (p' : P) (response : LLMResponse.t) :
  0 < Agent.max_iterations agent ->
  chat (Agent.llm agent)
       (get_messages (add_user_message (Agent.memory agent) user_message))
       (Some (ToolDispatcher.get_tool_schemas (Agent.dispatcher agent)))
    = (p', inr response) ->
  LLMResponse.tool_calls response = [] ->
  let final :=
    Agent.content_or (LLMResponse.content response) "I don't have a response." in
  let after := snd (Agent.run agent user_message) in
  fst (Agent.run agent user_message) =
    Returned {| AgentResponse.content := final;
                AgentResponse.tool_calls_made := [];
                AgentResponse.tool_results := [] |} /\
  (LLMResponse.content response <> "" -> final = LLMResponse.content response) /\
  (LLMResponse.content response = "" -> final = "I don't have a response.") /\
  Agent.memory (Agent.self after) =
    add_assistant_message
      (add_user_message (Agent.memory agent) user_message) final None /\
  appended (Agent.log after) =
    [Message_user user_message; Message_assistant final None] /\
  (Z.of_nat (length (messages (Agent.memory agent))) + 2
     <= max_messages (Agent.memory agent) ->
   messages (Agent.memory (Agent.self after)) =
     messages (Agent.memory agent)
     ++ [Message_user user_message; Message_assistant final None]).
Proof.
  intros Hmax Hchat Hnone final after.
  destruct (Z.to_nat (Agent.max_iterations agent)) as [|r] eqn:Hr; [lia|].
  set (s1 := stored {| Agent.self := agent; Agent.log := [] |}
                    (Message_user user_message)).
  assert (Hreply : snd (reply_at s1) = inr response).
  { unfold reply_at, schemas, s1, stored. cbn.
    change (_trim_if_needed (messages_append (Agent.memory agent)
                                             (Message_user user_message)))
      with (add_user_message (Agent.memory agent) user_message).
    rewrite Hchat. reflexivity. }
  assert (Hno : LLMResponse.has_tool_calls response = false).
  { unfold LLMResponse.has_tool_calls. rewrite Hnone. reflexivity. }
  assert (Hrun : Agent.run agent user_message =
                 (Returned {| AgentResponse.content := final;
                              AgentResponse.tool_calls_made := [];
                              AgentResponse.tool_results := [] |},
                  stored (asked s1) (Message_assistant final None))).
  { rewrite run_eq, Hr. fold s1.
    exact (run_loop_final r 0 [] [] s1 response Hreply Hno). }
  subst after. rewrite Hrun. cbn [fst snd].
  split; [reflexivity|]. split; [|split; [|split; [|split]]].
  - intros Hne. unfold final, Agent.content_or.
    destruct (LLMResponse.content response); [contradiction Hne|]; reflexivity.
  - intros He. unfold final, Agent.content_or. rewrite He. reflexivity.
  - reflexivity.
  - unfold stored at 1, asked. cbn [Agent.log].
    rewrite !appended_app.
    destruct (hook_silent (Agent._on_thinking (Agent.self s1)) EvThinking I)
      as [-> _].
    reflexivity.
  - intros Hroom.
    change (Agent.memory (Agent.self (stored (asked s1) (Message_assistant final None))))
      with (_trim_if_needed
              (messages_append
                 (_trim_if_needed
                    (messages_append (Agent.memory agent) (Message_user user_message)))
                 (Message_assistant final None))).
    rewrite (trim_within (messages_append (Agent.memory agent) _))
      by (cbn; rewrite length_app; cbn; lia).
    rewrite trim_within by (cbn; rewrite !length_app; cbn; lia).
    cbn. rewrite <- app_assoc. reflexivity.
Qed.


(** *** What a turn leaves alone *)

Lemma follows_refl s : follows s s.
Proof.
  unfold follows. repeat split. exists []. rewrite app_nil_r. reflexivity.
Qed.

Lemma follows_trans s1 s2 s3 : follows s1 s2 -> follows s2 s3 -> follows s1 s3.
Proof.
  unfold follows.
  intros [[t1 H1] (A1 & B1 & C1 & D1 & E1 & F1 & G1)]
         [[t2 H2] (A2 & B2 & C2 & D2 & E2 & F2 & G2)].
  repeat split; try congruence.
  exists (t1 ++ t2). rewrite H2, H1, app_assoc. reflexivity.
Qed.

Lemma follows_logged s evs : follows s (logged s evs).
Proof. unfold follows, logged. cbn. repeat split. exists evs. reflexivity. Qed.

Lemma follows_stored s msg : follows s (stored s msg).
Proof.
  unfold follows, stored. cbn. repeat split.
  - exists [EvAppend msg]. reflexivity.
  - rewrite trim_system_prompt. reflexivity.
  - rewrite trim_max_messages. reflexivity.
Qed.

Lemma follows_asked s : follows s (asked s).
Proof. unfold follows, asked. cbn. repeat split. eexists. reflexivity. Qed.

Lemma follows_dispatched s i tc : follows s (dispatched s i tc).
Proof.
  unfold dispatched.
  eapply follows_trans; [apply follows_logged | apply follows_stored].
Qed.

Lemma process_tool_calls_follows tcs : forall i made results s,
  follows s (snd (Agent.process_tool_calls i tcs made results s)).
Proof.
  induction tcs as [|d rest IH]; intros i made results s.
  - apply follows_refl.
  - destruct (ToolCall.from_dict d) as [tc|e] eqn:Hd.
    + rewrite (process_tool_calls_cons i d rest made results s tc Hd).
      eapply follows_trans; [apply follows_dispatched | apply IH].
    + rewrite (process_tool_calls_raise i d rest made results s e Hd).
      apply follows_refl.
Qed.

Lemma run_loop_follows r : forall i made results s,
  follows s (snd (Agent.run_loop r i made results s)).
Proof.
  induction r as [|r IH]; intros i made results s.
  - apply follows_refl.
  - destruct (snd (reply_at s)) as [[cls msg]|response] eqn:Hr.
    + rewrite (run_loop_failed r i made results s cls msg Hr).
      apply follows_asked.
    + destruct (LLMResponse.has_tool_calls response) eqn:Hh.
      * rewrite (run_loop_round r i made results s response Hr Hh).
        unfold Agent.bind.
        pose proof (process_tool_calls_follows
                      (LLMResponse.tool_calls response) (i + 1) made results
                      (stored (asked s) (round_message response))) as Hp.
        destruct (Agent.process_tool_calls _ _ _ _ _) as [[acc|e] s'].
        -- cbn [snd] in Hp.
           eapply follows_trans; [apply follows_asked|].
           eapply follows_trans; [apply follows_stored|].
           eapply follows_trans; [exact Hp | apply IH].
        -- cbn [snd] in *.
           eapply follows_trans; [apply follows_asked|].
           eapply follows_trans; [apply follows_stored | exact Hp].
      * rewrite (run_loop_final r i made results s response Hr Hh).
        eapply follows_trans; [apply follows_asked | apply follows_stored].
Qed.

(** An iteration that remains begins by asking the model, with the
    messages then in memory. *)
Lemma run_loop_asks_first r i made results s :
  follows (asked s) (snd (Agent.run_loop (S r) i made results s)).
Proof.
  destruct (snd (reply_at s)) as [[cls msg]|response] eqn:Hr.
  - rewrite (run_loop_failed r i made results s cls msg Hr). apply follows_refl.
  - destruct (LLMResponse.has_tool_calls response) eqn:Hh.
    + rewrite (run_loop_round r i made results s response Hr Hh).
      unfold Agent.bind.
      pose proof (process_tool_calls_follows
                    (LLMResponse.tool_calls response) (i + 1) made results
                    (stored (asked s) (round_message response))) as Hp.
      destruct (Agent.process_tool_calls _ _ _ _ _) as [[acc|e] s'];
        cbn [snd] in *.
      * eapply follows_trans; [apply follows_stored|].
        eapply follows_trans; [exact Hp | apply run_loop_follows].
      * eapply follows_trans; [apply follows_stored | exact Hp].
    + rewrite (run_loop_final r i made results s response Hr Hh).
      apply follows_stored.
Qed.

(** C5.  For a tool call whose name is not registered: the dispatcher
    raises [ToolNotFoundError] with a message that lists the available
    tool names; the loop over the round's calls records the name and a
    failed result carrying that message, appends the tool-result message
    ["Error: ..."] under the call's correlation id and goes on with the
    remaining calls; and a round made of such a call is followed by the
    next iteration, which begins by asking the model with the messages
    then in memory. *)
Theorem unknown_tool_is_reported
    (s : Agent.State P) (iteration : Z) (d : ToolCallData) (tc : ToolCall.t)
    (rest : list ToolCallData) (made : list string) (results : list ToolResult.t) :
  ToolCall.from_dict d = Returned tc ->
  ToolRegistry.get (ToolDispatcher.registry (Agent.dispatcher (Agent.self s)))
                   (ToolCall.name tc) = None ->
  let not_found :=
    ToolNotFoundError
      ("Tool '" ++ ToolCall.name tc ++ "' not found. Available tools: "
       ++ join ", " (ToolDispatcher.get_available_tools
                       (Agent.dispatcher (Agent.self s)))) in
  let failure :=
    {| ToolResult.success := false;
       ToolResult.data := PyNone;
       ToolResult.error := Some (exn_str not_found) |} in
  let reported :=
    Message_tool_result ("Error: " ++ exn_str not_found)
                        (Agent.tool_call_id_of iteration tc) in
  ToolDispatcher.execute (Agent.dispatcher (Agent.self s)) tc = Raised not_found /\
  Agent.process_tool_calls iteration (d :: rest) made results s =
    Agent.process_tool_calls iteration rest
      (made ++ [ToolCall.name tc]) (results ++ [failure])
      (stored
         (logged s
            (hook (Agent._on_tool_start (Agent.self s))
                  (EvToolStart (ToolCall.name tc))
             ++ [EvExecute tc (Raised not_found)]
             ++ hook (Agent._on_tool_end (Agent.self s))
                     (EvToolEnd (ToolCall.name tc) failure)))
         reported) /\
  (forall remaining response,
      snd (reply_at s) = inr response ->
      LLMResponse.tool_calls response = [d] ->
      exists s2,
        Agent.run_loop (S (S remaining)) (iteration - 1) made results s =
          Agent.run_loop (S remaining) iteration
            (made ++ [ToolCall.name tc]) (results ++ [failure]) s2 /\
        Agent.memory (Agent.self s2) =
          add_tool_result
            (add_assistant_message
               (Agent.memory (Agent.self s))
               (Agent.content_or (LLMResponse.content response) "")
               (Some [d]))
            ("Error: " ++ exn_str not_found)
            (Agent.tool_call_id_of iteration tc) /\
        follows (asked s2)
          (snd (Agent.run_loop (S (S remaining)) (iteration - 1) made results s))).
Proof.
  intros Hd Hget not_found failure reported.
  assert (Hexec : forall s', Agent.dispatcher (Agent.self s') =
                             Agent.dispatcher (Agent.self s) ->
                             outcome_at s' tc = Raised not_found).
  { intros s' Hs'. unfold outcome_at, ToolDispatcher.execute.
    rewrite Hs', Hget. reflexivity. }
  split; [exact (Hexec s eq_refl)|]. split.
  - rewrite (process_tool_calls_cons iteration d rest made results s tc Hd).
    unfold dispatched, result_message, call_events.
    rewrite (Hexec s eq_refl). reflexivity.
  - intros remaining response Hr Htcs.
    assert (Hh : LLMResponse.has_tool_calls response = true).
    { unfold LLMResponse.has_tool_calls. rewrite Htcs. reflexivity. }
    set (s1 := stored (asked s) (round_message response)).
    assert (Hs1 : Agent.dispatcher (Agent.self s1) = Agent.dispatcher (Agent.self s))
      by reflexivity.
    exists (dispatched s1 iteration tc).
    assert (Hrun : Agent.run_loop (S (S remaining)) (iteration - 1) made results s =
                   Agent.run_loop (S remaining) iteration
                     (made ++ [ToolCall.name tc]) (results ++ [failure])
                     (dispatched s1 iteration tc)).
    { rewrite (run_loop_round (S remaining) (iteration - 1) made results s response Hr Hh).
      replace (iteration - 1 + 1) with iteration by lia.
      fold s1. unfold Agent.bind. rewrite Htcs.
      rewrite (process_tool_calls_cons iteration d [] made results s1 tc Hd).
      cbn [Agent.process_tool_calls Agent.ret fst snd].
      rewrite (Hexec s1 Hs1). reflexivity. }
    split; [exact Hrun|]. split.
    + unfold dispatched, result_message, call_events. rewrite (Hexec s1 Hs1).
      unfold s1, round_message. rewrite Htcs. reflexivity.
    + rewrite Hrun. apply run_loop_asks_first.
Qed.

(** *** What a round logs *)

Lemma call_events_facts s tc :
  appended (call_events s tc) = [] /\
  model_calls (call_events s tc) = 0%nat /\
  dispatch_rounds (call_events s tc) = 0%nat /\
  executed (call_events s tc) = [(tc, outcome_at s tc)] /\
  Forall (fun e => ~ failed_chat e) (call_events s tc).
Proof.
  unfold call_events.
  destruct (hook_silent (Agent._on_tool_start (Agent.self s))
                        (EvToolStart (ToolCall.name tc)) I)
    as (A1 & M1 & D1 & E1 & F1).
  destruct (hook_silent (Agent._on_tool_end (Agent.self s))
                        (EvToolEnd (ToolCall.name tc)
                                   (recorded_result (outcome_at s tc))) I)
    as (A2 & M2 & D2 & E2 & F2).
  rewrite !appended_app, !model_calls_app, !dispatch_rounds_app, !executed_app.
  rewrite A1, A2, M1, M2, D1, D2, E1, E2. repeat split.
  apply Forall_app. split; [exact F1|].
  constructor; [intros []|exact F2].
Qed.

Lemma dispatched_log s i tc :
  Agent.log (dispatched s i tc) =
  Agent.log s ++ call_events s tc ++ [EvAppend (result_message s i tc)].
Proof. unfold dispatched, stored, logged. cbn. rewrite <- app_assoc. reflexivity. Qed.

(** The loop over the calls of a round logs only callbacks, dispatches
    and tool-result messages, one message per call; it hands back the
    two lists extended by the names and results of the dispatched calls;
    and it raises only on a call in an unknown format. *)
Lemma process_tool_calls_spec tcs : forall i made results s,
  exists tail,
    Agent.log (snd (Agent.process_tool_calls i tcs made results s)) =
      Agent.log s ++ tail /\
    model_calls tail = 0%nat /\
    dispatch_rounds tail = 0%nat /\
    Forall (fun e => ~ failed_chat e) tail /\
    Forall (fun msg => role msg = TOOL) (appended tail) /\
    match fst (Agent.process_tool_calls i tcs made results s) with
    | Returned acc =>
        fst acc = made ++ recorded_names (executed tail) /\
        snd acc = results ++ recorded_results (executed tail) /\
        length (appended tail) = length tcs
    | Raised _ => ~ Forall known_format tcs
    end.
Proof.
  induction tcs as [|d rest IH]; intros i made results s.
  - exists []. cbn. rewrite !app_nil_r. repeat split; constructor.
  - destruct (ToolCall.from_dict d) as [tc|e] eqn:Hd.
    + rewrite (process_tool_calls_cons i d rest made results s tc Hd).
      destruct (IH i (made ++ [ToolCall.name tc])
                   (results ++ [recorded_result (outcome_at s tc)])
                   (dispatched s i tc))
        as (tail & Hlog & Hm & Hr & Hf & Ha & Hacc).
      destruct (call_events_facts s tc) as (A & M & D & E & F).
      exists (call_events s tc ++ [EvAppend (result_message s i tc)] ++ tail).
      rewrite Hlog, dispatched_log.
      rewrite !appended_app, !model_calls_app, !dispatch_rounds_app, !executed_app.
      rewrite A, M, D, E, Hm, Hr. cbn [app appended model_calls dispatch_rounds executed].
      split; [rewrite <- !app_assoc; reflexivity|].
      split; [reflexivity|]. split; [reflexivity|]. split.
      { apply Forall_app. split; [exact F|]. constructor; [intros []|exact Hf]. }
      split; [constructor; [reflexivity|exact Ha]|].
      destruct (fst (Agent.process_tool_calls i rest _ _ _)) as [acc|e].
      * destruct Hacc as (H1 & H2 & H3).
        rewrite H1, H2, <- !app_assoc. repeat split.
        cbn [length]. rewrite H3. reflexivity.
      * intros Hall. apply Hacc. inversion Hall; assumption.
    + rewrite (process_tool_calls_raise i d rest made results s e Hd).
      exists []. cbn. rewrite app_nil_r. repeat split; try constructor.
      intros Hall. inversion Hall as [|? ? Hk _]; subst.
      destruct d; cbn in Hd, Hk; try discriminate Hd; try contradiction.
      destruct (tcd_function d); discriminate Hd.
Qed.

(** *** Invariants of the two loops *)

(** A property that every pass through the body of the [for] loop hands
    on holds when the loop is left, normally or by an exception. *)
Lemma process_tool_calls_preserves
    (Pre : list ToolCallData -> Agent.State P -> Prop) (i : Z) :
  (forall d rest s tc,
      Pre (d :: rest) s -> ToolCall.from_dict d = Returned tc ->
      Pre rest (dispatched s i tc)) ->
  forall tcs made results s,
    Pre tcs s ->
    exists rest, Pre rest (snd (Agent.process_tool_calls i tcs made results s)).
Proof.
  intros Hstep. induction tcs as [|d rest IH]; intros made results s Hpre.
  - exists []. exact Hpre.
  - destruct (ToolCall.from_dict d) as [tc|e] eqn:Hd.
    + rewrite (process_tool_calls_cons i d rest made results s tc Hd).
      apply IH. exact (Hstep d rest s tc Hpre Hd).
    + rewrite (process_tool_calls_raise i d rest made results s e Hd).
      exists (d :: rest). exact Hpre.
Qed.

(** A property of the state that asking the model, storing the final
    answer and going through a round hand on holds when [run_loop] is
    left. *)
Lemma run_loop_preserves (Inv : Agent.State P -> Prop) :
  (forall s, Inv s -> Inv (asked s)) ->
  (forall s c, Inv s -> Inv (stored s (Message_assistant c None))) ->
  (forall s response i made results,
      Inv s ->
      Inv (snd (Agent.process_tool_calls i (LLMResponse.tool_calls response)
                  made results (stored s (round_message response))))) ->
  forall r i made results s,
    Inv s -> Inv (snd (Agent.run_loop r i made results s)).
Proof.
  intros Hask Hfinal Hround. induction r as [|r IH]; intros i made results s Hs.
  - exact Hs.
  - destruct (snd (reply_at s)) as [[cls msg]|response] eqn:Hr.
    + rewrite (run_loop_failed r i made results s cls msg Hr). apply Hask, Hs.
    + destruct (LLMResponse.has_tool_calls response) eqn:Hh.
      * rewrite (run_loop_round r i made results s response Hr Hh).
        unfold Agent.bind.
        pose proof (Hround (asked s) response (i + 1) made results (Hask s Hs)) as Hp.
        destruct (Agent.process_tool_calls _ _ _ _ _) as [[acc|e] s'];
          cbn [snd] in Hp.
        -- apply IH, Hp.
        -- exact Hp.
      * rewrite (run_loop_final r i made results s response Hr Hh).
        apply Hfinal, Hask, Hs.
Qed.

(** *** Correlation *)

Lemma request_at_app pre more j k t :
  request_at pre j k t -> request_at (pre ++ more) j k t.
Proof.
  intros (a & tcs & d & Hj & Hrest). exists a, tcs, d.
  split; [|exact Hrest].
  rewrite nth_error_app1; [exact Hj|].
  apply nth_error_Some. rewrite Hj. discriminate.
Qed.

Lemma carried_app d h more : carried d h -> carried d (h ++ more).
Proof.
  intros (j & a & tcs & k & Hj & Hrest). exists j, a, tcs, k.
  split; [|exact Hrest].
  rewrite nth_error_app1; [exact Hj|].
  apply nth_error_Some. rewrite Hj. discriminate.
Qed.

Lemma correlated_snoc h msg :
  correlated h ->
  (role msg = TOOL -> exists j k, request_at h j k (tool_call_id msg)) ->
  correlated (h ++ [msg]).
Proof.
  intros Hh Hmsg pre msg' post Heq Hrole.
  destruct post as [|x post] using rev_ind.
  - apply app_inj_tail in Heq. destruct Heq as [<- <-]. exact (Hmsg Hrole).
  - clear IHpost.
    change (pre ++ msg' :: post ++ [x]) with (pre ++ (msg' :: post) ++ [x]) in Heq.
    rewrite app_assoc in Heq. apply app_inj_tail in Heq. destruct Heq as [Heq _].
    exact (Hh pre msg' post Heq Hrole).
Qed.

(** *** Trimming *)

Lemma trim_drops m :
  exists k,
    messages (_trim_if_needed m) = skipn k (messages m) /\
    (k = 0%nat \/
     Z.of_nat (length (messages (_trim_if_needed m))) >= max_messages m).
Proof.
  unfold _trim_if_needed.
  destruct (Z.gtb_spec (Z.of_nat (length (messages m))) (max_messages m)) as [Hgt|Hle].
  - eexists. split; [reflexivity|]. right. cbn [messages].
    rewrite length_skipn. lia.
  - exists 0%nat. split; [reflexivity|]. left. reflexivity.
Qed.

Lemma trimmed_from_append h now bound msg m :
  messages m = now -> max_messages m = bound ->
  trimmed_from h now bound ->
  trimmed_from (h ++ [msg])
               (messages (_trim_if_needed (messages_append m msg)))
               bound.
Proof.
  intros Hnow Hbound [[evicted Hev] Hshort].
  destruct (trim_drops (messages_append m msg)) as (k & Hk & Hcase).
  cbn [messages_append messages max_messages] in Hk, Hcase.
  rewrite Hnow in Hk. rewrite Hbound in Hcase. split.
  - exists (evicted ++ firstn k (now ++ [msg])).
    rewrite Hk, <- app_assoc, firstn_skipn, Hev, <- app_assoc. reflexivity.
  - intros Hlt. destruct Hcase as [-> | Hge]; [|lia].
    rewrite Hk in *. cbn [skipn] in *.
    rewrite length_app in Hlt. cbn [length] in Hlt.
    rewrite Hshort by lia. reflexivity.
Qed.

(** *** The invariant of a turn *)

Lemma history_logged before s evs :
  appended evs = [] -> history before (logged s evs) = history before s.
Proof.
  intros H. unfold history, logged. cbn [Agent.log].
  rewrite appended_app, H, app_nil_r. reflexivity.
Qed.

Lemma history_stored before s msg :
  history before (stored s msg) = history before s ++ [msg].
Proof.
  unfold history, stored. cbn [Agent.log].
  rewrite appended_app, app_assoc. reflexivity.
Qed.

Lemma history_asked before s : history before (asked s) = history before s.
Proof.
  unfold history, asked. cbn [Agent.log]. rewrite !appended_app.
  destruct (hook_silent (Agent._on_thinking (Agent.self s)) EvThinking I)
    as [-> _].
  cbn. rewrite app_nil_r. reflexivity.
Qed.

Lemma history_dispatched before s i tc :
  history before (dispatched s i tc) = history before s ++ [result_message s i tc].
Proof.
  unfold dispatched.
  rewrite history_stored,
    (history_logged before s _ (proj1 (call_events_facts s tc))).
  reflexivity.
Qed.

Lemma remembered_stored before s msg :
  remembered before s -> remembered before (stored s msg).
Proof.
  intros Ht. unfold remembered. rewrite history_stored.
  unfold stored. cbn [Agent.self Agent.with_memory Agent.memory].
  rewrite trim_max_messages. cbn [messages_append max_messages].
  exact (trimmed_from_append _ _ _ msg (Agent.memory (Agent.self s))
           eq_refl eq_refl Ht).
Qed.

Lemma remembered_asked before s :
  remembered before s -> remembered before (asked s).
Proof. intros Ht. unfold remembered. rewrite history_asked. exact Ht. Qed.

Lemma remembered_dispatched before s i tc :
  remembered before s -> remembered before (dispatched s i tc).
Proof.
  intros Ht. unfold dispatched. apply remembered_stored.
  unfold remembered.
  rewrite (history_logged before s _ (proj1 (call_events_facts s tc))). exact Ht.
Qed.

Lemma run_loop_remembered before r i made results s :
  remembered before s ->
  remembered before (snd (Agent.run_loop r i made results s)).
Proof.
  apply (run_loop_preserves (remembered before)).
  - intros s'. apply remembered_asked.
  - intros s' c. apply remembered_stored.
  - intros s' response i' made' results' Hs'.
    destruct (process_tool_calls_preserves (fun _ => remembered before) i')
      with (tcs := LLMResponse.tool_calls response) (made := made')
           (results := results') (s := stored s' (round_message response))
      as [_ H].
    + intros d rest s'' tc Hs'' _. apply remembered_dispatched, Hs''.
    + apply remembered_stored, Hs'.
    + exact H.
Qed.

(** After a turn of [run] the memory holds what trimming, under the
    bound it had at the start, left of the messages stored at the start
    followed by the messages the turn appended. *)
Lemma run_remembered agent user_message :
  trimmed_from
    (messages (Agent.memory agent)
     ++ appended (Agent.log (snd (Agent.run agent user_message))))
    (messages (Agent.memory (Agent.self (snd (Agent.run agent user_message)))))
    (max_messages (Agent.memory agent)).
Proof.
  set (s0 := {| Agent.self := agent; Agent.log := [] |} : Agent.State P).
  assert (H0 : remembered (messages (Agent.memory agent)) s0).
  { unfold remembered, history, trimmed_from. cbn. rewrite app_nil_r.
    split; [exists []; reflexivity | reflexivity]. }
  assert (Hbound : max_messages (Agent.memory (Agent.self (snd (Agent.run agent user_message)))) =
                   max_messages (Agent.memory agent)).
  { assert (Hf : follows s0 (snd (Agent.run agent user_message))).
    { eapply follows_trans; [apply (follows_stored s0 (Message_user user_message))|].
      rewrite run_eq. apply run_loop_follows. }
    destruct Hf as (_ & _ & _ & _ & _ & _ & _ & Hb). exact Hb. }
  rewrite <- Hbound. rewrite run_eq.
  apply (run_loop_remembered (messages (Agent.memory agent))).
  apply remembered_stored, H0.
Qed.

Lemma turn_invariant_asked before s :
  turn_invariant before s -> turn_invariant before (asked s).
Proof.
  intros [Hc Ht]. split; [rewrite history_asked; exact Hc|].
  apply remembered_asked, Ht.
Qed.

Lemma turn_invariant_stored before s msg :
  turn_invariant before s ->
  (role msg = TOOL ->
   exists j k, request_at (history before s) j k (tool_call_id msg)) ->
  turn_invariant before (stored s msg).
Proof.
  intros [Hc Ht] Hmsg. split.
  - rewrite history_stored. apply correlated_snoc; assumption.
  - apply remembered_stored, Ht.
Qed.

Lemma turn_invariant_round before s response i made results :
  turn_invariant before s ->
  turn_invariant before
    (snd (Agent.process_tool_calls i (LLMResponse.tool_calls response)
            made results (stored s (round_message response)))).
Proof.
  intros Hs.
  pose (Pre := fun (tcs : list ToolCallData) (s' : Agent.State P) =>
                 turn_invariant before s' /\
                 forall d, In d tcs -> carried d (history before s')).
  destruct (process_tool_calls_preserves Pre i) with
    (tcs := LLMResponse.tool_calls response) (made := made) (results := results)
    (s := stored s (round_message response)) as [rest [Hinv _]].
  - (* one pass *)
    intros d rest s' tc [[Hc Ht] Hcar] Hd. split; [split|].
    + rewrite history_dispatched. apply correlated_snoc; [exact Hc|].
      intros _.
      destruct (Hcar d (or_introl eq_refl)) as (j & a & tcs & k & Hj & Ha & Htcs & Hk).
      exists j, k, a, tcs, d. repeat split; try assumption.
      exists tc, i. split; [exact Hd | reflexivity].
    + apply remembered_dispatched, Ht.
    + intros d' Hin. rewrite history_dispatched.
      apply carried_app, Hcar. right. exact Hin.
  - (* entering the loop *)
    split.
    + apply turn_invariant_stored; [exact Hs | discriminate].
    + intros d Hin. rewrite history_stored.
      destruct (In_nth_error _ _ Hin) as [k Hk].
      exists (length (history before s)), (round_message response),
        (LLMResponse.tool_calls response), k.
      repeat split; [|exact Hk].
      rewrite nth_error_app2, Nat.sub_diag by lia. reflexivity.
  - exact Hinv.
Qed.

Lemma run_loop_turn_invariant before r i made results s :
  turn_invariant before s ->
  turn_invariant before (snd (Agent.run_loop r i made results s)).
Proof.
  apply (run_loop_preserves (turn_invariant before)).
  - intros s'. apply turn_invariant_asked.
  - intros s' c Hs'. apply turn_invariant_stored; [exact Hs' | discriminate].
  - intros s' response i' made' results'. apply turn_invariant_round.
Qed.

(** C1 (as the code has it).  Take a turn of [run] from a memory in
    which every tool message already has a request before it.  In the
    history of the turn, the messages stored at its start followed by
    the messages it appended, every tool message has strictly before it
    an assistant message with at least one request that answers to its
    correlation id.  The stored sequence is what trimming left of that
    history, a suffix of it, and is the whole of it, hence correlated
    itself, whenever it ends the turn shorter than the bound. *)
Theorem tool_results_follow_requests (agent : Agent.t P) (user_message : string) :
  correlated (messages (Agent.memory agent)) ->
  let after := snd (Agent.run agent user_message) in
  let h := messages (Agent.memory agent) ++ appended (Agent.log after) in
  correlated h /\
  (exists evicted, h = evicted ++ messages (Agent.memory (Agent.self after))) /\
  (Z.of_nat (length (messages (Agent.memory (Agent.self after))))
     < max_messages (Agent.memory agent) ->
   messages (Agent.memory (Agent.self after)) = h /\
   correlated (messages (Agent.memory (Agent.self after)))).
Proof.
  intros Hbefore after h.
  set (s0 := {| Agent.self := agent; Agent.log := [] |} : Agent.State P).
  assert (H0 : turn_invariant (messages (Agent.memory agent)) s0).
  { unfold turn_invariant, remembered, history, trimmed_from. cbn.
    rewrite app_nil_r.
    split; [exact Hbefore|]. split; [exists []; reflexivity | reflexivity]. }
  assert (Hafter : correlated h).
  { subst h after. rewrite run_eq.
    apply (run_loop_turn_invariant (messages (Agent.memory agent))).
    apply turn_invariant_stored; [exact H0 | discriminate]. }
  destruct (run_remembered agent user_message) as [Hev Hshort].
  fold after in Hev, Hshort. fold h in Hev, Hshort.
  split; [exact Hafter|]. split; [exact Hev|].
  intros Hlt. pose proof (Hshort Hlt) as Heq. split; [exact Heq|].
  rewrite Heq. exact Hafter.
Qed.

(** *** The turn of a model that never settles *)

Lemma last_app_default (A : Type) (l1 l2 : list A) (d : A) :
  last (l1 ++ l2) d = last l2 (last l1 d).
Proof.
  destruct l2 as [|y l2].
  - rewrite app_nil_r. reflexivity.
  - destruct (@exists_last _ (y :: l2)) as (l' & z & E); [discriminate|].
    rewrite E, app_assoc, !last_last. reflexivity.
Qed.

Lemma last_all_tool (l : list Message) (d : Message) :
  l <> [] -> Forall (fun msg => role msg = TOOL) l -> role (last l d) = TOOL.
Proof.
  intros Hne Hall. destruct (exists_last Hne) as (l' & x & ->).
  rewrite last_last. apply Forall_app in Hall. destruct Hall as [_ Hx].
  inversion Hx; assumption.
Qed.

Lemma run_loop_exhausts :
  always_requests_tools ->
  forall r i made results s,
  exists tail,
    Agent.log (snd (Agent.run_loop r i made results s)) = Agent.log s ++ tail /\
    fst (Agent.run_loop r i made results s) =
      Returned
        {| AgentResponse.content := Agent.exhaustion_message;
           AgentResponse.tool_calls_made := made ++ recorded_names (executed tail);
           AgentResponse.tool_results := results ++ recorded_results (executed tail) |} /\
    model_calls tail = r /\
    dispatch_rounds tail = r /\
    Forall round_member (appended tail) /\
    (forall d, role d <> ASSISTANT -> role (last (appended tail) d) <> ASSISTANT).
Proof.
  intros Halways. induction r as [|r IH]; intros i made results s.
  - exists []. cbn. rewrite !app_nil_r. repeat split; try constructor.
    intros d Hd. exact Hd.
  - destruct (Halways (Agent.llm (Agent.self s))
                      (get_messages (Agent.memory (Agent.self s))) (schemas s))
      as (response & Hr & Hne & Hknown).
    fold (reply_at s) in Hr.
    assert (Hh : LLMResponse.has_tool_calls response = true).
    { unfold LLMResponse.has_tool_calls.
      destruct (LLMResponse.tool_calls response); [contradiction Hne|]; reflexivity. }
    rewrite (run_loop_round r i made results s response Hr Hh).
    unfold Agent.bind.
    set (s1 := stored (asked s) (round_message response)).
    destruct (process_tool_calls_spec (LLMResponse.tool_calls response)
                (i + 1) made results s1)
      as (tail1 & Hlog1 & Hm1 & Hd1 & _ & Ha1 & Hacc1).
    destruct (Agent.process_tool_calls (i + 1) (LLMResponse.tool_calls response)
                made results s1) as [[acc|e] s2];
      cbn [fst snd] in Hlog1, Hacc1; [|contradiction (Hacc1 Hknown)].
    destruct Hacc1 as (Hmade & Hres & Hlen).
    destruct (IH (i + 1) (fst acc) (snd acc) s2)
      as (tail2 & Hlog2 & Hout & Hm2 & Hd2 & Ha2 & Hlast).
    destruct (hook_silent (Agent._on_thinking (Agent.self s)) EvThinking I)
      as (A0 & M0 & D0 & E0 & _).
    exists (hook (Agent._on_thinking (Agent.self s)) EvThinking
            ++ [EvChat (get_messages (Agent.memory (Agent.self s)))
                       (schemas s) (snd (reply_at s))]
            ++ [EvAppend (round_message response)] ++ tail1 ++ tail2).
    rewrite Hlog2, Hlog1, Hout, Hmade, Hres.
    rewrite !appended_app, !model_calls_app, !dispatch_rounds_app, !executed_app.
    rewrite A0, M0, D0, E0, Hm1, Hd1, Hm2, Hd2, Hr.
    cbn [app appended model_calls dispatch_rounds executed Nat.add].
    rewrite Hh.
    split.
    { unfold s1, stored, asked. cbn [Agent.log]. rewrite ?Hr, <- !app_assoc. reflexivity. }
    split.
    { unfold recorded_names, recorded_results.
      rewrite !map_app, <- !app_assoc. reflexivity. }
    split; [reflexivity|]. split; [reflexivity|]. split.
    { constructor.
      - right. split; [reflexivity|].
        exists (LLMResponse.tool_calls response). split; [reflexivity|exact Hne].
      - apply Forall_app. split; [|exact Ha2].
        eapply Forall_impl; [|exact Ha1]. intros msg Hmsg. left. exact Hmsg. }
    intros d _.
    change (round_message response :: appended tail1 ++ appended tail2)
      with ([round_message response] ++ appended tail1 ++ appended tail2).
    rewrite !last_app_default. apply Hlast.
    rewrite (last_all_tool (appended tail1)); [discriminate| |exact Ha1].
    intros Hnil. rewrite Hnil in Hlen.
    destruct (LLMResponse.tool_calls response); [contradiction Hne|discriminate Hlen]; reflexivity.
Qed.

(** C2.  With a model that answers every request with tool calls and an
    iteration bound [N] that is not negative, [run] invokes the model
    exactly [N] times (so at most [N]), goes through exactly [N]
    tool-dispatch rounds, and returns the fixed exhaustion message with
    the names and the results of all the calls dispatched in the turn,
    in order.  The messages it appends are the user message and then
    only members of tool rounds (assistant messages that carry requests,
    and tool results): the last message appended is never an assistant
    message, so the exhaustion message is not stored; and the memory
    holds, trimmed, the messages it had followed by those appended. *)
Theorem exhaustion_after_max_iterations (agent : Agent.t P) (user_message : string) :
  0 <= Agent.max_iterations agent ->
  always_requests_tools ->
  let after := snd (Agent.run agent user_message) in
  fst (Agent.run agent user_message) =
    Returned
      {| AgentResponse.content :=
           "I apologize, but I've reached the maximum number of tool calls. Please try a simpler request.";
         AgentResponse.tool_calls_made := recorded_names (executed (Agent.log after));
         AgentResponse.tool_results := recorded_results (executed (Agent.log after)) |} /\
  Z.of_nat (model_calls (Agent.log after)) = Agent.max_iterations agent /\
  Z.of_nat (dispatch_rounds (Agent.log after)) = Agent.max_iterations agent /\
  (exists rounds,
      appended (Agent.log after) = Message_user user_message :: rounds /\
      Forall round_member rounds) /\
  (forall l msg, appended (Agent.log after) = l ++ [msg] -> role msg <> ASSISTANT) /\
  (exists evicted,
      messages (Agent.memory agent) ++ appended (Agent.log after) =
      evicted ++ messages (Agent.memory (Agent.self after))).
Proof.
  intros Hn Halways after.
  pose proof (proj1 (run_remembered agent user_message)) as Hmem.
  subst after. revert Hmem. rewrite run_eq. intros Hmem.
  set (s1 := stored {| Agent.self := agent; Agent.log := [] |}
                    (Message_user user_message)).
  destruct (run_loop_exhausts Halways (Z.to_nat (Agent.max_iterations agent))
              0 [] [] s1)
    as (tail & Hlog & Hout & Hm & Hd & Ha & Hlast).
  fold s1 in Hmem. revert Hmem. rewrite Hlog, Hout. intros Hmem.
  change (Agent.log s1) with [EvAppend (Message_user user_message)] in *.
  cbn [app appended model_calls dispatch_rounds executed].
  cbn [app appended] in Hmem.
  rewrite Hm, Hd. repeat split; try lia; [| |exact Hmem].
  - exists (appended tail). split; [reflexivity|exact Ha].
  - intros l msg Happ.
    assert (Hl : last (Message_user user_message :: appended tail)
                      (Message_user user_message) = msg).
    { rewrite Happ. apply last_last. }
    change (Message_user user_message :: appended tail)
      with ([Message_user user_message] ++ appended tail) in Hl.
    rewrite last_app_default in Hl. rewrite <- Hl.
    apply Hlast. discriminate.
Qed.

(** *** A model call that fails *)

Lemma not_failed_app (l1 l2 : list Event) :
  Forall (fun e => ~ failed_chat e) l1 ->
  Forall (fun e => ~ failed_chat e) l2 ->
  Forall (fun e => ~ failed_chat e) (l1 ++ l2).
Proof. intros H1 H2. apply Forall_app. split; assumption. Qed.

(** In a log whose only failed model call is its last event, a failed
    model call found anywhere is that last event. *)
Lemma failed_chat_is_last (pre' pre post : list Event) (f' f : Event) :
  Forall (fun e => ~ failed_chat e) pre' ->
  failed_chat f ->
  pre' ++ [f'] = pre ++ f :: post ->
  post = [] /\ pre = pre' /\ f = f'.
Proof.
  intros Hpre' Hf Heq.
  destruct post as [|x post] using rev_ind.
  - apply app_inj_tail in Heq. destruct Heq as [-> ->]. repeat split.
  - clear IHpost. exfalso.
    change (pre ++ f :: post ++ [x]) with (pre ++ (f :: post) ++ [x]) in Heq.
    rewrite app_assoc in Heq. apply app_inj_tail in Heq. destruct Heq as [-> _].
    apply Forall_app in Hpre'. destruct Hpre' as [_ Hpre'].
    inversion Hpre' as [|? ? Hnf _]. exact (Hnf Hf).
Qed.

Lemma asked_log s :
  Agent.log (asked s) =
  (Agent.log s ++ hook (Agent._on_thinking (Agent.self s)) EvThinking)
  ++ [EvChat (get_messages (Agent.memory (Agent.self s)))
             (schemas s) (snd (reply_at s))].
Proof. unfold asked. cbn [Agent.log]. rewrite app_assoc. reflexivity. Qed.

(** [run_loop] either logs no failed model call, or logs exactly one, as
    its last event, and returns the apology that quotes the error,
    with the names and results of the calls dispatched before it. *)
Lemma run_loop_failure r : forall i made results s,
  Forall (fun e => ~ failed_chat e) (Agent.log s) ->
  made = recorded_names (executed (Agent.log s)) ->
  results = recorded_results (executed (Agent.log s)) ->
  Forall (fun e => ~ failed_chat e)
         (Agent.log (snd (Agent.run_loop r i made results s))) \/
  exists pre msgs tools cls m,
    Agent.log (snd (Agent.run_loop r i made results s)) =
      pre ++ [EvChat msgs tools (inl (cls, m))] /\
    Forall (fun e => ~ failed_chat e) pre /\
    fst (Agent.run_loop r i made results s) =
      Returned
        {| AgentResponse.content := "Sorry, I encountered an error: " ++ m;
           AgentResponse.tool_calls_made := recorded_names (executed pre);
           AgentResponse.tool_results := recorded_results (executed pre) |}.
Proof.
  induction r as [|r IH]; intros i made results s Hlog Hmade Hres.
  - left. exact Hlog.
  - destruct (hook_silent (Agent._on_thinking (Agent.self s)) EvThinking I)
      as (_ & _ & _ & E0 & F0).
    destruct (snd (reply_at s)) as [[cls m]|response] eqn:Hr.
    + right. rewrite (run_loop_failed r i made results s cls m Hr).
      cbn [fst snd]. rewrite asked_log, Hr.
      eexists _, _, _, cls, m. split; [reflexivity|]. split.
      * apply not_failed_app; assumption.
      * rewrite executed_app, E0, app_nil_r, <- Hmade, <- Hres. reflexivity.
    + assert (Hasked : Forall (fun e => ~ failed_chat e) (Agent.log (asked s))).
      { rewrite asked_log, Hr. apply not_failed_app.
        - apply not_failed_app; assumption.
        - constructor; [intros []|constructor]. }
      assert (Hexe : executed (Agent.log (asked s)) = executed (Agent.log s)).
      { rewrite asked_log, !executed_app, E0. cbn. rewrite !app_nil_r. reflexivity. }
      destruct (LLMResponse.has_tool_calls response) eqn:Hh.
      * rewrite (run_loop_round r i made results s response Hr Hh).
        unfold Agent.bind.
        set (s1 := stored (asked s) (round_message response)).
        assert (Hs1 : Agent.log s1 =
                      Agent.log (asked s) ++ [EvAppend (round_message response)])
          by reflexivity.
        destruct (process_tool_calls_spec (LLMResponse.tool_calls response)
                    (i + 1) made results s1)
          as (tail & Hlog1 & _ & _ & Hf1 & _ & Hacc).
        assert (Hs2 : Forall (fun e => ~ failed_chat e) (Agent.log s1 ++ tail)).
        { rewrite Hs1. apply not_failed_app; [|exact Hf1].
          apply not_failed_app; [exact Hasked|].
          constructor; [intros []|constructor]. }
        destruct (Agent.process_tool_calls (i + 1) (LLMResponse.tool_calls response)
                    made results s1) as [[acc|e] s2];
          cbn [fst snd] in Hlog1, Hacc.
        -- destruct Hacc as (Hm' & Hr' & _).
           assert (Hexe2 : executed (Agent.log s2) =
                           executed (Agent.log s) ++ executed tail).
           { rewrite Hlog1, Hs1, !executed_app, Hexe. cbn.
             rewrite app_nil_r. reflexivity. }
           apply IH.
           ++ rewrite Hlog1. exact Hs2.
           ++ rewrite Hm', Hexe2, Hmade. unfold recorded_names.
              rewrite map_app. reflexivity.
           ++ rewrite Hr', Hexe2, Hres. unfold recorded_results.
              rewrite map_app. reflexivity.
        -- left. cbn [snd]. rewrite Hlog1. exact Hs2.
      * left. rewrite (run_loop_final r i made results s response Hr Hh).
        cbn [snd]. unfold stored. cbn [Agent.log].
        apply not_failed_app; [exact Hasked|].
        constructor; [intros []|constructor].
Qed.

Lemma stream_tool_calls_cons i d rest s tc :
  ToolCall.from_dict d = Returned tc ->
  Agent.stream_tool_calls i (d :: rest) s =
  Agent.stream_tool_calls i rest (dispatched s i tc).
Proof.
  intros Hd. cbn [Agent.stream_tool_calls].
  unfold Agent.bind at 1. unfold Agent.lift. rewrite Hd.
  unfold Agent.bind at 1. rewrite notify_eq.
  unfold Agent.bind at 1. rewrite execute_or_failure_eq.
  unfold Agent.bind at 1. rewrite notify_eq.
  unfold Agent.bind at 1. rewrite memory_add_tool_result_eq.
  rewrite !logged_logged. reflexivity.
Qed.

Lemma stream_tool_calls_raise i d rest s e :
  ToolCall.from_dict d = Raised e ->
  Agent.stream_tool_calls i (d :: rest) s = (Raised e, s).
Proof.
  intros Hd. cbn [Agent.stream_tool_calls].
  unfold Agent.bind at 1. unfold Agent.lift. rewrite Hd. reflexivity.
Qed.

Lemma stream_tool_calls_no_failure tcs : forall i s,
  Forall (fun e => ~ failed_chat e) (Agent.log s) ->
  Forall (fun e => ~ failed_chat e)
         (Agent.log (snd (Agent.stream_tool_calls i tcs s))).
Proof.
  induction tcs as [|d rest IH]; intros i s Hs; [exact Hs|].
  destruct (ToolCall.from_dict d) as [tc|e] eqn:Hd.
  - rewrite (stream_tool_calls_cons i d rest s tc Hd). apply IH.
    rewrite dispatched_log. apply not_failed_app; [exact Hs|].
    apply not_failed_app; [apply call_events_facts|].
    constructor; [intros []|constructor].
  - rewrite (stream_tool_calls_raise i d rest s e Hd). exact Hs.
Qed.

(** The unguarded model call at the head of the streaming [while] body. *)
Lemma llm_chat_eq s :
  Agent.llm_chat
    (Some (ToolDispatcher.get_tool_schemas
             (Agent.dispatcher
                (Agent.self (logged s (hook (Agent._on_thinking (Agent.self s))
                                            EvThinking))))))
    (logged s (hook (Agent._on_thinking (Agent.self s)) EvThinking)) =
  (match snd (reply_at s) with
   | inl (cls, msg) => Raised (LLMError cls msg)
   | inr response => Returned response
   end,
   asked s).
Proof.
  unfold Agent.llm_chat. cbn [Agent.self logged].
  change (chat (Agent.llm (Agent.self s)) (get_messages (Agent.memory (Agent.self s)))
               (Some (ToolDispatcher.get_tool_schemas (Agent.dispatcher (Agent.self s)))))
    with (reply_at s).
  change (Some (ToolDispatcher.get_tool_schemas (Agent.dispatcher (Agent.self s))))
    with (schemas s).
  rewrite asked_after_thinking.
  destruct (snd (reply_at s)) as [[cls msg]|response]; reflexivity.
Qed.

Lemma stream_loop_failed r i s cls msg :
  snd (reply_at s) = inl (cls, msg) ->
  Agent.stream_loop (S r) i s = (Raised (LLMError cls msg), asked s).
Proof.
  intros Hr. cbn [Agent.stream_loop].
  unfold Agent.bind at 1. rewrite notify_eq.
  unfold Agent.bind at 1. unfold Agent.get_tool_schemas at 1.
  unfold Agent.bind at 1. rewrite llm_chat_eq, Hr. reflexivity.
Qed.

Lemma stream_loop_round r i s response :
  snd (reply_at s) = inr response ->
  LLMResponse.has_tool_calls response = true ->
  Agent.stream_loop (S r) i s =
  Agent.bind
    (Agent.stream_tool_calls (i + 1) (LLMResponse.tool_calls response))
    (fun _ => Agent.stream_loop r (i + 1))
    (stored (asked s) (round_message response)).
Proof.
  intros Hr Hh. cbn [Agent.stream_loop].
  unfold Agent.bind at 1. rewrite notify_eq.
  unfold Agent.bind at 1. unfold Agent.get_tool_schemas at 1.
  unfold Agent.bind at 1. rewrite llm_chat_eq, Hr, Hh.
  unfold Agent.bind at 1. rewrite memory_add_assistant_message_eq. reflexivity.
Qed.

Lemma stream_loop_final r i s response :
  snd (reply_at s) = inr response ->
  LLMResponse.has_tool_calls response = false ->
  Agent.stream_loop (S r) i s =
  Agent.bind Agent.llm_chat_stream
    (fun full_response =>
       Agent.memory_add_assistant_message
         (Agent.content_or full_response Agent.fallback_message) None)
    (asked s).
Proof.
  intros Hr Hh. cbn [Agent.stream_loop].
  unfold Agent.bind at 1. rewrite notify_eq.
  unfold Agent.bind at 1. unfold Agent.get_tool_schemas at 1.
  unfold Agent.bind at 1. rewrite llm_chat_eq, Hr, Hh. reflexivity.
Qed.

Lemma run_stream_eq agent user_message :
  Agent.run_stream agent user_message =
  Agent.stream_loop (Z.to_nat (Agent.max_iterations agent)) 0
    (stored {| Agent.self := agent; Agent.log := [] |} (Message_user user_message)).
Proof. reflexivity. Qed.

Lemma not_failed_yields chunks :
  Forall (fun e => ~ failed_chat e) (map EvYield chunks).
Proof. induction chunks; constructor; [intros []|assumption]. Qed.

(** [stream_loop] either logs no failed model call, or logs exactly
    one, as its last event, and raises the error of that call. *)
Lemma stream_loop_failure r : forall i s,
  Forall (fun e => ~ failed_chat e) (Agent.log s) ->
  Forall (fun e => ~ failed_chat e) (Agent.log (snd (Agent.stream_loop r i s))) \/
  exists pre msgs tools cls m,
    Agent.log (snd (Agent.stream_loop r i s)) =
      pre ++ [EvChat msgs tools (inl (cls, m))] /\
    Forall (fun e => ~ failed_chat e) pre /\
    fst (Agent.stream_loop r i s) = Raised (LLMError cls m).
Proof.
  induction r as [|r IH]; intros i s Hlog.
  - left. cbn. apply not_failed_app; [exact Hlog|].
    constructor; [intros []|constructor].
  - destruct (hook_silent (Agent._on_thinking (Agent.self s)) EvThinking I)
      as (_ & _ & _ & _ & F0).
    destruct (snd (reply_at s)) as [[cls m]|response] eqn:Hr.
    + right. rewrite (stream_loop_failed r i s cls m Hr).
      cbn [fst snd]. rewrite asked_log, Hr.
      eexists _, _, _, cls, m. split; [reflexivity|].
      split; [|reflexivity].
      apply not_failed_app; assumption.
    + assert (Hasked : Forall (fun e => ~ failed_chat e) (Agent.log (asked s))).
      { rewrite asked_log, Hr. apply not_failed_app.
        - apply not_failed_app; assumption.
        - constructor; [intros []|constructor]. }
      destruct (LLMResponse.has_tool_calls response) eqn:Hh.
      * rewrite (stream_loop_round r i s response Hr Hh).
        unfold Agent.bind.
        pose proof (stream_tool_calls_no_failure
                      (LLMResponse.tool_calls response) (i + 1)
                      (stored (asked s) (round_message response))) as Hp.
        destruct (Agent.stream_tool_calls _ _ _) as [[u|e] s2]; cbn [snd] in Hp.
        -- apply IH, Hp. unfold stored. cbn [Agent.log].
           apply not_failed_app; [exact Hasked|].
           constructor; [intros []|constructor].
        -- left. cbn [snd]. apply Hp. unfold stored. cbn [Agent.log].
           apply not_failed_app; [exact Hasked|].
           constructor; [intros []|constructor].
      * left. rewrite (stream_loop_final r i s response Hr Hh).
        unfold Agent.bind, Agent.llm_chat_stream.
        destruct (snd (snd (chat_stream _ _ _))) as [[cls m]|]; cbn [snd Agent.log].
        -- apply not_failed_app; [exact Hasked|].
           constructor; [intros []|apply not_failed_yields].
        -- apply not_failed_app; [|constructor; [intros []|constructor]].
           apply not_failed_app; [exact Hasked|].
           constructor; [intros []|apply not_failed_yields].
Qed.

(** In a turn of [run], a model call that fails is the last thing the
    turn does, so it is not retried and nothing is dispatched or stored
    after it, and the turn returns, without raising, the sentence
    ["Sorry, I encountered an error: "] followed by the error's message,
    together with the names and the results of all the tool calls
    dispatched before the failure. *)
Lemma run_failure_ends_turn
    (agent : Agent.t P) (user_message : string)
    (pre post : list Event) (msgs : list Message) (tools : option (list PyValue))
    (cls : LLMErrorClass) (m : string) :
  Agent.log (snd (Agent.run agent user_message)) =
    pre ++ EvChat msgs tools (inl (cls, m)) :: post ->
  post = [] /\
  fst (Agent.run agent user_message) =
    Returned
      {| AgentResponse.content := "Sorry, I encountered an error: " ++ m;
         AgentResponse.tool_calls_made := recorded_names (executed pre);
         AgentResponse.tool_results := recorded_results (executed pre) |}.
Proof.
  set (s1 := stored {| Agent.self := agent; Agent.log := [] |}
                    (Message_user user_message)).
  assert (H1 : Forall (fun e => ~ failed_chat e) (Agent.log s1)).
  { cbn. constructor; [intros []|constructor]. }
  rewrite run_eq. fold s1. intros Hlog.
  destruct (run_loop_failure (Z.to_nat (Agent.max_iterations agent)) 0 [] [] s1
              H1 eq_refl eq_refl)
    as [Hnone | (pre' & msgs' & tools' & cls' & m' & Hlog' & Hpre' & Hout)].
  - exfalso. rewrite Hlog in Hnone. apply Forall_app in Hnone.
    destruct Hnone as [_ Hnone]. inversion Hnone as [|? ? Hnf _].
    exact (Hnf I).
  - rewrite Hlog in Hlog'. symmetry in Hlog'.
    destruct (failed_chat_is_last pre' pre post
                (EvChat msgs' tools' (inl (cls', m')))
                (EvChat msgs tools (inl (cls, m))) Hpre' I Hlog')
      as (Hpost & Hpre & Hf).
    split; [exact Hpost|]. inversion Hf; subst. exact Hout.
Qed.

(** In a turn of [run_stream] the same model call is made without the
    handler [run] has around it: a model call that fails is the last thing
    the turn does, and its error is what the turn raises. *)
Lemma run_stream_failure_is_raised
    (agent : Agent.t P) (user_message : string)
    (pre post : list Event) (msgs : list Message) (tools : option (list PyValue))
    (cls : LLMErrorClass) (m : string) :
  Agent.log (snd (Agent.run_stream agent user_message)) =
    pre ++ EvChat msgs tools (inl (cls, m)) :: post ->
  post = [] /\
  fst (Agent.run_stream agent user_message) = Raised (LLMError cls m).
Proof.
  set (s1 := stored {| Agent.self := agent; Agent.log := [] |}
                    (Message_user user_message)).
  assert (H1 : Forall (fun e => ~ failed_chat e) (Agent.log s1)).
  { cbn. constructor; [intros []|constructor]. }
  rewrite run_stream_eq. fold s1. intros Hlog.
  destruct (stream_loop_failure (Z.to_nat (Agent.max_iterations agent)) 0 s1 H1)
    as [Hnone | (pre' & msgs' & tools' & cls' & m' & Hlog' & Hpre' & Hout)].
  - exfalso. rewrite Hlog in Hnone. apply Forall_app in Hnone.
    destruct Hnone as [_ Hnone]. inversion Hnone as [|? ? Hnf _].
    exact (Hnf I).
  - rewrite Hlog in Hlog'. symmetry in Hlog'.
    destruct (failed_chat_is_last pre' pre post
                (EvChat msgs' tools' (inl (cls', m')))
                (EvChat msgs tools (inl (cls, m))) Hpre' I Hlog')
      as (Hpost & Hpre & Hf).
    split; [exact Hpost|]. inversion Hf; subst. exact Hout.
Qed.

(** *** Further properties of the agent *)

(** X12.  An agent constructed with a memory that holds no messages does
    not take that memory: whatever its bound and prompt, the agent starts
    from a fresh memory with the default bound and [SYSTEM_PROMPT], and
    the first request of its first turn is that prompt and the user
    message.  A memory that holds messages is taken, with its bound, and
    its prompt is replaced by [SYSTEM_PROMPT].  An iteration bound of 0
    stands for the configured default. *)
Theorem constructor_replaces_empty_memory
    (tool_registry : ToolRegistry.t) (llm0 : P) (d : option ToolDispatcher.t)
    (m : ConversationMemory) (n : option Z) (user_message : string) :
  let made := Agent.new tool_registry llm0 d (Some m) n in
  (messages m = [] ->
   Agent.memory made =
     {| messages := []; system_prompt := Some SYSTEM_PROMPT; max_messages := 100 |} /\
   get_messages (add_user_message (Agent.memory made) user_message) =
     [Message_system SYSTEM_PROMPT; Message_user user_message]) /\
  (messages m <> [] ->
   Agent.memory made =
     {| messages := messages m;
        system_prompt := Some SYSTEM_PROMPT;
        max_messages := max_messages m |}) /\
  Agent.new tool_registry llm0 d (Some m) (Some 0) =
    Agent.new tool_registry llm0 d (Some m) None.
Proof.
  intros made. subst made. unfold Agent.new. cbn [Agent.memory].
  split; [|split; [|reflexivity]].
  - intros Hempty. rewrite Hempty. split; reflexivity.
  - intros Hne. destruct (messages m) eqn:E; [contradiction Hne; reflexivity|].
    rewrite <- E. reflexivity.
Qed.

(** X13.  With an iteration bound of zero or less a turn asks the model
    nothing: [run] stores the user message and returns the exhaustion
    message with no tool activity, and [run_stream] stores the user
    message and yields its exhaustion sentence. *)
Theorem no_iterations_no_model_call (agent : Agent.t P) (user_message : string) :
  Agent.max_iterations agent <= 0 ->
  Agent.run agent user_message =
    (Returned {| AgentResponse.content := Agent.exhaustion_message;
                 AgentResponse.tool_calls_made := [];
                 AgentResponse.tool_results := [] |},
     {| Agent.self :=
          Agent.with_memory agent
            (add_user_message (Agent.memory agent) user_message);
        Agent.log := [EvAppend (Message_user user_message)] |}) /\
  Agent.run_stream agent user_message =
    (Returned tt,
     {| Agent.self :=
          Agent.with_memory agent
            (add_user_message (Agent.memory agent) user_message);
        Agent.log := [EvAppend (Message_user user_message);
                      EvYield "I apologize, but I've reached the maximum number of tool calls."] |}).
Proof.
  intros Hn. rewrite run_eq, run_stream_eq.
  replace (Z.to_nat (Agent.max_iterations agent)) with 0%nat by lia.
  split; reflexivity.
Qed.

Lemma run_loop_bounded r : forall i made results s,
  exists tail,
    Agent.log (snd (Agent.run_loop r i made results s)) = Agent.log s ++ tail /\
    (model_calls tail <= r)%nat /\
    (dispatch_rounds tail <= model_calls tail)%nat.
Proof.
  induction r as [|r IH]; intros i made results s.
  - exists []. cbn. rewrite app_nil_r. repeat split; lia.
  - destruct (hook_silent (Agent._on_thinking (Agent.self s)) EvThinking I)
      as (_ & M0 & D0 & _ & _).
    destruct (snd (reply_at s)) as [[cls m]|response] eqn:Hr.
    + rewrite (run_loop_failed r i made results s cls m Hr). cbn [snd].
      eexists. split; [rewrite asked_log, <- app_assoc; reflexivity|].
      rewrite !model_calls_app, !dispatch_rounds_app, M0, D0, Hr. cbn. lia.
    + destruct (LLMResponse.has_tool_calls response) eqn:Hh.
      * rewrite (run_loop_round r i made results s response Hr Hh).
        unfold Agent.bind.
        set (s1 := stored (asked s) (round_message response)).
        destruct (process_tool_calls_spec (LLMResponse.tool_calls response)
                    (i + 1) made results s1)
          as (tail1 & Hlog1 & Hm1 & Hd1 & _).
        destruct (Agent.process_tool_calls (i + 1) (LLMResponse.tool_calls response)
                    made results s1) as [[acc|e] s2]; cbn [fst snd] in Hlog1.
        -- destruct (IH (i + 1) (fst acc) (snd acc) s2) as (tail2 & Hlog2 & Hm2 & Hd2).
           exists ((hook (Agent._on_thinking (Agent.self s)) EvThinking
                    ++ [EvChat (get_messages (Agent.memory (Agent.self s)))
                               (schemas s) (snd (reply_at s))])
                   ++ [EvAppend (round_message response)] ++ tail1 ++ tail2).
           split.
           { rewrite Hlog2, Hlog1. unfold s1, stored. cbn [Agent.log].
             rewrite asked_log, <- !app_assoc. reflexivity. }
           rewrite !model_calls_app, !dispatch_rounds_app, M0, D0, Hm1, Hd1, Hr.
           cbn. rewrite Hh. lia.
        -- exists ((hook (Agent._on_thinking (Agent.self s)) EvThinking
                    ++ [EvChat (get_messages (Agent.memory (Agent.self s)))
                               (schemas s) (snd (reply_at s))])
                   ++ [EvAppend (round_message response)] ++ tail1).
           cbn [snd]. split.
           { rewrite Hlog1. unfold s1, stored. cbn [Agent.log].
             rewrite asked_log, <- !app_assoc. reflexivity. }
           rewrite !model_calls_app, !dispatch_rounds_app, M0, D0, Hm1, Hd1, Hr.
           cbn. rewrite Hh. lia.
      * rewrite (run_loop_final r i made results s response Hr Hh). cbn [snd].
        exists ((hook (Agent._on_thinking (Agent.self s)) EvThinking
                 ++ [EvChat (get_messages (Agent.memory (Agent.self s)))
                            (schemas s) (snd (reply_at s))])
                ++ [EvAppend (Message_assistant
                                (Agent.content_or (LLMResponse.content response)
                                                  Agent.fallback_message) None)]).
        split.
        { unfold stored. cbn [Agent.log]. rewrite asked_log, <- !app_assoc. reflexivity. }
        rewrite !model_calls_app, !dispatch_rounds_app, M0, D0, Hr.
        cbn. rewrite Hh. lia.
Qed.

(** X14.  Whatever the model answers, a turn of [run] invokes it at most
    [max_iterations] times (not at all when that is negative), and goes
    through at most as many tool rounds as it made model calls. *)
Theorem run_is_bounded (agent : Agent.t P) (user_message : string) :
  Z.of_nat (model_calls (Agent.log (snd (Agent.run agent user_message))))
    <= Z.max 0 (Agent.max_iterations agent) /\
  (dispatch_rounds (Agent.log (snd (Agent.run agent user_message)))
     <= model_calls (Agent.log (snd (Agent.run agent user_message))))%nat.
Proof.
  rewrite run_eq.
  destruct (run_loop_bounded (Z.to_nat (Agent.max_iterations agent)) 0 [] []
              (stored {| Agent.self := agent; Agent.log := [] |}
                      (Message_user user_message)))
    as (tail & Hlog & Hm & Hd).
  rewrite Hlog. cbn [stored Agent.log app model_calls dispatch_rounds].
  split; lia.
Qed.



(** X16.  A round whose requests are all read hands the calls to the
    dispatcher one by one in the order of the requests, and appends one
    tool-result message per request in that order, each under the id of
    its request; the results it records are those [execute_multiple]
    gives for the same calls. *)
Theorem round_keeps_request_order
    (tcs : list ToolCallData) (calls : list ToolCall.t) (i : Z)
    (made : list string) (results : list ToolResult.t) (s : Agent.State P) :
  omap ToolCall.from_dict tcs = Returned calls ->
  let d := Agent.dispatcher (Agent.self s) in
  let outcome := Agent.process_tool_calls i tcs made results s in
  fst outcome =
    Returned (made ++ map ToolCall.name calls,
              results ++ map (fun tc => recorded_result (ToolDispatcher.execute d tc))
                             calls) /\
  ToolDispatcher.execute_multiple d calls =
    Returned (map (fun tc => recorded_result (ToolDispatcher.execute d tc)) calls) /\
  executed (Agent.log (snd outcome)) =
    executed (Agent.log s) ++ map (fun tc => (tc, ToolDispatcher.execute d tc)) calls /\
  appended (Agent.log (snd outcome)) =
    appended (Agent.log s)
    ++ map (fun tc =>
              Message_tool_result
                (ToolResult.to_message (recorded_result (ToolDispatcher.execute d tc)))
                (Agent.tool_call_id_of i tc))
           calls.
Proof.
  intros Hparse d outcome. subst outcome.
  split; [|split].
  2: { clear. induction calls as [|tc calls IH]; [reflexivity|].
       cbn [ToolDispatcher.execute_multiple map]. rewrite IH.
       destruct (ToolDispatcher.execute d tc) as [result|e] eqn:H; [reflexivity|].
       assert (Hcls : is_ToolError e = true) by exact (execute_raises_ToolError d tc e H).
       unfold ToolDispatcher.execute in H.
       destruct (ToolRegistry.get _ _).
       - destruct (ToolDispatcher.call_execute _ _); inversion H; reflexivity.
       - inversion H; reflexivity. }
  - subst d. revert calls made results s Hparse.
    induction tcs as [|tc0 tcs IH]; intros calls made results s Hparse.
    + inversion Hparse. cbn. rewrite !app_nil_r. reflexivity.
    + cbn [omap] in Hparse.
      destruct (ToolCall.from_dict tc0) as [tc|e] eqn:Hd; [|discriminate Hparse].
      cbn [obind] in Hparse.
      destruct (omap ToolCall.from_dict tcs) as [calls'|e] eqn:Hrest;
        [|discriminate Hparse].
      inversion Hparse; subst calls.
      rewrite (process_tool_calls_cons i tc0 tcs made results s tc Hd).
      rewrite (IH calls' _ _ (dispatched s i tc) eq_refl).
      cbn [map]. rewrite <- !app_assoc. reflexivity.
  - subst d. revert calls made results s Hparse.
    induction tcs as [|tc0 tcs IH]; intros calls made results s Hparse.
    + inversion Hparse. cbn. rewrite !app_nil_r. split; reflexivity.
    + cbn [omap] in Hparse.
      destruct (ToolCall.from_dict tc0) as [tc|e] eqn:Hd; [|discriminate Hparse].
      cbn [obind] in Hparse.
      destruct (omap ToolCall.from_dict tcs) as [calls'|e] eqn:Hrest;
        [|discriminate Hparse].
      inversion Hparse; subst calls.
      rewrite (process_tool_calls_cons i tc0 tcs made results s tc Hd).
      destruct (IH calls' (made ++ [ToolCall.name tc])
                   (results ++ [recorded_result (outcome_at s tc)])
                   (dispatched s i tc) eq_refl) as [He Ha].
      destruct (call_events_facts s tc) as (A & _ & _ & E & _).
      rewrite He, Ha, dispatched_log, !executed_app, !appended_app, A, E.
      cbn [map app executed appended]. rewrite <- !app_assoc. split; reflexivity.
Qed.



Lemma yielded_app l1 l2 : yielded (l1 ++ l2) = yielded l1 ++ yielded l2.
Proof.
  induction l1 as [|ev l1 IH]; [reflexivity|].
  destruct ev; cbn; rewrite IH; reflexivity.
Qed.






(** X18.  When the first reply of a turn of [run_stream] requests no
    tool, its content is not used: the model is asked again, through
    [chat_stream], with the same messages and without tools.  Every chunk
    of that stream is yielded, in order.  When the stream ends normally
    the chunks joined, or the fallback sentence when that is empty, are
    stored as one assistant message.  When the stream ends with an error
    the error is raised and no assistant message is stored: the memory
    ends the turn with the user message unanswered. *)
Theorem streamed_answer
    (agent : Agent.t P) (user_message : string) (p' p'' : P)
    (response : LLMResponse.t) (chunks : list string)
    (err : option (LLMErrorClass * string)) :
  0 < Agent.max_iterations agent ->
  chat (Agent.llm agent)
       (get_messages (add_user_message (Agent.memory agent) user_message))
       (Some (ToolDispatcher.get_tool_schemas (Agent.dispatcher agent)))
    = (p', inr response) ->
  LLMResponse.tool_calls response = [] ->
  chat_stream p'
       (get_messages (add_user_message (Agent.memory agent) user_message))
       None
    = (p'', (chunks, err)) ->
  let after := snd (Agent.run_stream agent user_message) in
  yielded (Agent.log after) = chunks /\
  model_calls (Agent.log after) = 1%nat /\
  Agent.llm (Agent.self after) = p'' /\
  match err with
  | None =>
      fst (Agent.run_stream agent user_message) = Returned tt /\
      Agent.memory (Agent.self after) =
        add_assistant_message
          (add_user_message (Agent.memory agent) user_message)
          (Agent.content_or (String.concat "" chunks) "I don't have a response.")
          None
  | Some (cls, msg) =>
      fst (Agent.run_stream agent user_message) = Raised (LLMError cls msg) /\
      Agent.memory (Agent.self after) =
        add_user_message (Agent.memory agent) user_message
  end.
Proof.
  intros Hmax Hchat Hnone Hstream after. subst after.
  destruct (Z.to_nat (Agent.max_iterations agent)) as [|r] eqn:Hr; [lia|].
  set (s1 := stored {| Agent.self := agent; Agent.log := [] |}
                    (Message_user user_message)).
  assert (Hreply : reply_at s1 = (p', inr response)).
  { unfold reply_at, schemas, s1, stored. cbn.
    change (_trim_if_needed (messages_append (Agent.memory agent)
                                             (Message_user user_message)))
      with (add_user_message (Agent.memory agent) user_message).
    exact Hchat. }
  assert (Hno : LLMResponse.has_tool_calls response = false).
  { unfold LLMResponse.has_tool_calls. rewrite Hnone. reflexivity. }
  rewrite run_stream_eq, Hr. fold s1.
  rewrite (stream_loop_final r 0 s1 response
             ltac:(rewrite Hreply; reflexivity) Hno).
  unfold Agent.bind, Agent.llm_chat_stream.
  assert (Hs : chat_stream (Agent.llm (Agent.self (asked s1)))
                 (get_messages (Agent.memory (Agent.self (asked s1)))) None
               = (p'', (chunks, err))).
  { unfold asked. cbn [Agent.self Agent.with_llm Agent.llm Agent.memory].
    rewrite Hreply. cbn [fst]. exact Hstream. }
  rewrite Hs. cbn [fst snd].
  assert (Hy : yielded (map EvYield chunks) = chunks).
  { clear. induction chunks as [|c l IH]; cbn; [reflexivity | rewrite IH; reflexivity]. }
  assert (Hm : model_calls (map EvYield chunks) = 0%nat).
  { clear. induction chunks as [|c l IH]; cbn; [reflexivity | exact IH]. }
  assert (Hlog : yielded (Agent.log (asked s1)) = [] /\
                 model_calls (Agent.log (asked s1)) = 1%nat).
  { rewrite asked_log, !yielded_app, !model_calls_app.
    destruct (Agent._on_thinking (Agent.self s1)); split; reflexivity. }
  destruct Hlog as [Hy0 Hm0].
  destruct err as [[cls msg]|]; cbn [fst snd Agent.log Agent.self].
  - rewrite !yielded_app, !model_calls_app, Hy0, Hy, Hm0, Hm.
    cbn [yielded model_calls app].
    repeat split.
  - unfold Agent.memory_add_assistant_message, Agent.bind, Agent.update_memory,
      Agent.emit. cbn [fst snd Agent.log Agent.self].
    rewrite !yielded_app, !model_calls_app, Hy0, Hy, Hm0, Hm.
    cbn [yielded model_calls app]. rewrite app_nil_r.
    repeat split.
Qed.

Lemma tool_call_id_of_not_empty i tc : Agent.tool_call_id_of i tc <> "".
Proof.
  unfold Agent.tool_call_id_of.
  destruct (ToolCall.id tc) as [[|c id]|]; cbn; discriminate.
Qed.

(** X19.  Every message a turn of [run] appends is a user or assistant
    message without correlation id, or a tool message without tool calls
    whose correlation id is not empty; none is a system message.  So the
    API dict of each carries its correlation id exactly when it has
    one. *)
Theorem turn_appends_well_formed_messages (agent : Agent.t P) (user_message : string) :
  Forall (fun msg =>
            turn_message msg /\
            p_tool_call_id (Message_to_dict msg) = tool_call_id msg)
         (appended (Agent.log (snd (Agent.run agent user_message)))).
Proof.
  rewrite run_eq.
  set (good := fun msg : Message =>
                 turn_message msg /\
                 p_tool_call_id (Message_to_dict msg) = tool_call_id msg).
  assert (Hstored : forall s msg,
             good msg -> Forall good (appended (Agent.log s)) ->
             Forall good (appended (Agent.log (stored s msg)))).
  { intros s msg Hmsg Hs. unfold stored. cbn [Agent.log].
    rewrite appended_app. apply Forall_app. split; [exact Hs|].
    constructor; [exact Hmsg | constructor]. }
  assert (Hasked : forall s,
             Forall good (appended (Agent.log s)) ->
             Forall good (appended (Agent.log (asked s)))).
  { intros s Hs. rewrite asked_log, !appended_app.
    destruct (hook_silent (Agent._on_thinking (Agent.self s)) EvThinking I) as [-> _].
    cbn. rewrite !app_nil_r. exact Hs. }
  assert (Hassistant : forall c tcs, good (Message_assistant c tcs)).
  { intros c tcs. split; [right; left; split; reflexivity | reflexivity]. }
  apply (run_loop_preserves (fun s => Forall good (appended (Agent.log s)))).
  - exact Hasked.
  - intros s c Hs. apply Hstored; [apply Hassistant | exact Hs].
  - intros s response i made results Hs.
    destruct (process_tool_calls_preserves
                (fun _ s' => Forall good (appended (Agent.log s'))) i)
      with (tcs := LLMResponse.tool_calls response) (made := made)
           (results := results) (s := stored s (round_message response))
      as [_ H].
    + intros d rest s' tc Hs' _.
      rewrite dispatched_log, !appended_app.
      rewrite (proj1 (call_events_facts s' tc)). cbn [app appended].
      apply Forall_app. split; [exact Hs'|]. constructor; [|constructor].
      pose proof (tool_call_id_of_not_empty i tc) as Hid.
      unfold result_message. split.
      * right. right. cbn. repeat split. eexists. split; [reflexivity | exact Hid].
      * unfold Message_to_dict. cbn.
        destruct (Agent.tool_call_id_of i tc); [contradiction Hid|]; reflexivity.
    + apply Hstored; [apply Hassistant | exact Hs].
    + exact H.
  - apply Hstored; [|constructor].
    split; [left; repeat split | reflexivity].
Qed.

(** X20.  A turn of [run] leaves the agent's configuration alone: the
    dispatcher, the iteration bound, the callbacks, the system prompt and
    the message bound are after the turn what they were before it; and
    the first thing the turn does is store the user message. *)
Theorem run_keeps_configuration (agent : Agent.t P) (user_message : string) :
  let after := snd (Agent.run agent user_message) in
  Agent.dispatcher (Agent.self after) = Agent.dispatcher agent /\
  Agent.max_iterations (Agent.self after) = Agent.max_iterations agent /\
  Agent._on_tool_start (Agent.self after) = Agent._on_tool_start agent /\
  Agent._on_tool_end (Agent.self after) = Agent._on_tool_end agent /\
  Agent._on_thinking (Agent.self after) = Agent._on_thinking agent /\
  system_prompt (Agent.memory (Agent.self after)) =
    system_prompt (Agent.memory agent) /\
  max_messages (Agent.memory (Agent.self after)) =
    max_messages (Agent.memory agent) /\
  exists tail, Agent.log after = EvAppend (Message_user user_message) :: tail.
Proof.
  intros after. subst after. rewrite run_eq.
  set (s0 := {| Agent.self := agent; Agent.log := [] |} : Agent.State P).
  pose proof (run_loop_follows (Z.to_nat (Agent.max_iterations agent)) 0 [] []
                (stored s0 (Message_user user_message))) as H1.
  pose proof (follows_stored s0 (Message_user user_message)) as H0.
  destruct H1 as ([tail Hlog] & D1 & N1 & A1 & B1 & C1 & S1 & M1).
  destruct H0 as (_ & D0 & N0 & A0 & B0 & C0 & S0 & M0).
  change (Agent.self s0) with agent in *.
  do 7 (split; [congruence|]).
  exists tail. rewrite Hlog. reflexivity.
Qed.

(** X21.  After [clear_memory], with a bound of at least one message,
    the next turn starts afresh: the first request it sends the model is
    the system prompt, which clearing keeps, and the user message, with
    the schemas of the registered tools; nothing of the earlier
    conversation is sent. *)
Theorem clear_memory_starts_afresh (agent : Agent.t P) (user_message : string) :
  0 < Agent.max_iterations agent ->
  1 <= max_messages (Agent.memory agent) ->
  exists reply tail,
    Agent.log (snd (Agent.run (Agent.clear_memory agent) user_message)) =
      EvAppend (Message_user user_message)
      :: hook (Agent._on_thinking agent) EvThinking
      ++ EvChat (get_messages (clear (Agent.memory agent))
                 ++ [Message_user user_message])
                (Some (ToolDispatcher.get_tool_schemas (Agent.dispatcher agent)))
                reply
      :: tail.
Proof.
  intros Hmax Hbound. rewrite run_eq.
  change (Agent.max_iterations (Agent.clear_memory agent))
    with (Agent.max_iterations agent).
  destruct (Z.to_nat (Agent.max_iterations agent)) as [|r] eqn:Hr; [lia|].
  set (s1 := stored {| Agent.self := Agent.clear_memory agent; Agent.log := [] |}
                    (Message_user user_message)).
  destruct (run_loop_asks_first r 0 [] [] s1) as [[tail Hlog] _].
  exists (snd (reply_at s1)), tail.
  rewrite Hlog, asked_log.
  assert (Hmem : get_messages (Agent.memory (Agent.self s1)) =
                 get_messages (clear (Agent.memory agent))
                 ++ [Message_user user_message]).
  { unfold s1, stored, Agent.clear_memory. cbn [Agent.self Agent.with_memory Agent.memory].
    unfold _trim_if_needed, messages_append, clear.
    cbn [messages max_messages system_prompt length app].
    destruct (Z.gtb_spec (Z.of_nat 1) (max_messages (Agent.memory agent))) as [Hgt|_];
      [lia|].
    unfold get_messages. cbn [messages system_prompt].
    rewrite app_nil_r. reflexivity. }
  rewrite Hmem. unfold s1, stored, schemas. cbn [Agent.log Agent.self app].
  rewrite <- !app_assoc. reflexivity.
Qed.
End AgentFacts.

(** ** The dispatcher and arguments that are a raw string *)

Section DispatcherFacts.
Context {RT : PyRuntime}.

(** C8 (as the code has it).  For a call on a registered tool whose
    arguments are a raw string, the dispatcher tries to parse the string.
    When it parses to a mapping, the tool is executed with the mapping as
    its keyword arguments, and an exception the tool raises is wrapped in
    [ToolExecutionError].  When parsing fails the string is kept as it
    is, and when it parses to something that is not a mapping that value
    is kept; neither can be unpacked as keyword arguments, so the call
    fails with [ToolExecutionError] and the tool is not entered. *)
Theorem raw_string_arguments
    (d : ToolDispatcher.t) (tool : Tool.t) (tool_name raw : string)
    (id : option string) :
  ToolRegistry.get (ToolDispatcher.registry d) tool_name = Some tool ->
  ToolDispatcher.execute d
    {| ToolCall.name := tool_name;
       ToolCall.arguments := PyStr raw;
       ToolCall.id := id |} =
  match json_loads raw with
  | Some (PyDict kwargs) =>
      match Tool.execute tool kwargs with
      | Returned result => Returned result
      | Raised e => Raised (ToolExecutionError tool_name (exn_str e))
      end
  | Some other =>
      Raised (ToolExecutionError tool_name
                ("execute() argument after ** must be a mapping, not "
                 ++ type_name other))
  | None =>
      Raised (ToolExecutionError tool_name
                "execute() argument after ** must be a mapping, not str")
  end.
Proof.
  intros Hget. unfold ToolDispatcher.execute. cbn [ToolCall.name ToolCall.arguments].
  rewrite Hget. unfold ToolDispatcher.resolve_arguments.
  destruct (json_loads raw) as [[ | | | | | ]|]; reflexivity.
Qed.

End DispatcherFacts.

(** ** Examples *)

Import Fixtures.

Lemma trim_keeps_most_recent_witness :
  let m := {| messages := [Message_user "a"];
              system_prompt := Some "s";
              max_messages := 2 |} in
  let ops := [AddAssistant "b" None; AddUser "c"; AddAssistant "d" None] in
  (exists dropped,
      messages m ++ map op_message ops = dropped ++ messages (apply_ops m ops)) /\
  Z.of_nat (length (messages (apply_ops m ops))) = max_messages m /\
  system_prompt (apply_ops m ops) = system_prompt m /\
  max_messages (apply_ops m ops) = max_messages m /\
  (forall p, system_prompt m = Some p -> p <> "" ->
     get_messages (apply_ops m ops) = Message_system p :: messages (apply_ops m ops) /\
     Z.of_nat (length (get_messages (apply_ops m ops))) = max_messages m + 1).
Proof.
  intros m ops. apply (trim_keeps_most_recent m ops).
  - cbn. lia.
  - cbn. lia.
  - discriminate.
Defined.

Lemma to_dict_from_dict_roundtrip_witness :
  let call := TcDict {| tcd_function :=
                          Some {| fd_name := Some "calculator";
                                  fd_arguments :=
                                    Some (PyDict [("expression", PyStr "2+2")]) |};
                        tcd_name := None; tcd_arguments := None;
                        tcd_id := None; tcd_raw := None |} in
  let m := {| messages := [ Message_user "what is 2+2?";
                            Message_assistant "" (Some [call]);
                            Message_tool_result "4" "call_1_calculator";
                            Message_assistant "The answer is 4." None ];
              system_prompt := Some "s";
              max_messages := 7 |} in
  exists m',
    from_dict (to_dict m) = Returned m' /\
    system_prompt m' = system_prompt m /\
    Forall2 message_equiv (messages m) (messages m') /\
    (Forall (fun msg => tool_calls msg <> Some [] /\
                        Forall plain_dict (requests msg)) (messages m) ->
     messages m' = messages m).
Proof.
  intros call m. apply (to_dict_from_dict_roundtrip m).
  repeat constructor.
Defined.

Lemma final_answer_without_tools_witness :
  fst (Agent.run (agent ([inr (says "Hello")] : Script) 100 10) "hi") =
  Returned {| AgentResponse.content := "Hello";
              AgentResponse.tool_calls_made := [];
              AgentResponse.tool_results := [] |}.
Proof.
  refine (proj1 (final_answer_without_tools
                   (agent ([inr (says "Hello")] : Script) 100 10) "hi"
                   [] (says "Hello") _ _ _)).
  - reflexivity.
  - reflexivity.
  - reflexivity.
Defined.

Lemma exhaustion_after_max_iterations_witness :
  Z.of_nat (model_calls (Agent.log (snd (Agent.run (agent insistent 100 3) "hi")))) = 3 /\
  AgentResponse.tool_calls_made
    (match fst (Agent.run (agent insistent 100 3) "hi") with
     | Returned response => response
     | Raised _ => {| AgentResponse.content := "";
                      AgentResponse.tool_calls_made := [];
                      AgentResponse.tool_results := [] |}
     end) = ["echo"; "echo"; "echo"].
Proof.
  assert (Halways : always_requests_tools (P := Insistent)).
  { intros p msgs tools. exists (wants [request "echo" "again"]).
    split; [reflexivity|]. split; [discriminate|]. repeat constructor. }
  pose proof (exhaustion_after_max_iterations (agent insistent 100 3) "hi"
                ltac:(cbn; lia) Halways) as (Hout & Hcalls & _).
  split; [exact Hcalls|]. rewrite Hout. reflexivity.
Defined.

Lemma unknown_tool_is_reported_witness :
  let s := {| Agent.self :=
                agent ([inr (wants [request "nope" "x"]); inr (says "Sorry.")] : Script)
                      100 10;
              Agent.log := [] |} in
  ToolDispatcher.execute dispatcher
    {| ToolCall.name := "nope";
       ToolCall.arguments := PyDict [("text", PyStr "x")];
       ToolCall.id := None |} =
    Raised (ToolNotFoundError "Tool 'nope' not found. Available tools: echo, note") /\
  exists s2,
    messages (Agent.memory (Agent.self s2)) =
      [ Message_assistant "" (Some [request "nope" "x"]);
        Message_tool_result
          "Error: Tool not found: Tool 'nope' not found. Available tools: echo, note"
          "call_1_nope" ] /\
    follows (asked s2) (snd (Agent.run_loop 2 0 [] [] s)).
Proof.
  intros s.
  destruct (unknown_tool_is_reported s 1 (request "nope" "x")
              {| ToolCall.name := "nope";
                 ToolCall.arguments := PyDict [("text", PyStr "x")];
                 ToolCall.id := None |}
              [] [] [] eq_refl eq_refl)
    as (Hexec & _ & Hround).
  split; [exact Hexec|].
  destruct (Hround 0%nat (wants [request "nope" "x"]) eq_refl eq_refl)
    as (s2 & _ & Hmem & Hnext).
  exists s2. split; [rewrite Hmem; reflexivity | exact Hnext].
Defined.

Lemma tool_results_follow_requests_witness :
  correlated
    (appended
       (Agent.log
          (snd (Agent.run
                  (agent ([inr (wants [request "echo" "4"]); inr (says "4.")] : Script)
                         100 10)
                  "2+2?")))).
Proof.
  refine (proj1 (tool_results_follow_requests
                   (agent ([inr (wants [request "echo" "4"]); inr (says "4.")] : Script)
                          100 10)
                   "2+2?" _)).
  intros pre msg post H. destruct pre; discriminate H.
Defined.

(** C1, as stated, fails in two ways.  With a bound of two messages, a
    turn of one tool round leaves the tool result stored and its request
    trimmed away; and two requests for the same tool in one round, without
    ids, get the same synthesized id, so each result answers to both. *)
Lemma tool_result_without_unique_request :
  ~ correlated_exactly_once
      (messages
         (Agent.memory
            (Agent.self
               (snd (Agent.run
                       (agent ([inr (wants [request "echo" "4"]); inr (says "4.")]
                               : Script) 2 10)
                       "2+2?"))))) /\
  ~ correlated_exactly_once
      (messages
         (Agent.memory
            (Agent.self
               (snd (Agent.run
                       (agent ([inr (wants [request "echo" "a"; request "echo" "b"]);
                                inr (says "done")] : Script) 100 10)
                       "twice"))))).
Proof.
  split.
  - intros H.
    destruct (H [] (Message_tool_result "4" "call_1_echo")
                [Message_assistant "4." None] eq_refl eq_refl)
      as (j & k & (a & tcs & d & Hj & _) & _).
    destruct j; discriminate Hj.
  - intros H.
    set (ask := Message_assistant "" (Some [request "echo" "a"; request "echo" "b"])).
    destruct (H [Message_user "twice"; ask]
                (Message_tool_result "a" "call_1_echo")
                [Message_tool_result "b" "call_1_echo"; Message_assistant "done" None]
                eq_refl eq_refl)
      as (j & k & _ & Huniq).
    assert (Hat : forall n text,
               nth_error [request "echo" "a"; request "echo" "b"] n
                 = Some (request "echo" text) ->
               request_at [Message_user "twice"; ask] 1 n (Some "call_1_echo")).
    { intros n text Hn. exists ask, [request "echo" "a"; request "echo" "b"],
        (request "echo" text).
      repeat split; try assumption.
      eexists _, 1. split; reflexivity. }
    destruct (Huniq 1%nat 0%nat (Hat 0%nat "a" eq_refl)) as [_ H0].
    destruct (Huniq 1%nat 1%nat (Hat 1%nat "b" eq_refl)) as [_ H1].
    congruence.
Defined.

(** C4 (the code departs from the claim).  With a provider that cannot
    be reached, [run] ends the turn with the sentence that communicates
    the failure, and keeps the tool activity of the round that came
    before it.  [run_stream], on the same agents and messages, makes the
    same model call without the handler [run] has around it: the
    [LLMError] leaves the generator, nothing is yielded, and the turn has
    no content at all. *)
Theorem stream_failure_propagates :
  let down := "Failed to connect to Ollama: down" in
  let unreachable := agent ([] : Script) 100 10 in
  let fails_later := agent ([inr (wants [request "echo" "4"])] : Script) 100 10 in
  (fst (Agent.run unreachable "hi") =
     Returned {| AgentResponse.content := "Sorry, I encountered an error: " ++ down;
                 AgentResponse.tool_calls_made := [];
                 AgentResponse.tool_results := [] |} /\
   fst (Agent.run_stream unreachable "hi") =
     Raised (LLMError LLMConnectionError down) /\
   yielded (Agent.log (snd (Agent.run_stream unreachable "hi"))) = []) /\
  (fst (Agent.run fails_later "2+2?") =
     Returned {| AgentResponse.content := "Sorry, I encountered an error: " ++ down;
                 AgentResponse.tool_calls_made := ["echo"];
                 AgentResponse.tool_results :=
                   [{| ToolResult.success := true;
                       ToolResult.data := PyStr "4";
                       ToolResult.error := None |}] |} /\
   fst (Agent.run_stream fails_later "2+2?") =
     Raised (LLMError LLMConnectionError down) /\
   yielded (Agent.log (snd (Agent.run_stream fails_later "2+2?"))) = []).
Proof. vm_compute. repeat split. Qed.

Lemma raw_string_arguments_witness :
  ToolDispatcher.execute dispatcher
    {| ToolCall.name := "note";
       ToolCall.arguments := PyStr "{}";
       ToolCall.id := None |} =
  Returned {| ToolResult.success := true;
              ToolResult.data := PyStr "noted";
              ToolResult.error := None |}.
Proof.
  exact (raw_string_arguments dispatcher note "note" "{}" None eq_refl).
Defined.

(** C8, as stated, fails: a raw string that does not parse does not reach
    a tool that would accept anything; the call fails before the tool is
    entered. *)
Lemma raw_string_never_reaches_tool :
  ToolDispatcher.execute dispatcher
    {| ToolCall.name := "note";
       ToolCall.arguments := PyStr "remember the milk";
       ToolCall.id := None |} =
  Raised (ToolExecutionError "note"
            "execute() argument after ** must be a mapping, not str").
Proof. reflexivity. Defined.

(** A turn with one tool round: the request, its result, the answer. *)
Example one_round_then_answer :
  let after :=
    Agent.run (agent ([inr (wants [request "echo" "4"]); inr (says "The answer is 4.")]
                      : Script) 100 10) "2+2?" in
  fst after =
    Returned {| AgentResponse.content := "The answer is 4.";
                AgentResponse.tool_calls_made := ["echo"];
                AgentResponse.tool_results :=
                  [{| ToolResult.success := true;
                      ToolResult.data := PyStr "4";
                      ToolResult.error := None |}] |} /\
  messages (Agent.memory (Agent.self (snd after))) =
    [ Message_user "2+2?";
      Message_assistant "" (Some [request "echo" "4"]);
      Message_tool_result "4" "call_1_echo";
      Message_assistant "The answer is 4." None ] /\
  model_calls (Agent.log (snd after)) = 2%nat.
Proof. vm_compute. repeat split. Qed.

(** What the round trip normalizes: a provider object comes back as a
    plain dict with its name and arguments, an empty list of tool calls as
    [None]. *)
Example roundtrip_normalizes :
  from_dict
    (to_dict
       {| messages :=
            [ Message_assistant ""
                (Some [TcObject (FnObject "echo" (PyDict [("text", PyStr "4")]))]);
              Message_assistant "hello" (Some []) ];
          system_prompt := None;
          max_messages := 5 |}) =
  Returned
    {| messages :=
         [ Message_assistant "" (Some [request "echo" "4"]);
           Message_assistant "hello" None ];
       system_prompt := None;
       max_messages := 100 |}.
Proof. reflexivity. Qed.

(** ** The registry and the dispatcher: further properties *)

Section DictFacts.
Variable V : Type.

Lemma dict_get_set_eq (d : list (string * V)) k v :
  dict_get (dict_set d k v) k = Some v.
Proof.
  induction d as [|[k' v'] d IH]; cbn.
  - rewrite String.eqb_refl. reflexivity.
  - destruct (String.eqb k k') eqn:E; cbn; rewrite E; [reflexivity | exact IH].
Qed.

Lemma dict_get_set_ne (d : list (string * V)) k k' v :
  k' <> k -> dict_get (dict_set d k v) k' = dict_get d k'.
Proof.
  intros Hne. induction d as [|[k0 v0] d IH]; cbn.
  - destruct (String.eqb_spec k' k); [contradiction | reflexivity].
  - destruct (String.eqb_spec k k0) as [->|Hk]; cbn.
    + destruct (String.eqb_spec k' k0); [contradiction | reflexivity].
    + destruct (String.eqb k' k0); [reflexivity | exact IH].
Qed.

Lemma dict_get_none (d : list (string * V)) k :
  dict_get d k = None <-> ~ In k (dict_keys d).
Proof.
  induction d as [|[k0 v0] d IH]; cbn.
  - split; [intros _ [] | reflexivity].
  - destruct (String.eqb_spec k k0) as [->|Hk].
    + split; [discriminate | intros H; contradiction H; left; reflexivity].
    + rewrite IH. split.
      * intros H [E|Hin]; [apply Hk; symmetry; exact E | exact (H Hin)].
      * intros H Hin. apply H. right. exact Hin.
Qed.

Lemma dict_keys_set (d : list (string * V)) k v :
  dict_keys (dict_set d k v) =
  match dict_get d k with
  | Some _ => dict_keys d
  | None => dict_keys d ++ [k]
  end.
Proof.
  induction d as [|[k0 v0] d IH]; cbn; [reflexivity|].
  destruct (String.eqb k k0); cbn; [reflexivity|].
  unfold dict_keys in IH. rewrite IH.
  destruct (dict_get d k); reflexivity.
Qed.

Lemma dict_set_length (d : list (string * V)) k v :
  length (dict_set d k v) =
  match dict_get d k with
  | Some _ => length d
  | None => S (length d)
  end.
Proof.
  induction d as [|[k0 v0] d IH]; cbn; [reflexivity|].
  destruct (String.eqb k k0); cbn; [reflexivity|].
  rewrite IH. destruct (dict_get d k); reflexivity.
Qed.

Lemma dict_set_NoDup (d : list (string * V)) k v :
  NoDup (dict_keys d) -> NoDup (dict_keys (dict_set d k v)).
Proof.
  intros Hd. rewrite dict_keys_set.
  destruct (dict_get d k) eqn:E; [exact Hd|].
  apply dict_get_none in E.
  apply NoDup_app; [exact Hd | repeat constructor; intros [] | ].
  intros x Hx [<-|[]]. exact (E Hx).
Qed.

End DictFacts.

Section RegistryFacts.

(** X1.  After [register tool], looking up the tool's name gives that
    tool, the name is contained in the registry, and every other name
    looks up as before: a later registration under a name replaces the
    earlier one and touches nothing else. *)
Theorem register_then_get (r : ToolRegistry.t) (tool : Tool.t) :
  ToolRegistry.get (ToolRegistry.register r tool) (Tool.name tool) = Some tool /\
  ToolRegistry.contains (ToolRegistry.register r tool) (Tool.name tool) = true /\
  (forall name, name <> Tool.name tool ->
     ToolRegistry.get (ToolRegistry.register r tool) name = ToolRegistry.get r name /\
     ToolRegistry.contains (ToolRegistry.register r tool) name =
       ToolRegistry.contains r name).
Proof.
  unfold ToolRegistry.get, ToolRegistry.contains, ToolRegistry.register.
  cbn [ToolRegistry._tools]. rewrite dict_get_set_eq.
  split; [reflexivity|]. split; [reflexivity|].
  intros name Hne. rewrite (dict_get_set_ne _ _ _ _ _ Hne). split; reflexivity.
Qed.

(** X2.  Registering a name that is already there leaves the list of
    names as it is, order and length; registering a new name puts it last.
    So a registry filled by registrations never lists a name twice, and it
    has as many schemas as names. *)
Theorem register_keeps_names_unique :
  (forall r tool,
     match ToolRegistry.get r (Tool.name tool) with
     | Some _ =>
         ToolRegistry.list_tools (ToolRegistry.register r tool) =
           ToolRegistry.list_tools r /\
         ToolRegistry.len (ToolRegistry.register r tool) = ToolRegistry.len r
     | None =>
         ToolRegistry.list_tools (ToolRegistry.register r tool) =
           ToolRegistry.list_tools r ++ [Tool.name tool] /\
         ToolRegistry.len (ToolRegistry.register r tool) = S (ToolRegistry.len r)
     end) /\
  (forall tools,
     let r := fold_left ToolRegistry.register tools ToolRegistry.empty in
     NoDup (ToolRegistry.list_tools r) /\
     length (ToolRegistry.list_tools r) = ToolRegistry.len r /\
     length (ToolRegistry.get_all_schemas r) = ToolRegistry.len r).
Proof.
  split.
  - intros r tool.
    unfold ToolRegistry.get, ToolRegistry.list_tools, ToolRegistry.len,
      ToolRegistry.register.
    cbn [ToolRegistry._tools]. rewrite dict_keys_set, dict_set_length.
    destruct (dict_get _ _); split; reflexivity.
  - intros tools r. subst r.
    assert (H : forall r0, NoDup (ToolRegistry.list_tools r0) ->
                NoDup (ToolRegistry.list_tools
                         (fold_left ToolRegistry.register tools r0))).
    { induction tools as [|t tools IH]; intros r0 H0; [exact H0|].
      cbn [fold_left]. apply IH.
      unfold ToolRegistry.list_tools, ToolRegistry.register. cbn.
      apply dict_set_NoDup. exact H0. }
    split; [apply H; constructor|].
    unfold ToolRegistry.list_tools, ToolRegistry.get_all_schemas,
      ToolRegistry.len, dict_keys, dict_values.
    rewrite !length_map. split; reflexivity.
Qed.

End RegistryFacts.

Section DispatchFacts.
Context {RT : PyRuntime}.

(** X3.  What [execute] gives tells what happened.  It returns a result
    only when the tool is registered, the arguments resolve to a mapping
    and the tool itself returned that result, failed results included.
    It raises [ToolNotFoundError] exactly when the name is not
    registered, and the message then names the tool and lists the
    registered names.  A [ToolExecutionError] it raises carries the name
    of the call and comes from a registered tool; a registered tool whose
    arguments do not resolve to a mapping gives one. *)
Theorem execute_error_classes (d : ToolDispatcher.t) (tc : ToolCall.t) :
  let name := ToolCall.name tc in
  let found := ToolRegistry.get (ToolDispatcher.registry d) name in
  let arguments := ToolDispatcher.resolve_arguments (ToolCall.arguments tc) in
  (forall result,
     ToolDispatcher.execute d tc = Returned result ->
     exists tool kwargs,
       found = Some tool /\ arguments = PyDict kwargs /\
       Tool.execute tool kwargs = Returned result) /\
  (found = None ->
   ToolDispatcher.execute d tc =
     Raised (ToolNotFoundError
               ("Tool '" ++ name ++ "' not found. Available tools: "
                ++ join ", " (ToolRegistry.list_tools (ToolDispatcher.registry d))))) /\
  (forall msg,
     ToolDispatcher.execute d tc = Raised (ToolNotFoundError msg) -> found = None) /\
  (forall n msg,
     ToolDispatcher.execute d tc = Raised (ToolExecutionError n msg) ->
     n = name /\ found <> None) /\
  (forall tool,
     found = Some tool ->
     (forall kwargs, arguments <> PyDict kwargs) ->
     exists msg, ToolDispatcher.execute d tc = Raised (ToolExecutionError name msg)).
Proof.
  intros name found arguments. subst name found arguments.
  unfold ToolDispatcher.execute.
  destruct (ToolRegistry.get _ _) as [tool|] eqn:Hget.
  - unfold ToolDispatcher.call_execute.
    split; [|split; [|split; [|split]]].
    + intros result H.
      destruct (ToolDispatcher.resolve_arguments _) as [ | | | | |kwargs] eqn:Hargs;
        try discriminate H.
      destruct (Tool.execute tool kwargs) as [r|e] eqn:Hrun; [|discriminate H].
      exists tool, kwargs. repeat split. congruence.
    + discriminate.
    + intros msg H.
      destruct (ToolDispatcher.resolve_arguments _); try discriminate H.
      destruct (Tool.execute tool _); discriminate H.
    + intros n msg H. split; [|discriminate].
      destruct (ToolDispatcher.resolve_arguments _) as [ | | | | |kwargs];
        try (inversion H; reflexivity).
      destruct (Tool.execute tool kwargs); inversion H; reflexivity.
    + intros tool' _ Hno.
      destruct (ToolDispatcher.resolve_arguments _) as [ | | | | |kwargs];
        try (eexists; reflexivity).
      exfalso. exact (Hno kwargs eq_refl).
  - split; [|split; [|split; [|split]]]; try discriminate; reflexivity.
Qed.

(** X4.  [execute_multiple] on calls for which [execute] raises
    nothing but [ToolNotFoundError] and [ToolExecutionError], the two
    classes its handler names: it returns one result per call, in the
    order of the calls, an error standing as the failed result that
    carries its message. *)
Theorem execute_multiple_collects_results
    (d : ToolDispatcher.t) (calls : list ToolCall.t) :
  Forall (fun tc =>
            forall e, ToolDispatcher.execute d tc = Raised e ->
                      (exists msg, e = ToolNotFoundError msg) \/
                      (exists n msg, e = ToolExecutionError n msg))
         calls ->
  ToolDispatcher.execute_multiple d calls =
  Returned (map (fun tc => recorded_result (ToolDispatcher.execute d tc)) calls).
Proof.
  induction 1 as [|tc calls Hcaught _ IH]; [reflexivity|].
  cbn [ToolDispatcher.execute_multiple map]. rewrite IH.
  destruct (ToolDispatcher.execute d tc) as [result|e]; [reflexivity|].
  destruct (Hcaught e eq_refl) as [[msg ->] | (n & msg & ->)]; reflexivity.
Qed.

End DispatchFacts.

(** ** Conversation memory: further properties *)

Section MoreMemoryFacts.

Lemma trim_length m :
  Z.of_nat (length (messages (_trim_if_needed m))) =
  Z.max 0 (Z.min (Z.of_nat (length (messages m))) (max_messages m)).
Proof.
  unfold _trim_if_needed.
  destruct (Z.gtb_spec (Z.of_nat (length (messages m))) (max_messages m)) as [Hgt|Hle];
    cbn [messages]; [rewrite length_skipn|]; lia.
Qed.

Lemma apply_op_length m op :
  Z.of_nat (length (messages (apply_op m op))) =
  Z.max 0 (Z.min (Z.of_nat (length (messages m)) + 1) (max_messages m)).
Proof.
  rewrite apply_op_eq, trim_length. cbn [messages_append messages max_messages].
  rewrite length_app. cbn [length]. lia.
Qed.

(** X5.  Whatever the bound and however many messages are stored, one
    append leaves [min (stored + 1, max_messages)] messages, and none when
    that is negative: after any append the stored sequence is within a
    bound that is not negative, even if it was beyond it before. *)
Theorem append_restores_bound (m : ConversationMemory) (op : AppendOp) :
  Z.of_nat (memory_len (apply_op m op)) =
    Z.max 0 (Z.min (Z.of_nat (memory_len m) + 1) (max_messages m)) /\
  (0 <= max_messages m ->
   Z.of_nat (memory_len (apply_op m op)) <= max_messages m).
Proof.
  unfold memory_len. split; [apply apply_op_length|].
  intros Hn. rewrite apply_op_length. lia.
Qed.

Lemma apply_op_nonpositive m op :
  max_messages m <= 0 -> messages (apply_op m op) = [].
Proof.
  intros Hn. apply length_zero_iff_nil.
  pose proof (apply_op_length m op). lia.
Qed.

(** X6.  With a bound of zero or less the memory keeps nothing: after any
    non-empty sequence of appends no message is stored, there is no last
    message, and what is read for the model is what a cleared memory
    gives, the system prompt alone. *)
Theorem nonpositive_bound_keeps_nothing (m : ConversationMemory) (ops : list AppendOp) :
  max_messages m <= 0 ->
  ops <> [] ->
  messages (apply_ops m ops) = [] /\
  get_last_message (apply_ops m ops) = None /\
  get_messages (apply_ops m ops) = get_messages (clear m).
Proof.
  intros Hn Hne.
  assert (Hempty : messages (apply_ops m ops) = []).
  { destruct ops as [|op ops] using rev_ind; [contradiction Hne; reflexivity|].
    unfold apply_ops. rewrite fold_left_app. cbn [fold_left].
    apply apply_op_nonpositive.
    fold (apply_ops m ops). rewrite apply_ops_max_messages. exact Hn. }
  split; [exact Hempty|]. split.
  - unfold get_last_message. rewrite Hempty. reflexivity.
  - unfold get_messages. rewrite Hempty, apply_ops_system_prompt. reflexivity.
Qed.

(** X7.  With a bound of at least one, the last message after an append
    is the message appended. *)
Theorem last_message_is_the_appended (m : ConversationMemory) (op : AppendOp) :
  1 <= max_messages m ->
  get_last_message (apply_op m op) = Some (op_message op).
Proof.
  intros Hn. unfold get_last_message.
  rewrite apply_op_messages by lia.
  rewrite skipn_app, length_app. cbn [length].
  replace (length (messages m) + 1 - Z.to_nat (max_messages m) - length (messages m))%nat
    with 0%nat by lia.
  cbn [skipn]. rewrite map_app. apply last_last.
Qed.

(** *** Reading a serialized memory *)

Lemma MessageRole_of_value_inv v r :
  MessageRole_of_value v = Returned r -> v = role_value r.
Proof.
  unfold MessageRole_of_value.
  destruct (String.eqb_spec v "system"); [intros H; inversion H; subst; reflexivity|].
  destruct (String.eqb_spec v "user"); [intros H; inversion H; subst; reflexivity|].
  destruct (String.eqb_spec v "assistant"); [intros H; inversion H; subst; reflexivity|].
  destruct (String.eqb_spec v "tool"); [intros H; inversion H; subst; reflexivity|].
  discriminate.
Qed.

Lemma message_of_dict_cases md :
  match message_of_dict md with
  | Returned msg => valid_message_dict md /\ same_fields md msg
  | Raised e =>
      ~ valid_message_dict md /\
      (e = KeyError "role" \/ e = KeyError "content" \/
       exists v, md_role md = Some v /\
                 e = ValueError ("'" ++ v ++ "' is not a valid MessageRole"))
  end.
Proof.
  unfold message_of_dict, valid_message_dict, same_fields.
  destruct (md_role md) as [v|] eqn:Hrole; cbn.
  - destruct (MessageRole_of_value v) as [r|e] eqn:Hv; cbn.
    + apply MessageRole_of_value_inv in Hv. subst v.
      destruct (md_content md) as [c|] eqn:Hc; cbn.
      * repeat split; try reflexivity; [exists r; reflexivity | discriminate].
      * split; [intros [_ H]; apply H; reflexivity | right; left; reflexivity].
    + split.
      * intros [[r Hr] _]. inversion Hr; subst.
        rewrite role_value_roundtrip in Hv. discriminate Hv.
      * right. right. exists v. split; [reflexivity|].
        unfold MessageRole_of_value in Hv.
        destruct (String.eqb v "system"); [discriminate|].
        destruct (String.eqb v "user"); [discriminate|].
        destruct (String.eqb v "assistant"); [discriminate|].
        destruct (String.eqb v "tool"); [discriminate|].
        inversion Hv. reflexivity.
  - split; [intros [[r Hr] _]; discriminate Hr | left; reflexivity].
Qed.

Lemma omap_message_of_dict_cases mds :
  match omap message_of_dict mds with
  | Returned msgs => Forall valid_message_dict mds /\ Forall2 same_fields mds msgs
  | Raised e =>
      ~ Forall valid_message_dict mds /\
      (e = KeyError "role" \/ e = KeyError "content" \/
       exists v, e = ValueError ("'" ++ v ++ "' is not a valid MessageRole"))
  end.
Proof.
  induction mds as [|md mds IH]; cbn [omap].
  - split; constructor.
  - pose proof (message_of_dict_cases md) as Hmd.
    destruct (message_of_dict md) as [msg|e]; cbn [obind].
    + destruct Hmd as [Hv Hs].
      destruct (omap message_of_dict mds) as [msgs|e]; cbn [obind].
      * destruct IH as [Hall H2]. split; constructor; assumption.
      * destruct IH as [Hnot Hkind]. split; [|exact Hkind].
        intros Hall. apply Hnot. inversion Hall; assumption.
    + destruct Hmd as [Hnot Hkind]. split.
      * intros Hall. apply Hnot. inversion Hall; assumption.
      * destruct Hkind as [H|[H|(v & _ & H)]]; [left | right; left | right; right; exists v];
          exact H.
Qed.

(** X8.  [from_dict] loads a serialized memory exactly when every entry
    has a role that is the value of a [MessageRole] and has a content.  It
    then gives, with the default bound and the serialized prompt, one
    message per entry, in order, holding the entry's four fields as they
    are, however many entries there are.  Otherwise it raises, and nothing
    is loaded: [KeyError] for a missing role or content, [ValueError] for
    an unknown role.  Without a ["messages"] key the memory is empty. *)
Theorem from_dict_reads_valid_entries
    (prompt : option string) (entries : list MessageDict) :
  (Forall valid_message_dict entries ->
   exists m,
     from_dict {| d_system_prompt := prompt; d_messages := Some entries |} = Returned m /\
     system_prompt m = prompt /\
     max_messages m = 100 /\
     Forall2 same_fields entries (messages m)) /\
  (~ Forall valid_message_dict entries ->
   exists e,
     from_dict {| d_system_prompt := prompt; d_messages := Some entries |} = Raised e /\
     (e = KeyError "role" \/ e = KeyError "content" \/
      exists v, e = ValueError ("'" ++ v ++ "' is not a valid MessageRole"))) /\
  from_dict {| d_system_prompt := prompt; d_messages := None |} =
    Returned {| messages := []; system_prompt := prompt; max_messages := 100 |}.
Proof.
  unfold from_dict. cbn [d_messages d_system_prompt].
  pose proof (omap_message_of_dict_cases entries) as H.
  destruct (omap message_of_dict entries) as [msgs|e]; cbn [obind].
  - destruct H as [Hall H2]. split; [|split; [|reflexivity]].
    + intros _. eexists. split; [reflexivity|]. cbn. repeat split. exact H2.
    + intros Hnot. contradiction (Hnot Hall).
  - destruct H as [Hnot Hkind]. split; [|split; [|reflexivity]].
    + intros Hall. contradiction (Hnot Hall).
    + intros _. exists e. split; [reflexivity | exact Hkind].
Qed.

Lemma serialize_tool_calls_idempotent tcs :
  _serialize_tool_calls (_serialize_tool_calls tcs) = _serialize_tool_calls tcs.
Proof.
  destruct tcs as [[|tc l]|]; cbn [_serialize_tool_calls]; try reflexivity.
  cbn [map]. f_equal. f_equal.
  - destruct tc; reflexivity.
  - rewrite map_map. apply map_ext. intros x. destruct x; reflexivity.
Qed.

(** X9.  Saving what was loaded gives back what was saved: for every
    memory [m], the memory read from [to_dict m] serializes to [to_dict m]
    again. *)
Theorem to_dict_is_stable (m : ConversationMemory) :
  exists m', from_dict (to_dict m) = Returned m' /\ to_dict m' = to_dict m.
Proof.
  eexists. split; [apply from_dict_to_dict|].
  unfold to_dict. cbn [messages system_prompt]. f_equal. f_equal.
  rewrite map_map. apply map_ext. intros msg.
  cbn [role content tool_calls tool_call_id].
  rewrite serialize_tool_calls_idempotent. reflexivity.
Qed.

(** X10.  [from_dict] does not trim.  A memory read back from [to_dict m]
    holds as many messages as [m], also beyond its own bound of 100; the
    first append after loading then cuts it to at most 100 at once. *)
Theorem loaded_memory_is_cut_at_next_append (m : ConversationMemory) (op : AppendOp) :
  exists m',
    from_dict (to_dict m) = Returned m' /\
    memory_len m' = memory_len m /\
    Z.of_nat (memory_len (apply_op m' op)) = Z.min (Z.of_nat (memory_len m) + 1) 100.
Proof.
  eexists. split; [apply from_dict_to_dict|]. unfold memory_len. split.
  - cbn [messages]. apply length_map.
  - rewrite apply_op_length. cbn [messages max_messages]. rewrite length_map. lia.
Qed.

(** X11.  For a memory whose tool calls are plain dicts, a save and load
    does not change what the model is sent: the messages read for the
    model from the loaded memory give the same API dicts as those of the
    original memory, also for messages that carry an empty list of tool
    calls. *)
Theorem round_trip_keeps_payload (m : ConversationMemory) :
  Forall (fun msg => Forall plain_dict (requests msg)) (messages m) ->
  exists m',
    from_dict (to_dict m) = Returned m' /\
    map Message_to_dict (get_messages m') = map Message_to_dict (get_messages m).
Proof.
  intros Hplain. eexists. split; [apply from_dict_to_dict|].
  unfold get_messages. cbn [messages system_prompt].
  rewrite !map_app. f_equal. rewrite map_map.
  induction Hplain as [|msg l Hmsg Hl IH]; [reflexivity|].
  cbn [map]. rewrite IH. f_equal.
  unfold Message_to_dict. cbn [role content tool_calls tool_call_id].
  f_equal. unfold requests in Hmsg.
  destruct (tool_calls msg) as [[|tc rest]|]; cbn [_serialize_tool_calls];
    try reflexivity.
  rewrite map_serialize_plain by exact Hmsg. reflexivity.
Qed.

End MoreMemoryFacts.

(** ** The further properties at concrete inputs *)

Lemma register_then_get_witness :
  ToolRegistry.get registry "note" = Some note /\
  ToolRegistry.get registry "echo" = Some echo.
Proof.
  destruct (register_then_get (ToolRegistry.register ToolRegistry.empty echo) note)
    as (Hnote & _ & Hother).
  split; [exact Hnote|].
  destruct (Hother "echo" ltac:(discriminate)) as [Hecho _].
  unfold registry. rewrite Hecho. reflexivity.
Defined.

Lemma execute_error_classes_witness :
  let tc := {| ToolCall.name := "note";
               ToolCall.arguments := PyList [PyStr "milk"];
               ToolCall.id := None |} in
  exists msg,
    ToolDispatcher.execute dispatcher tc = Raised (ToolExecutionError "note" msg).
Proof.
  intros tc.
  destruct (execute_error_classes dispatcher tc) as (_ & _ & _ & _ & Hargs).
  apply (Hargs note eq_refl). intros kwargs H. discriminate H.
Defined.

Lemma execute_multiple_collects_results_witness :
  let call := fun name text =>
    {| ToolCall.name := name;
       ToolCall.arguments := PyDict [("text", PyStr text)];
       ToolCall.id := None |} in
  ToolDispatcher.execute_multiple dispatcher
    [call "echo" "a"; call "nope" "b"; call "echo" "c"] =
  Returned
    [ {| ToolResult.success := true; ToolResult.data := PyStr "a";
         ToolResult.error := None |};
      {| ToolResult.success := false; ToolResult.data := PyNone;
         ToolResult.error :=
           Some "Tool not found: Tool 'nope' not found. Available tools: echo, note" |};
      {| ToolResult.success := true; ToolResult.data := PyStr "c";
         ToolResult.error := None |} ].
Proof.
  intros call.
  apply (execute_multiple_collects_results dispatcher
           [call "echo" "a"; call "nope" "b"; call "echo" "c"]).
  apply Forall_cons; [intros e H; discriminate H|].
  apply Forall_cons; [intros e H; inversion H; left; eexists; reflexivity|].
  apply Forall_cons; [intros e H; discriminate H|].
  apply Forall_nil.
Defined.

Lemma append_restores_bound_witness :
  let m := {| messages := [Message_user "a"; Message_user "b"; Message_user "c"];
              system_prompt := None;
              max_messages := 2 |} in
  Z.of_nat (memory_len (apply_op m (AddUser "d"))) <= 2.
Proof.
  intros m.
  exact (proj2 (append_restores_bound m (AddUser "d")) ltac:(cbn; lia)).
Defined.

Lemma nonpositive_bound_keeps_nothing_witness :
  let m := {| messages := [Message_user "a"];
              system_prompt := Some "s";
              max_messages := 0 |} in
  let ops := [AddUser "b"; AddAssistant "c" None] in
  messages (apply_ops m ops) = [] /\
  get_last_message (apply_ops m ops) = None /\
  get_messages (apply_ops m ops) = get_messages (clear m).
Proof.
  intros m ops. apply (nonpositive_bound_keeps_nothing m ops).
  - cbn. lia.
  - discriminate.
Defined.

Lemma last_message_is_the_appended_witness :
  get_last_message
    (apply_op {| messages := [Message_user "a"];
                 system_prompt := None;
                 max_messages := 1 |}
              (AddAssistant "b" None)) =
  Some (Message_assistant "b" None).
Proof.
  apply (last_message_is_the_appended
           {| messages := [Message_user "a"]; system_prompt := None; max_messages := 1 |}
           (AddAssistant "b" None)).
  cbn. lia.
Defined.

Lemma from_dict_reads_valid_entries_witness :
  let entries :=
    [ {| md_role := Some "user"; md_content := Some "2+2?";
         md_tool_calls := None; md_tool_call_id := None |};
      {| md_role := Some "tool"; md_content := Some "4";
         md_tool_calls := None; md_tool_call_id := Some "call_1_echo" |} ] in
  (exists m,
     from_dict {| d_system_prompt := Some "s"; d_messages := Some entries |} = Returned m /\
     system_prompt m = Some "s" /\
     max_messages m = 100 /\
     Forall2 same_fields entries (messages m)) /\
  (exists e,
     from_dict {| d_system_prompt := None;
                  d_messages :=
                    Some [ {| md_role := Some "robot"; md_content := Some "x";
                              md_tool_calls := None; md_tool_call_id := None |} ] |}
       = Raised e /\
     (e = KeyError "role" \/ e = KeyError "content" \/
      exists v, e = ValueError ("'" ++ v ++ "' is not a valid MessageRole"))).
Proof.
  intros entries. split.
  - apply (proj1 (from_dict_reads_valid_entries (Some "s") entries)).
    constructor; [|constructor; [|constructor]].
    + split; [exists USER; reflexivity | discriminate].
    + split; [exists TOOL; reflexivity | discriminate].
  - apply (proj1 (proj2 (from_dict_reads_valid_entries None _))).
    intros H. inversion H as [|md l [[r Hr] _] _]; subst.
    destruct r; discriminate Hr.
Defined.

Lemma round_trip_keeps_payload_witness :
  let m := {| messages := [ Message_user "hi";
                            Message_assistant "hello" (Some []);
                            Message_assistant "" (Some [request "echo" "4"]);
                            Message_tool_result "4" "call_1_echo" ];
              system_prompt := Some "s";
              max_messages := 3 |} in
  exists m',
    from_dict (to_dict m) = Returned m' /\
    map Message_to_dict (get_messages m') = map Message_to_dict (get_messages m).
Proof.
  intros m. apply (round_trip_keeps_payload m).
  repeat constructor.
Defined.

Lemma constructor_replaces_empty_memory_witness :
  let given := {| messages := []; system_prompt := Some "mine"; max_messages := 5 |} in
  let made := Agent.new registry insistent None (Some given) None in
  Agent.memory made =
    {| messages := []; system_prompt := Some SYSTEM_PROMPT; max_messages := 100 |} /\
  get_messages (add_user_message (Agent.memory made) "hi") =
    [Message_system SYSTEM_PROMPT; Message_user "hi"].
Proof.
  intros given made.
  exact (proj1 (constructor_replaces_empty_memory registry insistent None given None "hi")
               eq_refl).
Defined.

Lemma no_iterations_no_model_call_witness :
  model_calls (Agent.log (snd (Agent.run (agent insistent 100 0) "hi"))) = 0%nat /\
  yielded (Agent.log (snd (Agent.run_stream (agent insistent 100 0) "hi"))) =
    ["I apologize, but I've reached the maximum number of tool calls."].
Proof.
  destruct (no_iterations_no_model_call (agent insistent 100 0) "hi" ltac:(cbn; lia))
    as [Hrun Hstream].
  rewrite Hrun, Hstream. split; reflexivity.
Defined.


Lemma round_keeps_request_order_witness :
  let s := {| Agent.self := agent ([] : Script) 100 10; Agent.log := [] |} in
  let tcs := [request "echo" "a"; request "nope" "b"; request "note" "c"] in
  appended (Agent.log (snd (Agent.process_tool_calls 1 tcs [] [] s))) =
    [ Message_tool_result "a" "call_1_echo";
      Message_tool_result
        "Error: Tool not found: Tool 'nope' not found. Available tools: echo, note"
        "call_1_nope";
      Message_tool_result "noted" "call_1_note" ].
Proof.
  intros s tcs.
  pose (call := fun name text =>
          {| ToolCall.name := name;
             ToolCall.arguments := PyDict [("text", PyStr text)];
             ToolCall.id := None |}).
  destruct (round_keeps_request_order tcs
              [call "echo" "a"; call "nope" "b"; call "note" "c"] 1 [] [] s eq_refl)
    as (_ & _ & _ & Happended).
  rewrite Happended. reflexivity.
Defined.


Lemma streamed_answer_witness :
  let after := Agent.run_stream (agent breaking 100 10) "hi" in
  yielded (Agent.log (snd after)) = ["par"; "tial"] /\
  fst after = Raised (LLMError LLMConnectionError "Stream error: reset") /\
  messages (Agent.memory (Agent.self (snd after))) = [Message_user "hi"].
Proof.
  intros after. subst after.
  destruct (streamed_answer (LLM := breaks_mid_stream)
              (agent breaking 100 10) "hi" breaking breaking
              (says "unused") ["par"; "tial"]
              (Some (LLMConnectionError, "Stream error: reset"))
              ltac:(cbn; lia) eq_refl eq_refl eq_refl)
    as (Hyield & _ & _ & Hout & Hmem).
  split; [exact Hyield|]. split; [exact Hout|].
  rewrite Hmem. reflexivity.
Defined.

(** A stream that ends normally is stored as one assistant message, and
    the content of the reply that preceded it is stored nowhere. *)
Example streamed_answer_is_stored :
  let after := Agent.run_stream (agent ([inr (says "Hello")] : Script) 100 10) "hi" in
  fst after = Returned tt /\
  yielded (Agent.log (snd after)) = ["ok"] /\
  messages (Agent.memory (Agent.self (snd after))) =
    [Message_user "hi"; Message_assistant "ok" None].
Proof. vm_compute. repeat split. Qed.

Lemma clear_memory_starts_afresh_witness :
  let before :=
    Agent.with_memory (agent ([inr (says "Hello")] : Script) 100 10)
      {| messages := [Message_user "earlier"; Message_assistant "reply" None];
         system_prompt := Some "s";
         max_messages := 100 |} in
  exists reply tail,
    Agent.log (snd (Agent.run (Agent.clear_memory before) "hi")) =
      EvAppend (Message_user "hi")
      :: EvChat [Message_system "s"; Message_user "hi"]
                (Some (ToolDispatcher.get_tool_schemas dispatcher)) reply
      :: tail.
Proof.
  intros before.
  exact (clear_memory_starts_afresh before "hi" ltac:(cbn; lia) ltac:(cbn; lia)).
Defined.
